(** * DeepSeek CLI chat client: conversation store and chat gateway

    A shallow embedding of [api_client.py] (class [DeepSeekClient] and the
    dataclass [ChatMessage]) together with the properties of the
    conversation history, the retention step and the request/response
    handling of [chat] and [test_connection].

    Conventions of the embedding
    - a Python [str] is the list of its Unicode code points ([list N]);
    - a Python object that comes out of [json.loads] (and hence anything
      that can end up in a message's [content]) is a [value];
    - methods that only rewrite [self] are functions
      [DeepSeekClient -> DeepSeekClient]; methods that also print, call the
      network or raise run in the monad [M] below (state + console +
      exceptions). *)

From Stdlib Require Import String Ascii.
From Stdlib Require Import ZArith NArith List Bool Lia.
From Stdlib Require Import Floats.SpecFloat.
Import ListNotations.
Local Open Scope Z_scope.

(* ------------------------------------------------------------------ *)
(** ** Python strings *)

Module PyStr.

Definition str := list N.

(** An ASCII literal of the source, as code points. *)
Definition lit (s : string) : str :=
  map N_of_ascii (list_ascii_of_string s).

Fixpoint str_eqb (a b : str) : bool :=
  match a, b with
  | [], [] => true
  | x :: a', y :: b' => N.eqb x y && str_eqb a' b'
  | _, _ => false
  end.

(** [str.isspace()] for one character (CPython's [_PyUnicode_IsWhitespace]). *)
Definition isspace (c : N) : bool :=
  ((9 <=? c) && (c <=? 13) || (28 <=? c) && (c <=? 32)
   || (c =? 133) || (c =? 160) || (c =? 5760)
   || (8192 <=? c) && (c <=? 8202)
   || (c =? 8232) || (c =? 8233) || (c =? 8239) || (c =? 8287)
   || (c =? 12288))%N.

Fixpoint lstrip_with (p : N -> bool) (s : str) : str :=
  match s with
  | [] => []
  | c :: s' => if p c then lstrip_with p s' else s
  end.

Definition rstrip_with (p : N -> bool) (s : str) : str :=
  rev (lstrip_with p (rev s)).

(** [s.strip()] *)
Definition strip (s : str) : str := rstrip_with isspace (lstrip_with isspace s).

(** [s.rstrip('/')] *)
Definition rstrip_slash (s : str) : str := rstrip_with (N.eqb 47) s.

Fixpoint is_prefix (p s : str) : bool :=
  match p, s with
  | [], _ => true
  | x :: p', y :: s' => N.eqb x y && is_prefix p' s'
  | _ :: _, [] => false
  end.

(** [p in s] for two strings: [p] occurs as a substring of [s]. *)
Fixpoint is_infix (p s : str) : bool :=
  is_prefix p s ||
  match s with
  | [] => false
  | _ :: s' => is_infix p s'
  end.

End PyStr.

Import PyStr.

(* ------------------------------------------------------------------ *)
(** ** Python values (the image of [json.loads], plus [None]) *)

#[warnings="-register-all"]
Inductive value : Type :=
| VNone
| VBool (b : bool)
| VInt (z : Z)
| VFloat (f : spec_float)
| VStr (s : str)
| VList (l : list value)
| VDict (d : list (str * value)).

(* ------------------------------------------------------------------ *)
(** ** Python list slicing *)

(** [l[start:]] with Python's index normalisation: a negative [start]
    counts from the end, and the result is clamped to the list. *)
Definition slice_from {A : Type} (start : Z) (l : list A) : list A :=
  let n := Z.of_nat (length l) in
  let i := if start <? 0 then Z.max (start + n) 0 else Z.min start n in
  skipn (Z.to_nat i) l.

(** [l[:stop]] for a non-negative literal [stop]. *)
Definition slice_to {A : Type} (stop : nat) (l : list A) : list A :=
  firstn stop l.

(* ------------------------------------------------------------------ *)
(** ** ChatMessage and DeepSeekClient *)

Record ChatMessage : Type := mkChatMessage {
  role : str;
  content : value
}.

(** [ChatMessage.to_dict] *)
Definition to_dict (msg : ChatMessage) : value :=
  VDict [(lit "role", VStr (role msg)); (lit "content", content msg)].

Record DeepSeekClient : Type := mkDeepSeekClient {
  api_key : str;
  base_url : str;
  model : str;
  max_tokens : Z;
  temperature : spec_float;
  timeout : Z;
  headers : list (str * str);
  conversation_history : list ChatMessage;
  max_history : Z
}.

Definition set_conversation_history (self : DeepSeekClient)
  (h : list ChatMessage) : DeepSeekClient :=
  {| api_key := api_key self; base_url := base_url self; model := model self;
     max_tokens := max_tokens self; temperature := temperature self;
     timeout := timeout self; headers := headers self;
     conversation_history := h; max_history := max_history self |}.

(** The assignment [client.max_history = n] of main.py. *)
Definition set_max_history (self : DeepSeekClient) (n : Z) : DeepSeekClient :=
  {| api_key := api_key self; base_url := base_url self; model := model self;
     max_tokens := max_tokens self; temperature := temperature self;
     timeout := timeout self; headers := headers self;
     conversation_history := conversation_history self; max_history := n |}.

(** [DeepSeekClient.__init__] *)
Definition init (key url mdl : str) (maxtok : Z) (temp : spec_float)
  (tmo : Z) : DeepSeekClient :=
  {| api_key := key;
     base_url := rstrip_slash url;
     model := mdl;
     max_tokens := maxtok;
     temperature := temp;
     timeout := tmo;
     headers := [(lit "Authorization", lit "Bearer " ++ key);
                 (lit "Content-Type", lit "application/json");
                 (lit "User-Agent", lit "DeepSeek-CLI-Chat/1.0")];
     conversation_history := [];
     max_history := 10 |}.

(** [msg.role == 'system'] and [msg.role != 'system'] *)
Definition is_system (msg : ChatMessage) : bool :=
  str_eqb (role msg) (lit "system").

Definition not_system (msg : ChatMessage) : bool := negb (is_system msg).

(** [set_system_prompt] *)
Definition set_system_prompt (self : DeepSeekClient) (system_prompt : str)
  : DeepSeekClient :=
  let h := filter not_system (conversation_history self) in
  match strip system_prompt with
  | [] => set_conversation_history self h
  | _ :: _ =>
      let system_message :=
        mkChatMessage (lit "system") (VStr (strip system_prompt)) in
      set_conversation_history self (system_message :: h)
  end.

(** [_trim_history] *)
Definition _trim_history (self : DeepSeekClient) : DeepSeekClient :=
  let system_messages := filter is_system (conversation_history self) in
  let other_messages := filter not_system (conversation_history self) in
  let other_messages :=
    if max_history self <? Z.of_nat (length other_messages)
    then slice_from (- max_history self) other_messages
    else other_messages in
  set_conversation_history self (system_messages ++ other_messages).

(** [add_user_message] *)
Definition add_user_message (self : DeepSeekClient) (content : value)
  : DeepSeekClient :=
  let user_message := mkChatMessage (lit "user") content in
  _trim_history
    (set_conversation_history self (conversation_history self ++ [user_message])).

(** [add_assistant_message] *)
Definition add_assistant_message (self : DeepSeekClient) (content : value)
  : DeepSeekClient :=
  let assistant_message := mkChatMessage (lit "assistant") content in
  _trim_history
    (set_conversation_history self
       (conversation_history self ++ [assistant_message])).

(** The list comprehension that [chat] sends as ['messages']. *)
Definition request_messages (self : DeepSeekClient) : list value :=
  map to_dict (conversation_history self).

(** [get_history_summary], as the tuple
    (total, system, user, assistant, max_history). *)
Definition has_role (r : str) (msg : ChatMessage) : bool :=
  str_eqb (role msg) r.

Definition get_history_summary (self : DeepSeekClient)
  : nat * nat * nat * nat * Z :=
  let h := conversation_history self in
  (length h,
   length (filter (has_role (lit "system")) h),
   length (filter (has_role (lit "user")) h),
   length (filter (has_role (lit "assistant")) h),
   max_history self).

(** Number of messages whose role is not ['system']. *)
Definition non_system_count (self : DeepSeekClient) : nat :=
  length (filter not_system (conversation_history self)).

(** A sequence of appends, as a caller issues them. *)
Inductive append_call : Type :=
| AppendUser (content : value)
| AppendAssistant (content : value).

Definition run_call (self : DeepSeekClient) (c : append_call) : DeepSeekClient :=
  match c with
  | AppendUser x => add_user_message self x
  | AppendAssistant x => add_assistant_message self x
  end.

Definition run_calls (self : DeepSeekClient) (cs : list append_call)
  : DeepSeekClient :=
  fold_left run_call cs self.


(** What [_trim_history] keeps of the non-system messages: the branch on
    [len(other_messages) > self.max_history], on its own. *)
Definition kept_others (limit : Z) (others : list ChatMessage)
  : list ChatMessage :=
  if limit <? Z.of_nat (length others)
  then slice_from (- limit) others else others.

(** The retention step as the specification words it: split the history
    into the system messages and the rest, keep the last [limit] of the rest
    when the rest is longer than [limit], and put the system messages in
    front. *)
Definition keep_last {A : Type} (n : nat) (l : list A) : list A :=
  skipn (length l - n) l.

Definition retention_policy (limit : nat) (history : list ChatMessage)
  : list ChatMessage :=
  let system_subset := filter is_system history in
  let rest := filter not_system history in
  system_subset ++
  (if (limit <? length rest)%nat then keep_last limit rest else rest).

(* ------------------------------------------------------------------ *)
(** ** Exceptions *)

(** The exception classes that matter to the [except] clauses of the
    module. [ReqConnectTimeout] derives from both [ConnectionError] and
    [Timeout]; [ReqJSONDecodeError] (requests >= 2.27) derives from both
    [RequestException] and [json.JSONDecodeError]; [UnicodeEncodeError]
    is what [print] raises for text the console cannot encode;
    [KeyboardInterrupt] derives from [BaseException] only. *)
Inductive exn_class : Type :=
| ReqTimeout
| ReqConnectionError
| ReqConnectTimeout
| ReqRequestException
| ReqJSONDecodeError
| JsonJSONDecodeError
| KeyError
| IndexError
| TypeError
| AttributeError
| UnicodeEncodeError
| OtherException
| KeyboardInterrupt.

Record exn : Type := mkExn {
  exn_cls : exn_class;
  exn_str : str        (* str(e) *)
}.

Definition is_Timeout (c : exn_class) : bool :=
  match c with ReqTimeout | ReqConnectTimeout => true | _ => false end.

Definition is_ConnectionError (c : exn_class) : bool :=
  match c with ReqConnectionError | ReqConnectTimeout => true | _ => false end.

Definition is_RequestException (c : exn_class) : bool :=
  match c with
  | ReqTimeout | ReqConnectionError | ReqConnectTimeout
  | ReqRequestException | ReqJSONDecodeError => true
  | _ => false
  end.

Definition is_JSONDecodeError (c : exn_class) : bool :=
  match c with ReqJSONDecodeError | JsonJSONDecodeError => true | _ => false end.

Definition is_Exception (c : exn_class) : bool :=
  match c with KeyboardInterrupt => false | _ => true end.

Inductive result (A : Type) : Type :=
| Ok (a : A)
| Raised (e : exn).

Arguments Ok {A} a.
Arguments Raised {A} e.

(* ------------------------------------------------------------------ *)
(** ** Operations on Python values

    The texts of the interpreter's own exceptions are those of CPython
    3.11; only their classes matter below. *)

Definition type_name (v : value) : str :=
  match v with
  | VNone => lit "NoneType"
  | VBool _ => lit "bool"
  | VInt _ => lit "int"
  | VFloat _ => lit "float"
  | VStr _ => lit "str"
  | VList _ => lit "list"
  | VDict _ => lit "dict"
  end.

Definition quoted (s : str) : str := lit "'" ++ s ++ lit "'".

Fixpoint dict_lookup (k : str) (d : list (str * value)) : option value :=
  match d with
  | [] => None
  | (k', v) :: d' => if str_eqb k' k then Some v else dict_lookup k d'
  end.

(** [bool(v)] *)
Definition truthy (v : value) : bool :=
  match v with
  | VNone => false
  | VBool b => b
  | VInt z => negb (z =? 0)
  | VFloat (S754_zero _) => false
  | VFloat _ => true
  | VStr s => match s with [] => false | _ => true end
  | VList l => match l with [] => false | _ => true end
  | VDict d => match d with [] => false | _ => true end
  end.

(** ['k' in v] for a string literal ['k'] *)
Definition contains_str (k : str) (v : value) : result bool :=
  match v with
  | VDict d => Ok (match dict_lookup k d with Some _ => true | None => false end)
  | VList l =>
      Ok (existsb (fun x => match x with VStr s => str_eqb s k | _ => false end) l)
  | VStr s => Ok (is_infix k s)
  | _ => Raised (mkExn TypeError
                   (lit "argument of type " ++ quoted (type_name v)
                    ++ lit " is not iterable"))
  end.

(** [len(v)] *)
Definition py_len (v : value) : result Z :=
  match v with
  | VList l => Ok (Z.of_nat (length l))
  | VStr s => Ok (Z.of_nat (length s))
  | VDict d => Ok (Z.of_nat (length d))
  | _ => Raised (mkExn TypeError
                   (lit "object of type " ++ quoted (type_name v)
                    ++ lit " has no len()"))
  end.

(** [v['k']] for a string literal ['k'] *)
Definition getitem_str (v : value) (k : str) : result value :=
  match v with
  | VDict d =>
      match dict_lookup k d with
      | Some x => Ok x
      | None => Raised (mkExn KeyError (quoted k))
      end
  | VList _ =>
      Raised (mkExn TypeError
                (lit "list indices must be integers or slices, not str"))
  | VStr _ =>
      Raised (mkExn TypeError (lit "string indices must be integers, not 'str'"))
  | _ => Raised (mkExn TypeError
                   (quoted (type_name v) ++ lit " object is not subscriptable"))
  end.

(** Index normalisation of [seq[i]]: a negative index counts from the end. *)
Definition seq_index {A : Type} (l : list A) (i : Z) : option A :=
  let n := Z.of_nat (length l) in
  let j := if i <? 0 then i + n else i in
  if (j <? 0) || (n <=? j) then None else nth_error l (Z.to_nat j).

(** [v[0]]: subscription by the integer literal 0 (a JSON object has
    string keys only, so an integer key is never present). *)
Definition getitem_zero (v : value) : result value :=
  match v with
  | VList l =>
      match seq_index l 0 with
      | Some x => Ok x
      | None => Raised (mkExn IndexError (lit "list index out of range"))
      end
  | VStr s =>
      match seq_index s 0 with
      | Some c => Ok (VStr [c])
      | None => Raised (mkExn IndexError (lit "string index out of range"))
      end
  | VDict _ => Raised (mkExn KeyError (lit "0"))
  | _ => Raised (mkExn TypeError
                   (quoted (type_name v) ++ lit " object is not subscriptable"))
  end.

(** [v.get('k', default)] *)
Definition get_str (v : value) (k : str) (default : value) : result value :=
  match v with
  | VDict d =>
      match dict_lookup k d with
      | Some x => Ok x
      | None => Ok default
      end
  | _ => Raised (mkExn AttributeError
                   (quoted (type_name v) ++ lit " object has no attribute 'get'"))
  end.

(* ------------------------------------------------------------------ *)
(** ** The network and the console *)

(** The arguments of one [requests.post] call. *)
Record Request : Type := mkRequest {
  url : str;
  req_headers : list (str * str);
  req_json : value;
  req_timeout : Z
}.

(** A [requests.Response]: [json] is what [response.json()] does, a parsed
    value or the exception the library raises on an unparsable body. *)
Record Response : Type := mkResponse {
  status_code : Z;
  text : str;
  json : result value
}.

Inductive post_result : Type :=
| PostRaises (e : exn)
| PostReturns (r : Response).

(** The remote end: what [requests.post] does with a request. *)
Definition network : Type := Request -> post_result.

(** One constructor per [print] of the module, with the values its f-string
    interpolates (the elapsed time of line 226 is not modelled). *)
Inductive console_line : Type :=
| Thinking                                  (* chat, line 140 *)
| FormatAbnormal                            (* chat, line 170 *)
| RequestTimedOut (seconds : Z)             (* chat, line 177 *)
| ConnectionFailed                          (* chat, line 180 *)
| RequestFailed (e : str)                   (* chat, line 183 *)
| ParseFailed                               (* chat, line 186 *)
| UnknownError (e : str)                    (* chat, line 189 *)
| InvalidKey                                (* _handle_api_error, line 205 *)
| RateLimited                               (* line 207 *)
| BadRequest (error_message : value)        (* line 209 *)
| ServerError                               (* line 211 *)
| ApiError (status : Z) (error_message : value)   (* line 213 *)
| HttpError (status : Z) (body : str)       (* line 216 *)
| ResponseInfo (parts : list (str * value)) (* _print_response_info, line 236 *)
| HistoryCleared                            (* clear_history, line 244 *)
| Testing                                   (* test_connection, line 274 *)
| TestSucceeded                             (* line 296 *)
| TestFailedHttp (status : Z)               (* line 299 *)
| TestFailed (e : str).                     (* line 304 *)

Inductive event : Type :=
| Post (req : Request)
| Print (line : console_line).

(** A code point of the surrogate range U+D800..U+DFFF. *)
Definition is_surrogate (c : N) : bool := ((55296 <=? c) && (c <=? 57343))%N.

(** The text can be encoded as UTF-8: it holds no surrogate. *)
Definition encodable (s : str) : bool :=
  forallb (fun c => negb (is_surrogate c)) s.

(** The text that an f-string makes of [v] can be encoded: a string is
    interpolated as it is; every other value goes through [repr], which
    escapes the surrogates of the strings inside it. *)
Definition value_encodable (v : value) : bool :=
  match v with
  | VStr s => encodable s
  | _ => true
  end.

(** The line can be encoded: its interpolated texts can. *)
Definition line_encodable (l : console_line) : bool :=
  match l with
  | RequestFailed e | UnknownError e | TestFailed e => encodable e
  | BadRequest error_message | ApiError _ error_message =>
      value_encodable error_message
  | HttpError _ body => encodable body
  | ResponseInfo parts => forallb (fun p => value_encodable (snd p)) parts
  | _ => true
  end.

(** The exception of a line that cannot be encoded.  Python's text for
    it names the codec, the offending character in escaped form, its
    position in the line and the reason, all in ASCII; the model keeps the
    codec and the reason, and no statement below depends on the text
    beyond its being ASCII. *)
Definition encode_error (l : console_line) : exn :=
  mkExn UnicodeEncodeError
        (lit "'utf-8' codec can't encode character: surrogates not allowed").

(* ------------------------------------------------------------------ *)
(** ** The monad of a method call: [self], the trace of effects, and
    exceptions *)

Record world : Type := mkWorld {
  client : DeepSeekClient;
  trace : list event
}.

Definition M (A : Type) : Type := world -> result A * world.

Definition ret {A : Type} (a : A) : M A := fun w => (Ok a, w).

Definition bind {A B : Type} (m : M A) (k : A -> M B) : M B :=
  fun w =>
    match m w with
    | (Ok a, w') => k a w'
    | (Raised e, w') => (Raised e, w')
    end.

Definition raise {A : Type} (e : exn) : M A := fun w => (Raised e, w).

Definition lift {A : Type} (r : result A) : M A := fun w => (r, w).

Definition get_self : M DeepSeekClient := fun w => (Ok (client w), w).

Definition update_self (f : DeepSeekClient -> DeepSeekClient) : M unit :=
  fun w => (Ok tt, mkWorld (f (client w)) (trace w)).

Definition emit (e : event) : M unit :=
  fun w => (Ok tt, mkWorld (client w) (trace w ++ [e])).

(** [print(...)] writes the line to a UTF-8 console ([sys.stdout] with
    the [strict] error handler).  The literals of the module always encode;
    an interpolated text encodes unless it holds a surrogate code point,
    which a JSON body can deliver (the escape [\ud800]).  In that case
    the write raises [UnicodeEncodeError] before anything of the line is
    shown. *)
Definition print (l : console_line) : M unit :=
  if line_encodable l then emit (Print l) else raise (encode_error l).

(** [try: m  except ...: ...]: [handler e] is the body of the first
    [except] clause that matches [e], if any. *)
Definition try_except {A : Type} (m : M A) (handler : exn -> option (M A))
  : M A :=
  fun w =>
    match m w with
    | (Ok a, w') => (Ok a, w')
    | (Raised e, w') =>
        match handler e with
        | Some h => h w'
        | None => (Raised e, w')
        end
    end.

Declare Scope py_scope.
Delimit Scope py_scope with py.
Notation "x <- m ;; k" := (bind m (fun x => k))
  (at level 61, m at next level, right associativity) : py_scope.
Notation "m ;; k" := (bind m (fun _ => k))
  (at level 61, right associativity) : py_scope.
Local Open Scope py_scope.

(** [requests.post(url, headers=..., json=..., timeout=...)] *)
Definition requests_post (net : network) (req : Request) : M Response :=
  emit (Post req) ;;
  match net req with
  | PostRaises e => raise e
  | PostReturns r => ret r
  end.

(* ------------------------------------------------------------------ *)
(** ** The gateway methods *)

(** The default of [error_data.get('error', {}).get('message', ...)]:
    the four characters of the source's literal. *)
Definition unknown_error_text : str := [26410; 30693; 38169; 35823]%N.

(** [_handle_api_error] *)
Definition _handle_api_error (response : Response) : M unit :=
  try_except
    (error_data <- lift (json response) ;;
     e1 <- lift (get_str error_data (lit "error") (VDict [])) ;;
     error_message <-
       lift (get_str e1 (lit "message") (VStr unknown_error_text)) ;;
     e2 <- lift (get_str error_data (lit "error") (VDict [])) ;;
     error_type <- lift (get_str e2 (lit "type") (VStr (lit "unknown"))) ;;
     if status_code response =? 401 then print InvalidKey
     else if status_code response =? 429 then print RateLimited
     else if status_code response =? 400 then print (BadRequest error_message)
     else if status_code response =? 500 then print ServerError
     else print (ApiError (status_code response) error_message))
    (fun e =>
       if is_JSONDecodeError (exn_cls e)
       then Some (print (HttpError (status_code response)
                           (slice_to 200 (text response))))
       else None).

(** One [if 'k' in usage: info_parts.append(... usage['k'] ...)]. *)
Definition usage_part (k : str) (usage : value) (info_parts : list (str * value))
  : M (list (str * value)) :=
  b <- lift (contains_str k usage) ;;
  if b then
    x <- lift (getitem_str usage k) ;;
    ret (info_parts ++ [(k, x)])
  else ret info_parts.

(** [_print_response_info]; [info_parts] holds the usage counters shown. *)
Definition _print_response_info (usage : value) : M unit :=
  info_parts <-
    (if truthy usage then
       p1 <- usage_part (lit "prompt_tokens") usage [] ;;
       p2 <- usage_part (lit "completion_tokens") usage p1 ;;
       usage_part (lit "total_tokens") usage p2
     else ret []) ;;
  print (ResponseInfo info_parts).

(** The request that [chat] sends for the current state of [self]. *)
Definition chat_request (self : DeepSeekClient) : Request :=
  let messages := request_messages self in
  let request_data :=
    VDict [(lit "model", VStr (model self));
           (lit "messages", VList messages);
           (lit "max_tokens", VInt (max_tokens self));
           (lit "temperature", VFloat (temperature self));
           (lit "stream", VBool false)] in
  mkRequest (base_url self ++ lit "/chat/completions") (headers self)
            request_data (timeout self).

(** ['choices' in response_data and len(response_data['choices']) > 0] *)
Definition has_choices (response_data : value) : result bool :=
  match contains_str (lit "choices") response_data with
  | Raised e => Raised e
  | Ok false => Ok false
  | Ok true =>
      match getitem_str response_data (lit "choices") with
      | Raised e => Raised e
      | Ok choices =>
          match py_len choices with
          | Raised e => Raised e
          | Ok n => Ok (0 <? n)
          end
      end
  end.

(** The [except] clauses of [chat], in source order. *)
Definition chat_handler (e : exn) : option (M value) :=
  if is_Timeout (exn_cls e) then
    Some (self <- get_self ;;
          print (RequestTimedOut (timeout self)) ;; ret VNone)
  else if is_ConnectionError (exn_cls e) then
    Some (print ConnectionFailed ;; ret VNone)
  else if is_RequestException (exn_cls e) then
    Some (print (RequestFailed (exn_str e)) ;; ret VNone)
  else if is_JSONDecodeError (exn_cls e) then
    Some (print ParseFailed ;; ret VNone)
  else if is_Exception (exn_cls e) then
    Some (print (UnknownError (exn_str e)) ;; ret VNone)
  else None.

(** [chat]; the result is the reply, or [VNone] for Python's [None]. *)
Definition chat (net : network) (user_input : str) : M value :=
  try_except
    (update_self (fun self => add_user_message self (VStr user_input)) ;;
     self <- get_self ;;
     print Thinking ;;
     response <- requests_post net (chat_request self) ;;
     if status_code response =? 200 then
       response_data <- lift (json response) ;;
       ok <- lift (has_choices response_data) ;;
       if ok then
         choices <- lift (getitem_str response_data (lit "choices")) ;;
         choice <- lift (getitem_zero choices) ;;
         message <- lift (getitem_str choice (lit "message")) ;;
         assistant_reply <- lift (getitem_str message (lit "content")) ;;
         update_self (fun self => add_assistant_message self assistant_reply) ;;
         usage <- lift (get_str response_data (lit "usage") (VDict [])) ;;
         _print_response_info usage ;;
         ret assistant_reply
       else
         print FormatAbnormal ;;
         ret VNone
     else
       _handle_api_error response ;;
       ret VNone)
    chat_handler.

(** [clear_history] *)
Definition clear_history : M unit :=
  update_self (fun self =>
    let system_messages := filter is_system (conversation_history self) in
    set_conversation_history self system_messages) ;;
  print HistoryCleared.

(** The float literal [0.1] (binary64). *)
Definition float_0_1 : spec_float := S754_finite false 7205759403792794 (-56).

(** The request that [test_connection] sends. *)
Definition probe_request (self : DeepSeekClient) : Request :=
  let test_messages :=
    VList [VDict [(lit "role", VStr (lit "user"));
                  (lit "content", VStr (lit "Hello"))]] in
  let request_data :=
    VDict [(lit "model", VStr (model self));
           (lit "messages", test_messages);
           (lit "max_tokens", VInt 10);
           (lit "temperature", VFloat float_0_1)] in
  mkRequest (base_url self ++ lit "/chat/completions") (headers self)
            request_data 10.

(** [test_connection] *)
Definition test_connection (net : network) : M bool :=
  try_except
    (print Testing ;;
     self <- get_self ;;
     response <- requests_post net (probe_request self) ;;
     if status_code response =? 200 then
       print TestSucceeded ;;
       ret true
     else
       print (TestFailedHttp (status_code response)) ;;
       _handle_api_error response ;;
       ret false)
    (fun e =>
       if is_Exception (exn_cls e)
       then Some (print (TestFailed (exn_str e)) ;; ret false)
       else None).

(** What the [except Exception] clause of [test_connection] does with an
    exception [e] raised when the world is [w]. *)
Definition run_test_handler (e : exn) (w : world) : result bool * world :=
  if is_Exception (exn_cls e)
  then (print (TestFailed (exn_str e)) ;; ret false) w
  else (Raised e, w).

(** What the [except] clauses of [chat] do with an exception [e] raised
    in the [try] body when the world is [w]. *)
Definition run_handler (e : exn) (w : world) : result value * world :=
  match chat_handler e with
  | Some h => h w
  | None => (Raised e, w)
  end.

(** The line that the matching [except] clause of [chat] prints for [e]. *)
Definition handler_line (self : DeepSeekClient) (e : exn) : console_line :=
  if is_Timeout (exn_cls e) then RequestTimedOut (timeout self)
  else if is_ConnectionError (exn_cls e) then ConnectionFailed
  else if is_RequestException (exn_cls e) then RequestFailed (exn_str e)
  else if is_JSONDecodeError (exn_cls e) then ParseFailed
  else UnknownError (exn_str e).

(** [chat] returns [None] after printing, after the request, the single
    line [line]; the client is left as [add_user_message] made it. *)
Definition reports (net : network) (user_input : str) (w : world)
  (line : console_line) : Prop :=
  chat net user_input w =
  (Ok VNone,
   mkWorld (add_user_message (client w) (VStr user_input))
     (trace w ++
      [Print Thinking;
       Post (chat_request (add_user_message (client w) (VStr user_input)));
       Print line])).

(* ------------------------------------------------------------------ *)
(** ** Outcomes of one exchange *)

(** The failure outcomes of [chat]: [requests.post] raises (timeout,
    connection failure, any other transport error), the status is not 200,
    or the status is 200 and the body does not parse or its ['choices'] is
    missing or empty (the test of line 158 does not come out true). *)
Definition failure_outcome (o : post_result) : bool :=
  match o with
  | PostRaises _ => true
  | PostReturns r =>
      if status_code r =? 200 then
        match json r with
        | Raised _ => true
        | Ok response_data =>
            match has_choices response_data with
            | Ok true => false
            | _ => true
            end
        end
      else true
  end.

(** The exceptions the outcome can raise all derive from [Exception]. *)
Definition raises_only_Exception (o : post_result) : bool :=
  match o with
  | PostRaises e => is_Exception (exn_cls e)
  | PostReturns r =>
      match json r with
      | Raised e => is_Exception (exn_cls e)
      | Ok _ => true
      end
  end.

(** The texts of the exceptions the outcome can raise can be encoded for
    the console. *)
Definition raised_text_encodable (o : post_result) : bool :=
  match o with
  | PostRaises e => encodable (exn_str e)
  | PostReturns r =>
      match json r with
      | Raised e => encodable (exn_str e)
      | Ok _ => true
      end
  end.

(** A ['usage'] that [_print_response_info] can show: an object, or
    anything falsy ([None], [0], an empty container). *)
Definition usage_displayable (usage : value) : bool :=
  match usage with
  | VDict _ => true
  | _ => negb (truthy usage)
  end.

(** The counters that [_print_response_info] shows for a usage object,
    in the order of lines 229-234: those of the three keys it holds. *)
Definition shown_counters (usage : value) : list (str * value) :=
  match usage with
  | VDict d =>
      flat_map (fun k => match dict_lookup k d with
                         | Some x => [(k, x)]
                         | None => []
                         end)
               [lit "prompt_tokens"; lit "completion_tokens";
                lit "total_tokens"]
  | _ => []
  end.

(** A remote end that answers every request the same way. *)
Definition always (o : post_result) : network := fun _ => o.

Definition dq : str := [34%N].

(** The body [{"error":{"message":"invalid key","type":"auth"}}]. *)
Definition invalid_key_text : str :=
  lit "{" ++ dq ++ lit "error" ++ dq ++ lit ":{" ++ dq ++ lit "message" ++ dq
  ++ lit ":" ++ dq ++ lit "invalid key" ++ dq ++ lit "," ++ dq ++ lit "type"
  ++ dq ++ lit ":" ++ dq ++ lit "auth" ++ dq ++ lit "}}".

Definition invalid_key_body : value :=
  VDict [(lit "error",
          VDict [(lit "message", VStr (lit "invalid key"));
                 (lit "type", VStr (lit "auth"))])].

Definition invalid_key_response : Response :=
  mkResponse 401 invalid_key_text (Ok invalid_key_body).

(** A 200 response with [{"choices": []}]. *)
Definition empty_choices_response : Response :=
  mkResponse 200 (lit "{" ++ dq ++ lit "choices" ++ dq ++ lit ": []}")
             (Ok (VDict [(lit "choices", VList [])])).

(** A 200 response with [{"choices": [{}]}]. *)
Definition bare_choice_response : Response :=
  mkResponse 200 (lit "{" ++ dq ++ lit "choices" ++ dq ++ lit ": [{}]}")
             (Ok (VDict [(lit "choices", VList [VDict []])])).

(** A 200 response with
    [{"choices": [{"message": {"content": "hi"}}], "usage": 5}]. *)
Definition odd_usage_response : Response :=
  mkResponse 200
    (lit "{" ++ dq ++ lit "choices" ++ dq ++ lit ": [{" ++ dq ++ lit "message"
     ++ dq ++ lit ": {" ++ dq ++ lit "content" ++ dq ++ lit ": " ++ dq
     ++ lit "hi" ++ dq ++ lit "}}], " ++ dq ++ lit "usage" ++ dq ++ lit ": 5}")
    (Ok (VDict [(lit "choices",
                 VList [VDict [(lit "message",
                                VDict [(lit "content", VStr (lit "hi"))])]]);
                (lit "usage", VInt 5)])).

(** The string of the single code point U+D800, a lone surrogate: what
    [json.loads] makes of the JSON string written as backslash, [ud800]. *)
Definition lone_surrogate : str := [55296%N].

Definition bs : str := [92%N].

(** A 200 response with
    [{"choices": [{"message": {"content": "hi"}}],
      "usage": {"total_tokens": S}}], [S] being the lone surrogate. *)
Definition surrogate_usage_response : Response :=
  mkResponse 200
    (lit "{" ++ dq ++ lit "choices" ++ dq ++ lit ": [{" ++ dq ++ lit "message"
     ++ dq ++ lit ": {" ++ dq ++ lit "content" ++ dq ++ lit ": " ++ dq
     ++ lit "hi" ++ dq ++ lit "}}], " ++ dq ++ lit "usage" ++ dq ++ lit ": {"
     ++ dq ++ lit "total_tokens" ++ dq ++ lit ": " ++ dq ++ bs ++ lit "ud800"
     ++ dq ++ lit "}}")
    (Ok (VDict [(lit "choices",
                 VList [VDict [(lit "message",
                                VDict [(lit "content", VStr (lit "hi"))])]]);
                (lit "usage",
                 VDict [(lit "total_tokens", VStr lone_surrogate)])])).

(** A 403 response with [{"error": {"message": S}}], [S] being the lone
    surrogate. *)
Definition surrogate_message_response : Response :=
  mkResponse 403
    (lit "{" ++ dq ++ lit "error" ++ dq ++ lit ": {" ++ dq ++ lit "message"
     ++ dq ++ lit ": " ++ dq ++ bs ++ lit "ud800" ++ dq ++ lit "}}")
    (Ok (VDict [(lit "error",
                 VDict [(lit "message", VStr lone_surrogate)])])).

(** A 200 response with
    [{"choices": [{"message": {"content": " hi "}}],
      "usage": {"total_tokens": 7}}]. *)
Definition good_response : Response :=
  mkResponse 200
    (lit "{" ++ dq ++ lit "choices" ++ dq ++ lit ": [{" ++ dq ++ lit "message"
     ++ dq ++ lit ": {" ++ dq ++ lit "content" ++ dq ++ lit ": " ++ dq
     ++ lit " hi " ++ dq ++ lit "}}], " ++ dq ++ lit "usage" ++ dq ++ lit ": {"
     ++ dq ++ lit "total_tokens" ++ dq ++ lit ": 7}}")
    (Ok (VDict [(lit "choices",
                 VList [VDict [(lit "message",
                                VDict [(lit "content", VStr (lit " hi "))])]]);
                (lit "usage", VDict [(lit "total_tokens", VInt 7)])])).

(** A fresh client and a fresh world, for the scenarios. *)
Definition fresh_client : DeepSeekClient :=
  init (lit "sk-test") (lit "https://api.deepseek.com/v1/") (lit "deepseek-chat")
       2000 float_0_1 30.

Definition fresh_world : world := mkWorld fresh_client [].

(** The five appends of the retention scenario. *)
Definition scenario_calls : list append_call :=
  [AppendUser (VStr (lit "a")); AppendAssistant (VStr (lit "b"));
   AppendUser (VStr (lit "c")); AppendAssistant (VStr (lit "d"));
   AppendUser (VStr (lit "e"))].

(* ------------------------------------------------------------------ *)
(** ** Calls of the public methods, one after the other *)

(** One use of the client by a caller: a public method, or the assignment
    [client.max_history = n] of main.py. *)
Inductive method_call : Type :=
| CallSetSystemPrompt (system_prompt : str)
| CallAddUserMessage (content : value)
| CallAddAssistantMessage (content : value)
| CallClearHistory
| CallChat (net : network) (user_input : str)
| CallTestConnection (net : network)
| AssignMaxHistory (n : Z).

Definition run_method (w : world) (c : method_call) : world :=
  match c with
  | CallSetSystemPrompt t => mkWorld (set_system_prompt (client w) t) (trace w)
  | CallAddUserMessage x => mkWorld (add_user_message (client w) x) (trace w)
  | CallAddAssistantMessage x =>
      mkWorld (add_assistant_message (client w) x) (trace w)
  | CallClearHistory => snd (clear_history w)
  | CallChat net u => snd (chat net u w)
  | CallTestConnection net => snd (test_connection net w)
  | AssignMaxHistory n => mkWorld (set_max_history (client w) n) (trace w)
  end.

Definition run_methods (w : world) (cs : list method_call) : world :=
  fold_left run_method cs w.

(** The system messages come before all others. *)
Definition system_first (h : list ChatMessage) : Prop :=
  h = filter is_system h ++ filter not_system h.

(** The role is one of the three the client itself writes. *)
Definition known_role (msg : ChatMessage) : bool :=
  has_role (lit "system") msg || has_role (lit "user") msg
  || has_role (lit "assistant") msg.

(** The requests of a trace, in the order they were posted. *)
Definition posted (t : list event) : list Request :=
  flat_map (fun e => match e with Post r => [r] | Print _ => [] end) t.

(** A ['usage'] that is truthy but no container: [True] or a number other
    than zero. *)
Definition usage_not_iterable (usage : value) : bool :=
  match usage with
  | VBool b => b
  | VInt z => negb (z =? 0)
  | VFloat (S754_zero _) => false
  | VFloat _ => true
  | _ => false
  end.

(** The bodies [_handle_api_error] reports itself: one that does not
    parse (a [JSONDecodeError]), or an object whose ['error'] is missing or
    an object. *)
Definition api_error_reportable (response : Response) : bool :=
  match json response with
  | Raised e => is_JSONDecodeError (exn_cls e)
  | Ok (VDict d) =>
      match dict_lookup (lit "error") d with
      | None => true
      | Some (VDict _) => true
      | Some _ => false
      end
  | Ok _ => false
  end.

(** The text that the line of [_handle_api_error] interpolates can be
    encoded for the console: the first 200 characters of a body that does
    not parse; the error message for status 400 and for every status
    outside 401, 429 and 500, whose lines are fixed. *)
Definition api_error_text_encodable (response : Response) : bool :=
  match json response with
  | Raised _ => encodable (slice_to 200 (text response))
  | Ok (VDict d) =>
      if (status_code response =? 401) || (status_code response =? 429)
         || (status_code response =? 500)
      then true
      else
        match dict_lookup (lit "error") d with
        | Some (VDict ed) =>
            match dict_lookup (lit "message") ed with
            | Some error_message => value_encodable error_message
            | None => true
            end
        | _ => true
        end
  | Ok _ => true
  end.

(** The invariant of the conversation history: system messages first, at
    most one of them, and no role but the three the client writes. *)
Definition store_invariant (h : list ChatMessage) : Prop :=
  system_first h
  /\ (length (filter is_system h) <= 1)%nat
  /\ forallb known_role h = true.

(* ------------------------------------------------------------------ *)
(** ** config.py, prompt_manager.py and main.py: effects

    The methods of the other modules run in [Eff S L]: a state [S] (the
    object [self]), a trace of effects [L] and exceptions. *)

Definition Eff (S L A : Type) : Type := S * list L -> result A * (S * list L).

Definition eret {S L A : Type} (a : A) : Eff S L A := fun st => (Ok a, st).

Definition ebind {S L A B : Type} (m : Eff S L A) (k : A -> Eff S L B)
  : Eff S L B :=
  fun st =>
    match m st with
    | (Ok a, st') => k a st'
    | (Raised e, st') => (Raised e, st')
    end.

Definition elift {S L A : Type} (r : result A) : Eff S L A := fun st => (r, st).

Definition eget {S L : Type} : Eff S L S := fun st => (Ok (fst st), st).

Definition eput {S L : Type} (s : S) : Eff S L unit :=
  fun st => (Ok tt, (s, snd st)).

Definition esay {S L : Type} (l : L) : Eff S L unit :=
  fun st => (Ok tt, (fst st, snd st ++ [l])).

(** [try: m  except ...: ...], as [try_except] above. *)
Definition etry {S L A : Type} (m : Eff S L A)
  (handler : exn -> option (Eff S L A)) : Eff S L A :=
  fun st =>
    match m st with
    | (Ok a, st') => (Ok a, st')
    | (Raised e, st') =>
        match handler e with
        | Some h => h st'
        | None => (Raised e, st')
        end
    end.

Declare Scope eff_scope.
Delimit Scope eff_scope with eff.
Notation "x <- m ;; k" := (ebind m (fun x => k))
  (at level 61, m at next level, right associativity) : eff_scope.
Notation "m ;; k" := (ebind m (fun _ => k))
  (at level 61, right associativity) : eff_scope.
Local Open Scope eff_scope.

(** The file system as the methods see it. Within one call it changes only
    by the call's own writes, which the trace records. *)
Record filesystem : Type := mkFilesystem {
  (* os.path.exists(p) *)
  path_exists : value -> result bool;
  (* with open(p, 'r', encoding='utf-8') as f: f.read() *)
  read_text : str -> result str;
  (* with open(p, 'r', encoding='utf-8') as f: json.load(f) *)
  load_json : str -> result value;
  (* os.makedirs(os.path.dirname(p), exist_ok=True) *)
  make_parent_dirs : str -> result unit;
  (* with open(p, 'w', encoding='utf-8') as f: f.write(s) *)
  write_text : str -> str -> result unit
}.

(** [v == 'literal'] *)
Definition eq_str (v : value) (s : str) : bool :=
  match v with
  | VStr t => str_eqb t s
  | _ => false
  end.

(** [v.strip()] *)
Definition py_strip (v : value) : result value :=
  match v with
  | VStr s => Ok (VStr (strip s))
  | _ => Raised (mkExn AttributeError
                   (quoted (type_name v) ++ lit " object has no attribute 'strip'"))
  end.

(* ------------------------------------------------------------------ *)
(** ** config.py: ConfigManager *)

Record ConfigManager : Type := mkConfigManager {
  config_file : str;
  config : value
}.

(** One constructor per [print] of config.py's [ConfigManager]. *)
Inductive config_line : Type :=
| ConfigFileMissing (file : str)                    (* line 35 *)
| CopyExampleHint (file : str)                      (* line 36 *)
| ConfigLoaded                                      (* line 46 *)
| ConfigFormatError (e : str)                       (* line 50 *)
| ConfigLoadFailed (e : str)                        (* line 53 *)
| MissingSection (section : str)                    (* line 71 *)
| MissingKey (section key : str)                    (* line 76 *)
| InvalidApiKey                                     (* line 82 *)
| PromptFileMissing (prompt_file : value).          (* line 88 *)


Definition required_keys : list (str * list str) :=
  [(lit "deepseek", [lit "api_key"; lit "base_url"; lit "model"]);
   (lit "app", [lit "system_prompt_file"])].

Definition placeholder_api_key : str := lit "your-deepseek-api-key-here".

(** The inner loop of [_validate_config]: [Some b] when the method
    returned [b] inside the loop, [None] when the loop ran to its end. *)
Fixpoint validate_keys (section : str) (keys : list str)
  : Eff ConfigManager config_line (option bool) :=
  match keys with
  | [] => eret None
  | key :: keys' =>
      self <- eget ;;
      section_value <- elift (getitem_str (config self) section) ;;
      present <- elift (contains_str key section_value) ;;
      if negb present then
        esay (MissingKey section key) ;;
        eret (Some false)
      else validate_keys section keys'
  end.

(** The outer loop of [_validate_config]. *)
Fixpoint validate_sections (required : list (str * list str))
  : Eff ConfigManager config_line (option bool) :=
  match required with
  | [] => eret None
  | (section, keys) :: required' =>
      self <- eget ;;
      present <- elift (contains_str section (config self)) ;;
      if negb present then
        esay (MissingSection section) ;;
        eret (Some false)
      else
        returned <- validate_keys section keys ;;
        match returned with
        | Some b => eret (Some b)
        | None => validate_sections required'
        end
  end.

(** [_validate_config] *)
Definition _validate_config (fs : filesystem)
  : Eff ConfigManager config_line bool :=
  returned <- validate_sections required_keys ;;
  match returned with
  | Some b => eret b
  | None =>
      self <- eget ;;
      deepseek <- elift (getitem_str (config self) (lit "deepseek")) ;;
      api_key <- elift (getitem_str deepseek (lit "api_key")) ;;
      invalid <-
        (if eq_str api_key placeholder_api_key then eret true
         else
           stripped <- elift (py_strip api_key) ;;
           eret (negb (truthy stripped))) ;;
      if invalid then
        esay InvalidApiKey ;;
        eret false
      else
        app <- elift (getitem_str (config self) (lit "app")) ;;
        prompt_file <- elift (getitem_str app (lit "system_prompt_file")) ;;
        found <- elift (path_exists fs prompt_file) ;;
        if negb found then
          esay (PromptFileMissing prompt_file) ;;
          eret false
        else eret true
  end.


(** [self.config.get(section, {}).get(key, default)], the body of every
    getter. *)
Definition config_get (self : ConfigManager) (section key : str)
  (default : value) : result value :=
  match get_str (config self) section (VDict []) with
  | Ok section_value => get_str section_value key default
  | Raised e => Raised e
  end.

(** The float literal [0.7] (binary64). *)
Definition float_0_7 : spec_float := S754_finite false 6305039478318694 (-53).

Definition get_deepseek_config (self : ConfigManager) : result value :=
  get_str (config self) (lit "deepseek") (VDict []).

Definition get_app_config (self : ConfigManager) : result value :=
  get_str (config self) (lit "app") (VDict []).

Definition get_api_key (self : ConfigManager) : result value :=
  config_get self (lit "deepseek") (lit "api_key") (VStr []).

Definition get_base_url (self : ConfigManager) : result value :=
  config_get self (lit "deepseek") (lit "base_url")
    (VStr (lit "https://api.deepseek.com/v1")).

Definition get_model (self : ConfigManager) : result value :=
  config_get self (lit "deepseek") (lit "model") (VStr (lit "deepseek-chat")).

Definition get_max_tokens (self : ConfigManager) : result value :=
  config_get self (lit "deepseek") (lit "max_tokens") (VInt 2000).

Definition get_temperature (self : ConfigManager) : result value :=
  config_get self (lit "deepseek") (lit "temperature") (VFloat float_0_7).

Definition get_system_prompt_file (self : ConfigManager) : result value :=
  config_get self (lit "app") (lit "system_prompt_file")
    (VStr (lit "prompts/system.txt")).

Definition get_max_history (self : ConfigManager) : result value :=
  config_get self (lit "app") (lit "max_history") (VInt 10).

(** The configurations [_validate_config] accepts: an object whose
    'deepseek' is an object with 'api_key', 'base_url' and 'model', the
    key a string that is neither the placeholder nor blank, and whose
    'app' is an object with a 'system_prompt_file' that exists. *)
Definition config_accepted (fs : filesystem) (cfg : value) : Prop :=
  exists (d deepseek app : list (str * value)) (key : str)
         (base model prompt : value),
    cfg = VDict d
    /\ dict_lookup (lit "deepseek") d = Some (VDict deepseek)
    /\ dict_lookup (lit "api_key") deepseek = Some (VStr key)
    /\ dict_lookup (lit "base_url") deepseek = Some base
    /\ dict_lookup (lit "model") deepseek = Some model
    /\ str_eqb key placeholder_api_key = false
    /\ strip key <> []
    /\ dict_lookup (lit "app") d = Some (VDict app)
    /\ dict_lookup (lit "system_prompt_file") app = Some prompt
    /\ path_exists fs prompt = Ok true.

(** The keys of one section are all there. *)
Definition keys_present (cfg : value) (section : str) (keys : list str) : Prop :=
  keys = []
  \/ exists section_value,
       getitem_str cfg section = Ok section_value
       /\ Forall (fun k => contains_str k section_value = Ok true) keys.



(** A configuration as config.json.example describes it, with a real key. *)
Definition sample_config : value :=
  VDict [(lit "deepseek",
          VDict [(lit "api_key", VStr (lit "sk-test"));
                 (lit "base_url", VStr (lit "https://api.deepseek.com/v1"));
                 (lit "model", VStr (lit "deepseek-chat"));
                 (lit "max_tokens", VInt 2000);
                 (lit "temperature", VFloat float_0_7)]);
         (lit "app",
          VDict [(lit "system_prompt_file", VStr (lit "prompts/system.txt"));
                 (lit "max_history", VInt 10)])].

(** A file system that holds config.json with [sample_config] and
    prompts/system.txt with the text "  Be brief.  ", and where writing
    works. *)
Definition sample_fs : filesystem :=
  mkFilesystem
    (fun v => Ok (eq_str v (lit "config.json")
                  || eq_str v (lit "prompts/system.txt")))
    (fun p => if str_eqb p (lit "prompts/system.txt")
              then Ok (lit "  Be brief.  ")
              else Raised (mkExn OtherException (lit "No such file")))
    (fun p => if str_eqb p (lit "config.json")
              then Ok sample_config
              else Raised (mkExn OtherException (lit "No such file")))
    (fun _ => Ok tt)
    (fun _ _ => Ok tt).


(* ------------------------------------------------------------------ *)
(** ** prompt_manager.py: PromptManager *)

Record PromptManager : Type := mkPromptManager {
  prompt_file : str;
  system_prompt : str
}.

(** One constructor per [print] of [PromptManager]. *)
Inductive prompt_line : Type :=
| PromptFileNotFound (file : str)          (* line 34 *)
| PromptFileEmpty (file : str)             (* line 43 *)
| PromptLoaded (length : Z)                (* line 46 *)
| PromptLoadFailed (e : str)               (* line 50 *)
| UsingDefaultPrompt                       (* line 51 *)
| ReloadingPrompt                          (* line 71 *)
| PromptUpdated (file : str)               (* line 92 *)
| PromptUpdateFailed (e : str)             (* line 96 *)
| DefaultPromptCreated (file : str)        (* line 120 *)
| DefaultPromptFailed (e : str).           (* line 124 *)

(** The effects of a [PromptManager] method: directories it asks for,
    files it opens for writing with the text it writes, lines it prints. *)
Inductive prompt_event : Type :=
| MakeDirs (file : str)
| WriteFile (file text : str)
| Say (line : prompt_line).


(** The literal of [_get_default_prompt], as code points. *)
Definition default_prompt : str :=
  [20320; 26159; 19968; 20010; 26377; 29992; 30340; 65; 73; 21161; 25163;
   65292; 35831; 29992; 31616; 27905; 26126; 20102; 30340; 26041; 24335;
   22238; 31572; 29992; 25143; 30340; 38382; 39064; 12290; 20445; 25345;
   22238; 31572; 20934; 30830; 12289; 21451; 22909; 65292; 24182; 23613;
   21487; 33021; 25552; 20379; 26377; 20215; 20540; 30340; 20449; 24687;
   12290]%N.

Definition _get_default_prompt (self : PromptManager) : str := default_prompt.

(** [os.makedirs(os.path.dirname(file), exist_ok=True)] *)
Definition os_makedirs (fs : filesystem) (file : str)
  : Eff PromptManager prompt_event unit :=
  esay (MakeDirs file) ;;
  elift (make_parent_dirs fs file).

(** [with open(file, 'w', encoding='utf-8') as f: f.write(text)] *)
Definition file_write (fs : filesystem) (file text : str)
  : Eff PromptManager prompt_event unit :=
  esay (WriteFile file text) ;;
  elift (write_text fs file text).

(** [self.system_prompt = text] *)
Definition assign_system_prompt (text : str)
  : Eff PromptManager prompt_event unit :=
  self <- eget ;;
  eput (mkPromptManager (prompt_file self) text).

(** [_create_default_prompt] *)
Definition _create_default_prompt (fs : filesystem)
  : Eff PromptManager prompt_event unit :=
  etry
    (self <- eget ;;
     os_makedirs fs (prompt_file self) ;;
     let text := _get_default_prompt self in
     file_write fs (prompt_file self) text ;;
     esay (Say (DefaultPromptCreated (prompt_file self))) ;;
     assign_system_prompt text)
    (fun e =>
       if is_Exception (exn_cls e)
       then Some (esay (Say (DefaultPromptFailed (exn_str e))))
       else None).

(** [load_system_prompt] *)
Definition load_system_prompt (fs : filesystem)
  : Eff PromptManager prompt_event bool :=
  etry
    (self <- eget ;;
     found <- elift (path_exists fs (VStr (prompt_file self))) ;;
     if negb found then
       esay (Say (PromptFileNotFound (prompt_file self))) ;;
       _create_default_prompt fs ;;
       eret false
     else
       content <- elift (read_text fs (prompt_file self)) ;;
       assign_system_prompt (strip content) ;;
       self <- eget ;;
       (match system_prompt self with
        | [] =>
            esay (Say (PromptFileEmpty (prompt_file self))) ;;
            assign_system_prompt (_get_default_prompt self)
        | _ :: _ => eret tt
        end) ;;
       self <- eget ;;
       esay (Say (PromptLoaded (Z.of_nat (length (system_prompt self))))) ;;
       eret true)
    (fun e =>
       if is_Exception (exn_cls e) then
         Some (esay (Say (PromptLoadFailed (exn_str e))) ;;
               esay (Say UsingDefaultPrompt) ;;
               self <- eget ;;
               assign_system_prompt (_get_default_prompt self) ;;
               eret false)
       else None).

(** [get_system_prompt] *)
Definition get_system_prompt (self : PromptManager) : str := system_prompt self.

(** [reload_system_prompt] *)
Definition reload_system_prompt (fs : filesystem)
  : Eff PromptManager prompt_event bool :=
  esay (Say ReloadingPrompt) ;;
  load_system_prompt fs.





(* ------------------------------------------------------------------ *)
(** ** main.py: DeepSeekCLI.handle_command *)

Record DeepSeekCLI : Type := mkDeepSeekCLI {
  config_manager : option ConfigManager;
  prompt_manager : option PromptManager;
  api_client : option DeepSeekClient;
  running : bool
}.

(** The [print]s of [handle_command]; [HelpScreen] stands for the fixed
    lines of [show_help] (lines 126 to 138). *)
Inductive cli_line : Type :=
| Goodbye                                   (* line 154 *)
| StatsHeader                               (* line 169 *)
| StatsTotal (n : nat)                      (* line 170 *)
| StatsUser (n : nat)                       (* line 171 *)
| StatsAssistant (n : nat)                  (* line 172 *)
| StatsSystem (n : nat)                     (* line 173 *)
| StatsMaxHistory (n : Z)                   (* line 174 *)
| PromptReloaded                            (* line 181 *)
| PromptReloadFailed                        (* line 183 *)
| HelpScreen.                               (* show_help *)

(** What a command does: effects of the client, of the prompt manager,
    and lines of the command itself. *)
Inductive cli_event : Type :=
| ClientEvent (e : event)
| PromptEvent (e : prompt_event)
| CliPrint (line : cli_line).

Definition set_api_client (self : DeepSeekCLI) (c : DeepSeekClient)
  : DeepSeekCLI :=
  mkDeepSeekCLI (config_manager self) (prompt_manager self) (Some c)
                (running self).

Definition set_prompt_manager (self : DeepSeekCLI) (pm : PromptManager)
  : DeepSeekCLI :=
  mkDeepSeekCLI (config_manager self) (Some pm) (api_client self)
                (running self).

Definition set_running (self : DeepSeekCLI) (b : bool) : DeepSeekCLI :=
  mkDeepSeekCLI (config_manager self) (prompt_manager self) (api_client self) b.

(** A method call on the client object [c] that [self.api_client] refers
    to: the object is changed in place and its effects join the trace. *)
Definition on_client {A : Type} (c : DeepSeekClient) (m : M A)
  : Eff DeepSeekCLI cli_event A :=
  fun st =>
    let (r, w) := m (mkWorld c []) in
    (r, (set_api_client (fst st) (client w),
         snd st ++ map ClientEvent (trace w))).

(** The same for the prompt manager object. *)
Definition on_prompt_manager {A : Type} (pm : PromptManager)
  (m : Eff PromptManager prompt_event A) : Eff DeepSeekCLI cli_event A :=
  fun st =>
    match m (pm, []) with
    | (r, (pm', events)) =>
        (r, (set_prompt_manager (fst st) pm',
             snd st ++ map PromptEvent events))
    end.

(** [x in [...]] for strings *)
Definition in_list (x : str) (l : list str) : bool := existsb (str_eqb x) l.

(** The words [handle_command] takes as commands. *)
Definition command_words : list str :=
  [lit "quit"; lit "exit"; lit "q"; lit "clear"; lit "history"; lit "reload";
   lit "help"].

Section HandleCommand.

(** [str.lower], the interpreter's Unicode lower-casing. *)
Variable lower : str -> str.
Variable fs : filesystem.

(** [handle_command] *)
Definition handle_command (user_input : str) : Eff DeepSeekCLI cli_event bool :=
  let command := lower (strip user_input) in
  if in_list command [lit "quit"; lit "exit"; lit "q"] then
    self <- eget ;;
    eput (set_running self false) ;;
    esay (CliPrint Goodbye) ;;
    eret true
  else if str_eqb command (lit "clear") then
    self <- eget ;;
    match api_client self with
    | Some c =>
        on_client c clear_history ;;
        self <- eget ;;
        match prompt_manager self, api_client self with
        | Some pm, Some c' =>
            let text := get_system_prompt pm in
            eput (set_api_client self (set_system_prompt c' text)) ;;
            eret true
        | _, _ => eret true
        end
    | None => eret true
    end
  else if str_eqb command (lit "history") then
    self <- eget ;;
    match api_client self with
    | Some c =>
        match get_history_summary c with
        | (total, system_count, user_count, assistant_count, limit) =>
            esay (CliPrint StatsHeader) ;;
            esay (CliPrint (StatsTotal total)) ;;
            esay (CliPrint (StatsUser user_count)) ;;
            esay (CliPrint (StatsAssistant assistant_count)) ;;
            esay (CliPrint (StatsSystem system_count)) ;;
            esay (CliPrint (StatsMaxHistory limit)) ;;
            eret true
        end
    | None => eret true
    end
  else if str_eqb command (lit "reload") then
    self <- eget ;;
    match prompt_manager self, api_client self with
    | Some pm, Some c =>
        reloaded <- on_prompt_manager pm (reload_system_prompt fs) ;;
        if reloaded then
          self <- eget ;;
          match prompt_manager self with
          | Some pm' =>
              let text := get_system_prompt pm' in
              eput (set_api_client self (set_system_prompt c text)) ;;
              esay (CliPrint PromptReloaded) ;;
              eret true
          | None => eret true
          end
        else
          esay (CliPrint PromptReloadFailed) ;;
          eret true
    | _, _ => eret true
    end
  else if str_eqb command (lit "help") then
    esay (CliPrint HelpScreen) ;;
    eret true
  else eret false.

End HandleCommand.

(** Lower-casing of the letters A to Z only; it agrees with [str.lower]
    on ASCII text. *)
Definition ascii_lower (s : str) : str :=
  map (fun c => if (65 <=? c)%N && (c <=? 90)%N then (c + 32)%N else c) s.

(** A session as [initialize] leaves it: the sample prompt loaded into a
    client that already holds one exchange. *)
Definition sample_cli : DeepSeekCLI :=
  mkDeepSeekCLI
    (Some (mkConfigManager (lit "config.json") sample_config))
    (Some (mkPromptManager (lit "prompts/system.txt") (lit "Be brief.")))
    (Some (add_assistant_message
             (add_user_message
                (set_system_prompt fresh_client (lit "Be brief."))
                (VStr (lit "hello")))
             (VStr (lit "hi"))))
    true.

Local Close Scope eff_scope.

(* ================================================================== *)
(** * Properties of the conversation store *)

Section ListFacts.
Context {A : Type}.

Lemma forallb_skipn (p : A -> bool) (n : nat) (l : list A) :
  forallb p l = true -> forallb p (skipn n l) = true.
Proof.
  revert l; induction n as [|n IH]; intros [|a l] H; simpl; auto.
  simpl in H. apply andb_true_iff in H. apply IH, H.
Qed.

Lemma slice_from_is_skipn (start : Z) (l : list A) :
  exists n, slice_from start l = skipn n l.
Proof. unfold slice_from. eexists. reflexivity. Qed.

Lemma slice_from_neg_last (m : Z) (l : list A) :
  0 < m -> m < Z.of_nat (length l) ->
  slice_from (- m) l = skipn (length l - Z.to_nat m) l.
Proof.
  intros Hm Hl. unfold slice_from.
  replace (- m <? 0) with true by (symmetry; apply Z.ltb_lt; lia).
  f_equal. lia.
Qed.

Lemma slice_from_zero (l : list A) : slice_from (- 0) l = l.
Proof.
  unfold slice_from. simpl. rewrite Z.min_l by lia. reflexivity.
Qed.

Lemma skipn_snoc_last (n : nat) (l : list A) (a : A) :
  (n <= length l)%nat -> skipn n (l ++ [a]) = skipn n l ++ [a].
Proof.
  intros H. rewrite skipn_app.
  replace (n - length l)%nat with 0%nat by lia. reflexivity.
Qed.
End ListFacts.

Lemma str_eqb_refl (s : str) : str_eqb s s = true.
Proof.
  induction s as [|c s IH]; simpl; auto.
  rewrite N.eqb_refl, IH. reflexivity.
Qed.

Lemma str_eqb_eq (a b : str) : str_eqb a b = true <-> a = b.
Proof.
  split.
  - revert b; induction a as [|x a IH]; intros [|y b] H; simpl in H;
      try discriminate; auto.
    apply andb_true_iff in H. destruct H as [Hxy Hab].
    apply N.eqb_eq in Hxy. apply IH in Hab. congruence.
  - intros ->. apply str_eqb_refl.
Qed.

(** Python's slices and [strip] on small inputs. *)
Example slice_from_examples :
  slice_from (- 2) [1; 2; 3] = [2; 3]
  /\ slice_from (- 5) [1; 2; 3] = [1; 2; 3]
  /\ slice_from (- 0) [1; 2; 3] = [1; 2; 3]
  /\ slice_from 1 [1; 2; 3] = [2; 3]
  /\ slice_from 7 [1; 2; 3] = [].
Proof. repeat split. Qed.

Example strip_examples :
  strip (lit "  a b  ") = lit "a b"
  /\ strip (9 :: 10 :: 160 :: lit "x" ++ [12288; 13])%N = lit "x"
  /\ strip (lit "   ") = []
  /\ rstrip_slash (lit "https://h/v1//") = lit "https://h/v1".
Proof. repeat split. Qed.

Example trim_history_negative_limit :
  conversation_history
    (add_user_message (set_max_history fresh_client (- 1)) (VStr (lit "a"))) = [].
Proof. reflexivity. Qed.

Lemma filter_system_of_others (h : list ChatMessage) :
  filter is_system (filter not_system h) = [].
Proof.
  induction h as [|m h IH]; simpl; auto.
  unfold not_system at 1. destruct (is_system m) eqn:E; simpl; auto.
  rewrite E. exact IH.
Qed.

Lemma filter_others_of_system (h : list ChatMessage) :
  filter not_system (filter is_system h) = [].
Proof.
  induction h as [|m h IH]; simpl; auto.
  destruct (is_system m) eqn:E; simpl; auto.
  unfold not_system at 1. rewrite E. exact IH.
Qed.

Lemma filter_system_idem (h : list ChatMessage) :
  filter is_system (filter is_system h) = filter is_system h.
Proof. apply forallb_filter_id, forallb_filter. Qed.

Lemma filter_others_idem (h : list ChatMessage) :
  filter not_system (filter not_system h) = filter not_system h.
Proof. apply forallb_filter_id, forallb_filter. Qed.

Lemma trim_history_unfold (self : DeepSeekClient) :
  conversation_history (_trim_history self) =
  filter is_system (conversation_history self) ++
  kept_others (max_history self) (filter not_system (conversation_history self)).
Proof. reflexivity. Qed.

Lemma kept_others_all_others (limit : Z) (h : list ChatMessage) :
  forallb not_system (kept_others limit (filter not_system h)) = true.
Proof.
  unfold kept_others.
  destruct (limit <? _).
  - destruct (slice_from_is_skipn (- limit) (filter not_system h)) as [n ->].
    apply forallb_skipn, forallb_filter.
  - apply forallb_filter.
Qed.

Lemma trim_history_others (self : DeepSeekClient) :
  filter not_system (conversation_history (_trim_history self)) =
  kept_others (max_history self) (filter not_system (conversation_history self)).
Proof.
  rewrite trim_history_unfold, filter_app, filter_others_of_system. simpl.
  apply forallb_filter_id, kept_others_all_others.
Qed.

Lemma trim_history_system (self : DeepSeekClient) :
  filter is_system (conversation_history (_trim_history self)) =
  filter is_system (conversation_history self).
Proof.
  rewrite trim_history_unfold, filter_app, filter_system_idem.
  assert (H : filter is_system
                (kept_others (max_history self)
                   (filter not_system (conversation_history self))) = []).
  { pose proof (kept_others_all_others (max_history self)
                  (conversation_history self)) as F.
    induction (kept_others _ _) as [|m l IH]; simpl; auto.
    simpl in F. apply andb_true_iff in F. destruct F as [Fm Fl].
    unfold not_system in Fm. apply negb_true_iff in Fm. rewrite Fm. auto. }
  rewrite H. apply app_nil_r.
Qed.

Lemma kept_others_length (limit : Z) (others : list ChatMessage) :
  0 < limit -> Z.of_nat (length (kept_others limit others)) <= limit.
Proof.
  intros Hpos. unfold kept_others.
  destruct (limit <? Z.of_nat (length others)) eqn:E.
  - apply Z.ltb_lt in E. rewrite slice_from_neg_last by assumption.
    rewrite length_skipn. lia.
  - apply Z.ltb_ge in E. exact E.
Qed.

Lemma max_history_trim (self : DeepSeekClient) :
  max_history (_trim_history self) = max_history self.
Proof. reflexivity. Qed.

Lemma max_history_run_call (self : DeepSeekClient) (c : append_call) :
  max_history (run_call self c) = max_history self.
Proof. destruct c; reflexivity. Qed.

Lemma max_history_run_calls (cs : list append_call) (self : DeepSeekClient) :
  max_history (run_calls self cs) = max_history self.
Proof.
  revert self; induction cs as [|c cs IH]; intros self; simpl; auto.
  unfold run_calls in *. simpl. rewrite IH. apply max_history_run_call.
Qed.

Lemma run_call_is_trim (self : DeepSeekClient) (c : append_call) :
  exists before, run_call self c = _trim_history before
                 /\ max_history before = max_history self.
Proof.
  destruct c; simpl; unfold add_user_message, add_assistant_message;
    eexists; split; reflexivity.
Qed.

(** C1: on a store whose retention limit is positive, after each call of a
    sequence of add_user_message / add_assistant_message calls the number of
    messages whose role is not 'system' is at most max_history. The call
    [c] comes after an arbitrary earlier sequence [earlier], so the bound
    holds after every call of every sequence. *)
Theorem non_system_count_bounded :
  forall (self : DeepSeekClient) (earlier : list append_call) (c : append_call),
    0 < max_history self ->
    Z.of_nat (non_system_count (run_call (run_calls self earlier) c))
    <= max_history self.
Proof.
  intros self earlier c Hpos.
  destruct (run_call_is_trim (run_calls self earlier) c) as [before [-> Hm]].
  unfold non_system_count. rewrite trim_history_others.
  rewrite max_history_run_calls in Hm. rewrite Hm.
  apply kept_others_length, Hpos.
Qed.

Lemma keep_last_slice (limit : Z) (l : list ChatMessage) :
  0 < limit -> limit < Z.of_nat (length l) ->
  slice_from (- limit) l = keep_last (Z.to_nat limit) l.
Proof. intros H1 H2. unfold keep_last. apply slice_from_neg_last; assumption. Qed.

Lemma kept_others_suffix (limit : Z) (others : list ChatMessage) :
  exists dropped, others = dropped ++ kept_others limit others.
Proof.
  unfold kept_others. destruct (limit <? _).
  - destruct (slice_from_is_skipn (- limit) others) as [n ->].
    exists (firstn n others). symmetry. apply firstn_skipn.
  - exists []. reflexivity.
Qed.

(** C2: for a positive retention limit, _trim_history computes exactly the
    retention policy of the specification (system subset first, then the
    last max_history elements of the rest when the rest is longer); the
    kept rest is a suffix of the rest, so messages are only dropped from
    the front and never reordered, and the system subset is kept as it is.
    With limit 2 and the appends user a, assistant b, user c, assistant d,
    user e on a fresh client the non-system history ends as
    [assistant d; user e]. *)
Theorem trim_history_retention :
  forall self : DeepSeekClient,
    0 < max_history self ->
    conversation_history (_trim_history self) =
      retention_policy (Z.to_nat (max_history self)) (conversation_history self)
    /\ filter is_system (conversation_history (_trim_history self)) =
         filter is_system (conversation_history self)
    /\ (exists dropped,
          filter not_system (conversation_history self) =
          dropped ++ filter not_system (conversation_history (_trim_history self)))
    /\ (forall key url mdl maxtok temp tmo,
          filter not_system
            (conversation_history
               (run_calls (set_max_history (init key url mdl maxtok temp tmo) 2)
                          scenario_calls)) =
          [mkChatMessage (lit "assistant") (VStr (lit "d"));
           mkChatMessage (lit "user") (VStr (lit "e"))]).
Proof.
  intros self Hpos. split; [|split; [|split]].
  - rewrite trim_history_unfold. unfold retention_policy, kept_others.
    f_equal.
    set (rest := filter not_system (conversation_history self)).
    destruct (max_history self <? Z.of_nat (length rest)) eqn:E.
    + apply Z.ltb_lt in E.
      replace (Z.to_nat (max_history self) <? length rest)%nat with true
        by (symmetry; apply Nat.ltb_lt; lia).
      apply keep_last_slice; assumption.
    + apply Z.ltb_ge in E.
      replace (Z.to_nat (max_history self) <? length rest)%nat with false
        by (symmetry; apply Nat.ltb_ge; lia).
      reflexivity.
  - apply trim_history_system.
  - rewrite trim_history_others. apply kept_others_suffix.
  - intros. reflexivity.
Qed.

Lemma trim_history_retention_witness :
  let self := set_max_history
                (set_conversation_history
                   (init (lit "k") (lit "https://h/") (lit "m") 5 float_0_1 30)
                   [mkChatMessage (lit "user") (VStr (lit "a"));
                    mkChatMessage (lit "system") (VStr (lit "s"));
                    mkChatMessage (lit "assistant") (VStr (lit "b"))]) 1 in
  conversation_history (_trim_history self) =
    [mkChatMessage (lit "system") (VStr (lit "s"));
     mkChatMessage (lit "assistant") (VStr (lit "b"))]
  /\ conversation_history (_trim_history self) =
     retention_policy 1 (conversation_history self).
Proof.
  intro self. split; [reflexivity|].
  apply (trim_history_retention self). simpl. lia.
Defined.

Lemma non_system_count_bounded_witness :
  Z.of_nat (non_system_count
              (run_call
                 (run_calls
                    (set_max_history
                       (init (lit "k") (lit "https://h") (lit "m") 5 float_0_1 30) 2)
                    scenario_calls)
                 (AppendAssistant (VStr (lit "f"))))) <= 2.
Proof.
  apply (non_system_count_bounded
           (set_max_history
              (init (lit "k") (lit "https://h") (lit "m") 5 float_0_1 30) 2)
           scenario_calls (AppendAssistant (VStr (lit "f")))).
  simpl. lia.
Defined.

Lemma kept_others_zero (others : list ChatMessage) :
  kept_others 0 others = others.
Proof.
  unfold kept_others. destruct (0 <? _); auto. apply (slice_from_zero others).
Qed.

Lemma add_message_others_zero (self : DeepSeekClient) (c : append_call) :
  max_history self = 0 ->
  filter not_system (conversation_history (run_call self c)) =
  filter not_system (conversation_history self) ++
  [match c with
   | AppendUser x => mkChatMessage (lit "user") x
   | AppendAssistant x => mkChatMessage (lit "assistant") x
   end].
Proof.
  intros H0.
  destruct c; unfold run_call, add_user_message, add_assistant_message;
    rewrite trim_history_others;
    cbn [max_history conversation_history set_conversation_history];
    rewrite H0, kept_others_zero, filter_app; reflexivity.
Qed.

(** C10: when max_history is 0 the trimming step drops nothing: the
    non-system list is kept whole (the slice [other_messages[-0:]] is the
    whole list), each append adds its message after all earlier non-system
    messages, and after n appends the non-system count has grown by n. *)
Theorem zero_limit_keeps_everything :
  forall self : DeepSeekClient,
    max_history self = 0 ->
    conversation_history (_trim_history self) =
      filter is_system (conversation_history self) ++
      filter not_system (conversation_history self)
    /\ (forall others : list ChatMessage, slice_from (- 0) others = others)
    /\ (forall c,
          exists m, filter not_system (conversation_history (run_call self c)) =
                    filter not_system (conversation_history self) ++ [m])
    /\ (forall cs,
          non_system_count (run_calls self cs) =
          (non_system_count self + length cs)%nat).
Proof.
  intros self H0. split; [|split; [|split]].
  - rewrite trim_history_unfold, H0, kept_others_zero. reflexivity.
  - intros others. apply slice_from_zero.
  - intros c. eexists. apply add_message_others_zero, H0.
  - intros cs. revert self H0.
    induction cs as [|c cs IH]; intros self H0; simpl.
    + lia.
    + unfold run_calls in *. simpl. rewrite IH.
      * unfold non_system_count.
        rewrite (add_message_others_zero self c H0), length_app. simpl. lia.
      * rewrite max_history_run_call. exact H0.
Qed.

Lemma zero_limit_keeps_everything_witness :
  non_system_count
    (run_calls
       (set_max_history
          (init (lit "k") (lit "https://h") (lit "m") 5 float_0_1 30) 0)
       scenario_calls) = 5%nat.
Proof.
  apply (zero_limit_keeps_everything
           (set_max_history
              (init (lit "k") (lit "https://h") (lit "m") 5 float_0_1 30) 0)
           eq_refl).
Defined.

Lemma system_message_is_system (c : value) :
  is_system (mkChatMessage (lit "system") c) = true.
Proof. reflexivity. Qed.

Lemma set_system_prompt_history (self : DeepSeekClient) (text : str) :
  conversation_history (set_system_prompt self text) =
  match strip text with
  | [] => []
  | _ :: _ => [mkChatMessage (lit "system") (VStr (strip text))]
  end ++ filter not_system (conversation_history self).
Proof. unfold set_system_prompt. destruct (strip text); reflexivity. Qed.

Lemma role_of_to_dict (msg : ChatMessage) :
  getitem_str (to_dict msg) (lit "role") = Ok (VStr (role msg)).
Proof. reflexivity. Qed.

(** C6: set_system_prompt removes every existing system-role message and,
    when the text stripped of surrounding whitespace is not empty, puts one
    system message carrying the stripped text at index 0. Called twice, the
    second text (non-empty once stripped) is the content of the only system
    message, at index 0; called with the empty string it leaves no entry
    with role 'system' among the request messages. *)
Theorem set_system_prompt_replaces :
  forall (self : DeepSeekClient) (text : str),
    conversation_history (set_system_prompt self text) =
      match strip text with
      | [] => []
      | _ :: _ => [mkChatMessage (lit "system") (VStr (strip text))]
      end ++ filter not_system (conversation_history self)
    /\ (forall text2 : str,
          strip text2 <> [] ->
          exists rest,
            conversation_history
              (set_system_prompt (set_system_prompt self text) text2) =
            mkChatMessage (lit "system") (VStr (strip text2)) :: rest
            /\ filter is_system rest = []
            /\ rest = filter not_system (conversation_history self))
    /\ (forall entry : value,
          In entry (request_messages (set_system_prompt self [])) ->
          getitem_str entry (lit "role") <> Ok (VStr (lit "system"))).
Proof.
  intros self text. split; [|split].
  - apply set_system_prompt_history.
  - intros text2 Hne.
    exists (filter not_system (conversation_history self)).
    split; [|split].
    + rewrite set_system_prompt_history.
      destruct (strip text2) eqn:E; [congruence|]. simpl. f_equal.
      rewrite set_system_prompt_history, filter_app, filter_others_idem.
      destruct (strip text); reflexivity.
    + apply filter_system_of_others.
    + reflexivity.
  - intros entry Hin Hrole.
    unfold request_messages in Hin. apply in_map_iff in Hin.
    destruct Hin as [msg [<- Hmsg]].
    rewrite set_system_prompt_history in Hmsg. simpl in Hmsg.
    apply filter_In in Hmsg. destruct Hmsg as [_ Hns].
    rewrite role_of_to_dict in Hrole. injection Hrole as Hr.
    unfold not_system, is_system in Hns. rewrite Hr in Hns. discriminate.
Qed.

Lemma set_system_prompt_replaces_witness :
  conversation_history
    (set_system_prompt
       (set_system_prompt
          (add_user_message
             (init (lit "k") (lit "https://h") (lit "m") 5 float_0_1 30)
             (VStr (lit "hi")))
          (lit "first"))
       (lit "  second ")) =
  [mkChatMessage (lit "system") (VStr (lit "second"));
   mkChatMessage (lit "user") (VStr (lit "hi"))].
Proof.
  destruct (set_system_prompt_replaces
              (add_user_message
                 (init (lit "k") (lit "https://h") (lit "m") 5 float_0_1 30)
                 (VStr (lit "hi")))
              (lit "first")) as [_ [H _]].
  destruct (H (lit "  second ")) as [rest [Heq [_ Hrest]]].
  - vm_compute. discriminate.
  - rewrite Heq, Hrest. reflexivity.
Defined.

(** C7 as worded (the appended message carries the text stripped of
    surrounding whitespace) fails: appending " a " stores " a ". *)
Lemma append_does_not_strip :
  let self := init (lit "k") (lit "https://h") (lit "m") 5 float_0_1 30 in
  strip (lit " a ") = lit "a"
  /\ conversation_history (add_user_message self (VStr (lit " a "))) =
     [mkChatMessage (lit "user") (VStr (lit " a "))]
  /\ conversation_history (add_user_message self (VStr (lit " a "))) <>
     [mkChatMessage (lit "user") (VStr (strip (lit " a ")))]
  /\ conversation_history (add_assistant_message self (VStr (lit " a "))) =
     [mkChatMessage (lit "assistant") (VStr (lit " a "))]
  /\ conversation_history (add_assistant_message self (VStr (lit " a "))) <>
     [mkChatMessage (lit "assistant") (VStr (strip (lit " a ")))].
Proof.
  intro self. repeat split; try reflexivity; vm_compute; discriminate.
Qed.

Lemma kept_others_snoc (limit : Z) (others : list ChatMessage) (m : ChatMessage) :
  0 <= limit ->
  exists older, kept_others limit (others ++ [m]) = older ++ [m].
Proof.
  intros Hlim. unfold kept_others.
  destruct (limit <? Z.of_nat (length (others ++ [m]))) eqn:E.
  - apply Z.ltb_lt in E.
    assert (Hz : limit = 0 \/ 0 < limit) by lia. destruct Hz as [-> | Hpos].
    + exists others. apply (slice_from_zero (others ++ [m])).
    + rewrite slice_from_neg_last by assumption.
      rewrite length_app in *. simpl in *.
      exists (skipn (length others + 1 - Z.to_nat limit) others).
      apply skipn_snoc_last. lia.
  - exists others. reflexivity.
Qed.

Lemma append_then_trim (self : DeepSeekClient) (m : ChatMessage) :
  is_system m = false ->
  let after := _trim_history
                 (set_conversation_history self (conversation_history self ++ [m])) in
  filter not_system (conversation_history after) =
    kept_others (max_history self)
      (filter not_system (conversation_history self) ++ [m])
  /\ (0 <= max_history self ->
      exists older, conversation_history after = older ++ [m]).
Proof.
  intros Hm after. subst after. split.
  - rewrite trim_history_others.
    cbn [max_history conversation_history set_conversation_history].
    rewrite filter_app. simpl. unfold not_system at 2. rewrite Hm. reflexivity.
  - intros Hlim. rewrite trim_history_unfold.
    cbn [max_history conversation_history set_conversation_history].
    rewrite (filter_app not_system). simpl. unfold not_system at 2.
    rewrite Hm. simpl.
    destruct (kept_others_snoc (max_history self)
                (filter not_system (conversation_history self)) m Hlim)
      as [older ->].
    eexists. rewrite app_assoc. reflexivity.
Qed.

Lemma append_then_trim_client (self : DeepSeekClient) (m : ChatMessage) :
  is_system m = false ->
  _trim_history
    (set_conversation_history self (conversation_history self ++ [m])) =
  set_conversation_history self
    (filter is_system (conversation_history self)
     ++ kept_others (max_history self)
          (filter not_system (conversation_history self) ++ [m])).
Proof.
  intros Hm. destruct self as [k u mdl mt tp tm hd h mh].
  unfold _trim_history, set_conversation_history.
  cbn [max_history conversation_history api_key base_url model max_tokens
       temperature timeout headers].
  assert (Hn : not_system m = true).
  { unfold not_system. rewrite Hm. reflexivity. }
  rewrite !filter_app. cbn [filter]. rewrite Hm, Hn, app_nil_r. reflexivity.
Qed.

(** C7 (amended): add_user_message and add_assistant_message append to the
    end of the history a message with the corresponding role whose content
    is the argument exactly as given (nothing is stripped), then run
    _trim_history.  The client afterwards is the earlier client with only
    its history replaced: the earlier system messages, in their order,
    followed by what the retention step keeps of the earlier non-system
    messages and the new message; for a limit that is not negative the new
    message is the last element of the history. *)
Theorem append_stores_content_verbatim :
  forall (self : DeepSeekClient) (x : value),
    (add_user_message self x =
       set_conversation_history self
         (filter is_system (conversation_history self)
          ++ kept_others (max_history self)
               (filter not_system (conversation_history self)
                ++ [mkChatMessage (lit "user") x]))
     /\ filter not_system (conversation_history (add_user_message self x)) =
        kept_others (max_history self)
          (filter not_system (conversation_history self)
           ++ [mkChatMessage (lit "user") x])
     /\ (0 <= max_history self ->
         exists older,
           conversation_history (add_user_message self x) =
           older ++ [mkChatMessage (lit "user") x]))
    /\ (add_assistant_message self x =
          set_conversation_history self
            (filter is_system (conversation_history self)
             ++ kept_others (max_history self)
                  (filter not_system (conversation_history self)
                   ++ [mkChatMessage (lit "assistant") x]))
        /\ filter not_system (conversation_history (add_assistant_message self x)) =
           kept_others (max_history self)
             (filter not_system (conversation_history self)
              ++ [mkChatMessage (lit "assistant") x])
        /\ (0 <= max_history self ->
            exists older,
              conversation_history (add_assistant_message self x) =
              older ++ [mkChatMessage (lit "assistant") x])).
Proof.
  intros self x. split.
  - destruct (append_then_trim self (mkChatMessage (lit "user") x) eq_refl)
      as [H1 H2].
    split; [|split; [exact H1 | exact H2]].
    apply (append_then_trim_client self (mkChatMessage (lit "user") x) eq_refl).
  - destruct (append_then_trim self (mkChatMessage (lit "assistant") x) eq_refl)
      as [H1 H2].
    split; [|split; [exact H1 | exact H2]].
    apply (append_then_trim_client self (mkChatMessage (lit "assistant") x)
             eq_refl).
Qed.

Lemma append_stores_content_verbatim_witness :
  conversation_history
    (add_user_message
       (set_system_prompt
          (init (lit "k") (lit "https://h") (lit "m") 5 float_0_1 30)
          (lit "Be brief."))
       (VStr (lit " a "))) =
  [mkChatMessage (lit "system") (VStr (lit "Be brief."));
   mkChatMessage (lit "user") (VStr (lit " a "))]
  /\ exists older,
       conversation_history
         (add_user_message
            (init (lit "k") (lit "https://h") (lit "m") 5 float_0_1 30)
            (VStr (lit " a "))) =
       older ++ [mkChatMessage (lit "user") (VStr (lit " a "))].
Proof.
  split.
  - destruct (append_stores_content_verbatim
                (set_system_prompt
                   (init (lit "k") (lit "https://h") (lit "m") 5 float_0_1 30)
                   (lit "Be brief."))
                (VStr (lit " a "))) as [[H _] _].
    rewrite H. reflexivity.
  - destruct (append_stores_content_verbatim
                (init (lit "k") (lit "https://h") (lit "m") 5 float_0_1 30)
                (VStr (lit " a "))) as [[_ [_ H]] _].
    apply H. simpl. lia.
Defined.

(** C8: clear_history never fails; afterwards the history is exactly the
    system-role messages of the earlier history, in their order: every
    message whose role is not 'system' is gone and every system message is
    still there, however long the history was. *)
Theorem clear_history_keeps_system :
  forall w : world,
    fst (clear_history w) = Ok tt
    /\ conversation_history (client (snd (clear_history w))) =
       filter is_system (conversation_history (client w))
    /\ filter not_system (conversation_history (client (snd (clear_history w)))) = []
    /\ filter is_system (conversation_history (client (snd (clear_history w)))) =
       filter is_system (conversation_history (client w))
    /\ max_history (client (snd (clear_history w))) = max_history (client w)
    /\ trace (snd (clear_history w)) = trace w ++ [Print HistoryCleared].
Proof.
  intros w. unfold clear_history, bind, update_self, print, emit. simpl.
  repeat split.
  - apply filter_others_of_system.
  - apply filter_system_idem.
Qed.

Arguments slice_to : simpl never.
Arguments lit : simpl never.

Lemma print_encodable (l : console_line) (w : world) :
  line_encodable l = true ->
  print l w = (Ok tt, mkWorld (client w) (trace w ++ [Print l])).
Proof. intros H. unfold print. rewrite H. reflexivity. Qed.

Lemma print_not_encodable (l : console_line) (w : world) :
  line_encodable l = false -> print l w = (Raised (encode_error l), w).
Proof. intros H. unfold print. rewrite H. reflexivity. Qed.

Lemma print_then_ret {A : Type} (l : console_line) (a : A) (w : world) :
  (print l ;; ret a) w =
  if line_encodable l
  then (Ok a, mkWorld (client w) (trace w ++ [Print l]))
  else (Raised (encode_error l), w).
Proof.
  unfold bind, print. destruct (line_encodable l); reflexivity.
Qed.

Lemma handler_line_encodable (self : DeepSeekClient) (e : exn) :
  encodable (exn_str e) = true -> line_encodable (handler_line self e) = true.
Proof.
  intros H. unfold handler_line.
  repeat match goal with
         | |- context [if ?b then _ else _] => destruct b
         end; simpl; auto.
Qed.

Lemma run_handler_Exception (e : exn) (w : world) :
  is_Exception (exn_cls e) = true ->
  run_handler e w =
  if line_encodable (handler_line (client w) e)
  then (Ok VNone,
        mkWorld (client w) (trace w ++ [Print (handler_line (client w) e)]))
  else (Raised (encode_error (handler_line (client w) e)), w).
Proof.
  intros H. unfold run_handler, chat_handler, handler_line.
  destruct (is_Timeout (exn_cls e)).
  { reflexivity. }
  destruct (is_ConnectionError (exn_cls e)).
  { reflexivity. }
  destruct (is_RequestException (exn_cls e)).
  { apply print_then_ret. }
  destruct (is_JSONDecodeError (exn_cls e)).
  { reflexivity. }
  rewrite H. apply print_then_ret.
Qed.

Lemma chat_handler_BaseException (e : exn) :
  is_Exception (exn_cls e) = false -> chat_handler e = None.
Proof.
  destruct e as [[] s]; simpl; intros H; try discriminate; reflexivity.
Qed.

Lemma run_handler_cases (e : exn) (w : world) :
  (exists line,
      run_handler e w = (Ok VNone, mkWorld (client w) (trace w ++ [Print line])))
  \/ (is_Exception (exn_cls e) = false /\ run_handler e w = (Raised e, w))
  \/ (encodable (exn_str e) = false
      /\ exists e', run_handler e w = (Raised e', w)).
Proof.
  destruct (is_Exception (exn_cls e)) eqn:E.
  - rewrite (run_handler_Exception e w E).
    destruct (line_encodable (handler_line (client w) e)) eqn:L.
    + left. eexists. reflexivity.
    + right. right. split; [|eexists; reflexivity].
      destruct (encodable (exn_str e)) eqn:T; [|reflexivity].
      rewrite (handler_line_encodable (client w) e T) in L. discriminate.
  - right. left. unfold run_handler.
    rewrite (chat_handler_BaseException e E). auto.
Qed.

Lemma run_handler_encodable (e : exn) (w : world) :
  is_Exception (exn_cls e) = true ->
  encodable (exn_str e) = true ->
  run_handler e w =
  (Ok VNone,
   mkWorld (client w) (trace w ++ [Print (handler_line (client w) e)])).
Proof.
  intros E T. rewrite (run_handler_Exception e w E).
  rewrite (handler_line_encodable (client w) e T). reflexivity.
Qed.

Lemma run_handler_encode_error (l : console_line) (w : world) :
  run_handler (encode_error l) w =
  (Ok VNone,
   mkWorld (client w)
     (trace w ++ [Print (UnknownError (exn_str (encode_error l)))])).
Proof. apply (run_handler_encodable (encode_error l) w eq_refl eq_refl). Qed.

Lemma get_str_raises (v : value) (k : str) (default : value) (e : exn) :
  get_str v k default = Raised e ->
  exn_cls e = AttributeError /\ encodable (exn_str e) = true.
Proof.
  unfold get_str. destruct v as [| | | | | |d];
    try (intros H; injection H as <-; split; reflexivity).
  destruct (dict_lookup k d); discriminate.
Qed.

(** The line that [_handle_api_error] prints for a body that parsed to an
    object whose ['error'] is an object or is missing. *)
Lemma handle_api_error_parsed (response : Response) (w : world)
  (d : list (str * value)) (error_message : value) :
  json response = Ok (VDict d) ->
  (match dict_lookup (lit "error") d with
   | None => error_message = VStr unknown_error_text
   | Some (VDict ed) =>
       error_message =
       match dict_lookup (lit "message") ed with
       | Some x => x
       | None => VStr unknown_error_text
       end
   | Some _ => False
   end) ->
  _handle_api_error response w =
  print (if status_code response =? 401 then InvalidKey
         else if status_code response =? 429 then RateLimited
         else if status_code response =? 400 then BadRequest error_message
         else if status_code response =? 500 then ServerError
         else ApiError (status_code response) error_message) w.
Proof.
  intros J L. unfold _handle_api_error, try_except, bind, lift.
  rewrite J. cbn [get_str].
  assert (Hp : forall l : console_line,
             match print l w with
             | (Ok a, w') => (Ok a, w')
             | (Raised e, w') =>
                 match
                   (if is_JSONDecodeError (exn_cls e)
                    then Some (print (HttpError (status_code response)
                                        (slice_to 200 (text response))))
                    else None)
                 with
                 | Some h => h w'
                 | None => (Raised e, w')
                 end
             end = print l w).
  { intros l. unfold print. destruct (line_encodable l); reflexivity. }
  destruct (dict_lookup (lit "error") d) as [v|].
  - destruct v as [| | | | | |ed]; try contradiction. subst error_message.
    cbn [get_str].
    destruct (dict_lookup (lit "message") ed), (dict_lookup (lit "type") ed);
      cbv beta iota;
      repeat match goal with
             | |- context [if ?b =? ?c then _ else _] => destruct (b =? c)
             end; apply Hp.
  - subst error_message. cbn [get_str dict_lookup]. cbv beta iota.
    repeat match goal with
           | |- context [if ?b =? ?c then _ else _] => destruct (b =? c)
           end; apply Hp.
Qed.

Lemma handle_api_error_cases (response : Response) (w : world) :
  (exists line,
      _handle_api_error response w =
      (Ok tt, mkWorld (client w) (trace w ++ [Print line])))
  \/ (exists e,
        _handle_api_error response w = (Raised e, w)
        /\ (json response = Raised e
            \/ (is_Exception (exn_cls e) = true
                /\ encodable (exn_str e) = true))).
Proof.
  assert (Hprint : forall l : console_line,
             (exists line,
                 print l w = (Ok tt, mkWorld (client w) (trace w ++ [Print line])))
             \/ (exists e,
                   print l w = (Raised e, w)
                   /\ is_Exception (exn_cls e) = true
                   /\ encodable (exn_str e) = true)).
  { intros l. unfold print. destruct (line_encodable l).
    - left. eexists. reflexivity.
    - right. eexists. split; [reflexivity|]. split; reflexivity. }
  assert (Hshow : forall l : console_line,
             (exists line,
                 print l w = (Ok tt, mkWorld (client w) (trace w ++ [Print line])))
             \/ (exists e,
                   print l w = (Raised e, w)
                   /\ (json response = Raised e
                       \/ (is_Exception (exn_cls e) = true
                           /\ encodable (exn_str e) = true)))).
  { intros l. destruct (Hprint l) as [H | [e [H He]]]; [left; exact H|].
    right. exists e. split; [exact H | right; exact He]. }
  assert (Hattr : forall (v : value) (k : str) (default : value) (e : exn),
             get_str v k default = Raised e ->
             is_Exception (exn_cls e) = true /\ encodable (exn_str e) = true).
  { intros v k default e H. destruct (get_str_raises v k default e H) as [C T].
    rewrite C. auto. }
  destruct (json response) as [d|e] eqn:J.
  - destruct d as [| | | | | |d];
      try (right; unfold _handle_api_error, try_except, bind, lift;
           rewrite J; cbn [get_str]; cbv beta iota; cbn [is_JSONDecodeError exn_cls];
           eexists; split; [reflexivity | right; split; reflexivity]).
    destruct (dict_lookup (lit "error") d) as [v|] eqn:L.
    + destruct v as [| | | | | |ed];
        try (right; unfold _handle_api_error, try_except, bind, lift;
             rewrite J; cbn [get_str]; rewrite L; cbn [get_str]; cbv beta iota;
             cbn [is_JSONDecodeError exn_cls];
             eexists; split; [reflexivity | right; split; reflexivity]).
      rewrite (handle_api_error_parsed response w d _ J
                 ltac:(rewrite L; reflexivity)).
      apply Hshow.
    + rewrite (handle_api_error_parsed response w d _ J
                 ltac:(rewrite L; reflexivity)).
      apply Hshow.
  - unfold _handle_api_error, try_except, bind, lift. rewrite J.
    destruct (is_JSONDecodeError (exn_cls e)) eqn:E.
    + destruct (Hprint (HttpError (status_code response)
                          (slice_to 200 (text response))))
        as [[line H] | [e' [H He]]].
      * left. exists line. exact H.
      * right. exists e'. split; [exact H | right; exact He].
    + right. exists e. split; [reflexivity | left; reflexivity].
Qed.

Lemma chat_unfold (net : network) (u : str) (w : world) :
  let self' := add_user_message (client w) (VStr u) in
  let req := chat_request self' in
  let w1 := mkWorld self' ((trace w ++ [Print Thinking]) ++ [Post req]) in
  chat net u w =
  match net req with
  | PostRaises e => run_handler e w1
  | PostReturns response =>
      if status_code response =? 200 then
        match json response with
        | Raised e => run_handler e w1
        | Ok response_data =>
            match has_choices response_data with
            | Raised e => run_handler e w1
            | Ok false =>
                (Ok VNone, mkWorld self' (trace w1 ++ [Print FormatAbnormal]))
            | Ok true =>
                try_except
                  (choices <- lift (getitem_str response_data (lit "choices")) ;;
                   choice <- lift (getitem_zero choices) ;;
                   message <- lift (getitem_str choice (lit "message")) ;;
                   assistant_reply <- lift (getitem_str message (lit "content")) ;;
                   update_self
                     (fun self => add_assistant_message self assistant_reply) ;;
                   usage <- lift (get_str response_data (lit "usage") (VDict [])) ;;
                   _print_response_info usage ;;
                   ret assistant_reply)
                  chat_handler w1
            end
        end
      else
        match _handle_api_error response w1 with
        | (Ok _, w2) => (Ok VNone, w2)
        | (Raised e, w2) => run_handler e w2
        end
  end.
Proof.
  intros self' req w1.
  unfold chat, try_except, bind, update_self, get_self, print, emit,
    requests_post, run_handler. simpl.
  fold self'. fold req. fold w1.
  destruct (net req) as [e|response]; [reflexivity|].
  unfold ret. simpl.
  destruct (status_code response =? 200).
  - unfold lift. destruct (json response) as [d|e]; [|reflexivity].
    destruct (has_choices d) as [[|]|e]; reflexivity.
  - subst w1. destruct (_handle_api_error response _) as [[[]|e] w2]; reflexivity.
Qed.

Lemma trace_three (t : list event) (a b c : event) :
  ((t ++ [a]) ++ [b]) ++ [c] = t ++ [a; b; c].
Proof. rewrite <- !app_assoc. reflexivity. Qed.

Lemma has_choices_raises (d : value) (e : exn) :
  has_choices d = Raised e -> exn_cls e = TypeError.
Proof.
  unfold has_choices.
  destruct d as [| | | | s | l | d]; simpl;
    try (intros H; injection H as <-; reflexivity).
  - destruct (is_infix (lit "choices") s); [|discriminate].
    intros H; injection H as <-; reflexivity.
  - destruct (existsb _ l); [|discriminate].
    intros H; injection H as <-; reflexivity.
  - destruct (dict_lookup (lit "choices") d) as [c|]; [|discriminate].
    destruct c; simpl; try discriminate;
      intros H; injection H as <-; reflexivity.
Qed.

Lemma has_choices_raises_text (d : value) (e : exn) :
  has_choices d = Raised e ->
  is_Exception (exn_cls e) = true /\ encodable (exn_str e) = true.
Proof.
  unfold has_choices.
  destruct d as [| | | | s | l | d]; simpl;
    try (intros H; injection H as <-; split; reflexivity).
  - destruct (is_infix (lit "choices") s); [|discriminate].
    intros H; injection H as <-; split; reflexivity.
  - destruct (existsb _ l); [|discriminate].
    intros H; injection H as <-; split; reflexivity.
  - destruct (dict_lookup (lit "choices") d) as [c|]; [|discriminate].
    destruct c; simpl; try discriminate;
      intros H; injection H as <-; split; reflexivity.
Qed.

Lemma chat_failure_shape (net : network) (u : str) (w : world) :
  let self' := add_user_message (client w) (VStr u) in
  let req := chat_request self' in
  let w1 := mkWorld self' ((trace w ++ [Print Thinking]) ++ [Post req]) in
  failure_outcome (net req) = true ->
  (exists line,
      chat net u w = (Ok VNone, mkWorld self' (trace w1 ++ [Print line])))
  \/ (exists e0 e,
        (net req = PostRaises e0
         \/ exists r, net req = PostReturns r /\ json r = Raised e0)
        /\ (is_Exception (exn_cls e0) = false
            \/ encodable (exn_str e0) = false)
        /\ chat net u w = (Raised e, w1)).
Proof.
  intros self' req w1 Hfail. rewrite chat_unfold. fold self' req w1.
  assert (Hrun : forall e0,
             (net req = PostRaises e0
              \/ exists r, net req = PostReturns r /\ json r = Raised e0)
             \/ (is_Exception (exn_cls e0) = true
                 /\ encodable (exn_str e0) = true) ->
             (exists line,
                 run_handler e0 w1 =
                 (Ok VNone, mkWorld self' (trace w1 ++ [Print line])))
             \/ (exists e0' e,
                   (net req = PostRaises e0'
                    \/ exists r, net req = PostReturns r /\ json r = Raised e0')
                   /\ (is_Exception (exn_cls e0') = false
                       \/ encodable (exn_str e0') = false)
                   /\ run_handler e0 w1 = (Raised e, w1))).
  { intros e0 Hsrc.
    destruct (run_handler_cases e0 w1) as [[line H] | [[Hb H] | [Ht [e' H]]]].
    - left. exists line. exact H.
    - destruct Hsrc as [Hsrc | [E _]]; [|rewrite E in Hb; discriminate].
      right. exists e0, e0. auto.
    - destruct Hsrc as [Hsrc | [_ T]]; [|rewrite T in Ht; discriminate].
      right. exists e0, e'. auto. }
  unfold failure_outcome in Hfail.
  destruct (net req) as [e|r] eqn:N.
  - apply Hrun. left. left. reflexivity.
  - destruct (status_code r =? 200) eqn:S.
    + destruct (json r) as [d|e] eqn:J.
      * destruct (has_choices d) as [[|]|e] eqn:C; [discriminate| |].
        -- left. eexists. reflexivity.
        -- apply Hrun. right. apply (has_choices_raises_text d e C).
      * apply Hrun. left. right. exists r. auto.
    + destruct (handle_api_error_cases r w1) as [[line ->] | [e [-> He]]].
      * left. exists line. reflexivity.
      * apply Hrun. destruct He as [He | He].
        -- left. right. exists r. auto.
        -- right. exact He.
Qed.

Lemma add_user_message_members (self : DeepSeekClient) (x : value) (m : ChatMessage) :
  In m (conversation_history (add_user_message self x)) ->
  In m (conversation_history self) \/ m = mkChatMessage (lit "user") x.
Proof.
  unfold add_user_message. rewrite trim_history_unfold.
  cbn [max_history conversation_history set_conversation_history].
  intros H. apply in_app_or in H. destruct H as [H | H].
  - apply filter_In in H. destruct H as [H _].
    apply in_app_or in H. destruct H as [H | [<- | []]]; auto.
  - destruct (kept_others_suffix (max_history self)
                (filter not_system
                   (conversation_history self ++ [mkChatMessage (lit "user") x])))
      as [dropped Hd].
    assert (Hin : In m (filter not_system
                          (conversation_history self
                           ++ [mkChatMessage (lit "user") x]))).
    { rewrite Hd. apply in_or_app. right. exact H. }
    apply filter_In in Hin. destruct Hin as [Hin _].
    apply in_app_or in Hin. destruct Hin as [Hin | [<- | []]]; auto.
Qed.

(** C3: whenever the exchange fails (requests.post raises a timeout, a
    connection error or any other exception, the status is not 200, or the
    status is 200 with an unparsable body or with missing or empty
    'choices'), the client after chat is exactly the client as
    add_user_message left it at the start of the call: the user turn is
    not rolled back (for a non-negative limit it is the last message), and
    every message of the history is an earlier message or that user turn,
    so no assistant message was appended. *)
Theorem failed_chat_keeps_user_turn :
  forall (net : network) (user_input : str) (w : world),
    failure_outcome
      (net (chat_request (add_user_message (client w) (VStr user_input)))) = true ->
    client (snd (chat net user_input w)) =
      add_user_message (client w) (VStr user_input)
    /\ (0 <= max_history (client w) ->
        exists older,
          conversation_history (client (snd (chat net user_input w))) =
          older ++ [mkChatMessage (lit "user") (VStr user_input)])
    /\ (forall m,
          In m (conversation_history (client (snd (chat net user_input w)))) ->
          In m (conversation_history (client w))
          \/ m = mkChatMessage (lit "user") (VStr user_input)).
Proof.
  intros net u w Hfail.
  assert (Hc : client (snd (chat net u w)) = add_user_message (client w) (VStr u)).
  { destruct (chat_failure_shape net u w Hfail)
      as [[line ->] | (e0 & e & _ & _ & ->)]; reflexivity. }
  rewrite Hc. split; [reflexivity|]. split.
  - intros Hlim.
    apply (append_then_trim (client w) (mkChatMessage (lit "user") (VStr u)) eq_refl).
    exact Hlim.
  - intros m. apply add_user_message_members.
Qed.

Lemma failed_chat_keeps_user_turn_witness :
  conversation_history
    (client (snd (chat (always (PostReturns empty_choices_response))
                       (lit "hello") fresh_world))) =
  [mkChatMessage (lit "user") (VStr (lit "hello"))].
Proof.
  destruct (failed_chat_keeps_user_turn
              (always (PostReturns empty_choices_response)) (lit "hello")
              fresh_world eq_refl) as [H _].
  rewrite H. reflexivity.
Defined.

(** C4 as worded fails: chat hands back the same value, None, for a
    timeout, a refused connection and an HTTP 401, so its result does not
    tell the failure kinds apart; for the 401 with the body
    {"error":{"message":"invalid key","type":"auth"}} neither the status
    code nor the server's message is returned, and the printed line is the
    fixed invalid-key text. *)
Lemma chat_result_does_not_classify :
  let user_turn := add_user_message fresh_client (VStr (lit "hello")) in
  chat (always (PostRaises (mkExn ReqTimeout (lit "timed out"))))
       (lit "hello") fresh_world =
    (Ok VNone,
     mkWorld user_turn
       [Print Thinking; Post (chat_request user_turn); Print (RequestTimedOut 30)])
  /\ chat (always (PostRaises (mkExn ReqConnectionError (lit "refused"))))
          (lit "hello") fresh_world =
     (Ok VNone,
      mkWorld user_turn
        [Print Thinking; Post (chat_request user_turn); Print ConnectionFailed])
  /\ chat (always (PostReturns invalid_key_response)) (lit "hello") fresh_world =
     (Ok VNone,
      mkWorld user_turn
        [Print Thinking; Post (chat_request user_turn); Print InvalidKey]).
Proof. intro user_turn. split; [|split]; reflexivity. Qed.

Section ChatFailure.
Variable net : network.
Variable user_input : str.
Variable w : world.

Let self' := add_user_message (client w) (VStr user_input).
Let req := chat_request self'.
Let w1 := mkWorld self' ((trace w ++ [Print Thinking]) ++ [Post req]).

Lemma reports_of_handler (e : exn) (line : console_line) :
  net req = PostRaises e ->
  run_handler e w1 = (Ok VNone, mkWorld self' (trace w1 ++ [Print line])) ->
  reports net user_input w line.
Proof.
  intros N H. unfold reports. rewrite chat_unfold. fold self' req w1.
  rewrite N, H. simpl. rewrite trace_three. reflexivity.
Qed.

Lemma reports_of_api_error (r : Response) (line : console_line) :
  net req = PostReturns r ->
  status_code r <> 200 ->
  _handle_api_error r w1 = (Ok tt, mkWorld self' (trace w1 ++ [Print line])) ->
  reports net user_input w line.
Proof.
  intros N S H. unfold reports. rewrite chat_unfold. fold self' req w1.
  apply Z.eqb_neq in S. rewrite N, S, H. simpl. rewrite trace_three.
  reflexivity.
Qed.

Lemma reports_of_api_error_raised (r : Response) (e : exn)
  (line : console_line) :
  net req = PostReturns r ->
  status_code r <> 200 ->
  _handle_api_error r w1 = (Raised e, w1) ->
  run_handler e w1 = (Ok VNone, mkWorld self' (trace w1 ++ [Print line])) ->
  reports net user_input w line.
Proof.
  intros N S H R. unfold reports. rewrite chat_unfold. fold self' req w1.
  apply Z.eqb_neq in S. rewrite N, S, H, R. simpl. rewrite trace_three.
  reflexivity.
Qed.

Lemma api_error_line (r : Response) (d ed : list (str * value)) :
  json r = Ok (VDict d) ->
  dict_lookup (lit "error") d = Some (VDict ed) ->
  _handle_api_error r w1 =
  print
    (let error_message :=
       match dict_lookup (lit "message") ed with
       | Some x => x
       | None => VStr unknown_error_text
       end in
     if status_code r =? 401 then InvalidKey
     else if status_code r =? 429 then RateLimited
     else if status_code r =? 400 then BadRequest error_message
     else if status_code r =? 500 then ServerError
     else ApiError (status_code r) error_message) w1.
Proof.
  intros J L. apply (handle_api_error_parsed r w1 d _ J).
  rewrite L. reflexivity.
Qed.
End ChatFailure.

(** C4 (amended): for every failure whose exceptions derive from Exception
    and carry a text that the console can encode, chat does not raise: it
    returns None, and after the thinking line and the request it prints
    exactly one further line.  The failure kind shows only in that line,
    never in the result: the timeout line (with self.timeout) for a
    timeout, the connection line for a connection failure, the
    request-failed line with the exception text for any other transport
    error, the format line for a 200 whose 'choices' is missing or empty,
    the request-failed or parse line for a 200 whose body does not parse,
    and for a non-200 status with an error object the line chosen by
    status: a fixed invalid-key line for 401 (without the code or the
    server's message), and for a status other than 401, 429, 400, 500 the
    status code with the server's message when that message can be
    encoded, and otherwise (a string with a lone surrogate) the
    unknown-error line, because print raised UnicodeEncodeError inside
    _handle_api_error.  A transport error whose text cannot be encoded
    makes chat itself raise UnicodeEncodeError from its except clause. *)
Theorem chat_reports_failure_on_console :
  forall (net : network) (user_input : str) (w : world),
    let req := chat_request (add_user_message (client w) (VStr user_input)) in
    failure_outcome (net req) = true ->
    raises_only_Exception (net req) = true ->
    (raised_text_encodable (net req) = true ->
     exists line, reports net user_input w line)
    /\ (forall e,
          net req = PostRaises e ->
          is_Timeout (exn_cls e) = true ->
          reports net user_input w (RequestTimedOut (timeout (client w))))
    /\ (forall e,
          net req = PostRaises e ->
          is_Timeout (exn_cls e) = false ->
          is_ConnectionError (exn_cls e) = true ->
          reports net user_input w ConnectionFailed)
    /\ (forall e,
          net req = PostRaises e ->
          is_Timeout (exn_cls e) = false ->
          is_ConnectionError (exn_cls e) = false ->
          is_RequestException (exn_cls e) = true ->
          (encodable (exn_str e) = true ->
           reports net user_input w (RequestFailed (exn_str e)))
          /\ (encodable (exn_str e) = false ->
              exists e',
                exn_cls e' = UnicodeEncodeError
                /\ fst (chat net user_input w) = Raised e'))
    /\ (forall r d,
          net req = PostReturns r ->
          status_code r = 200 ->
          json r = Ok d ->
          has_choices d = Ok false ->
          reports net user_input w FormatAbnormal)
    /\ (forall r e,
          net req = PostReturns r ->
          status_code r = 200 ->
          json r = Raised e ->
          is_JSONDecodeError (exn_cls e) = true ->
          (is_RequestException (exn_cls e) = true ->
           encodable (exn_str e) = true) ->
          reports net user_input w
            (if is_RequestException (exn_cls e)
             then RequestFailed (exn_str e) else ParseFailed))
    /\ (forall r d ed,
          net req = PostReturns r ->
          json r = Ok (VDict d) ->
          dict_lookup (lit "error") d = Some (VDict ed) ->
          status_code r = 401 ->
          reports net user_input w InvalidKey)
    /\ (forall r d ed,
          net req = PostReturns r ->
          json r = Ok (VDict d) ->
          dict_lookup (lit "error") d = Some (VDict ed) ->
          status_code r <> 200 -> status_code r <> 401 ->
          status_code r <> 429 -> status_code r <> 400 ->
          status_code r <> 500 ->
          let error_message :=
            match dict_lookup (lit "message") ed with
            | Some x => x
            | None => VStr unknown_error_text
            end in
          (value_encodable error_message = true ->
           reports net user_input w (ApiError (status_code r) error_message))
          /\ (value_encodable error_message = false ->
              exists text, reports net user_input w (UnknownError text))).
Proof.
  intros net u w req Hfail Hexc.
  split; [|split; [|split; [|split; [|split; [|split; [|split]]]]]].
  - intros Htxt.
    destruct (chat_failure_shape net u w Hfail)
      as [[line H] | (e0 & e & Hsrc & Hbad & _)].
    + exists line. unfold reports. rewrite H. simpl. rewrite trace_three.
      reflexivity.
    + exfalso. fold req in Hsrc.
      unfold raises_only_Exception in Hexc.
      unfold raised_text_encodable in Htxt.
      destruct Hsrc as [N | [r [N J]]]; rewrite N in Hexc, Htxt;
        [|rewrite J in Hexc, Htxt]; destruct Hbad; congruence.
  - intros e N Ht. apply (reports_of_handler net u w e); [exact N|].
    unfold run_handler, chat_handler. rewrite Ht. reflexivity.
  - intros e N Ht Hc. apply (reports_of_handler net u w e); [exact N|].
    unfold run_handler, chat_handler. rewrite Ht, Hc. reflexivity.
  - intros e N Ht Hc Hr. split; intros Henc.
    + apply (reports_of_handler net u w e); [exact N|].
      unfold run_handler, chat_handler. rewrite Ht, Hc, Hr.
      rewrite print_then_ret. cbn [line_encodable]. rewrite Henc. reflexivity.
    + exists (encode_error (RequestFailed (exn_str e))).
      split; [reflexivity|].
      rewrite chat_unfold. fold req. rewrite N.
      unfold run_handler, chat_handler. rewrite Ht, Hc, Hr.
      rewrite print_then_ret. cbn [line_encodable]. rewrite Henc. reflexivity.
  - intros r d N S J C. unfold reports. rewrite chat_unfold. fold req.
    rewrite N, S, J, C. simpl. rewrite trace_three. reflexivity.
  - intros r e N S J Hj Henc. unfold reports. rewrite chat_unfold. fold req.
    rewrite N, S, J. change (200 =? 200) with true. cbv iota.
    unfold run_handler, chat_handler.
    destruct e as [[] s]; simpl in *; try discriminate.
    + rewrite print_then_ret. cbn [line_encodable].
      rewrite (Henc eq_refl). simpl. rewrite trace_three. reflexivity.
    + rewrite print_then_ret. cbn [line_encodable]. simpl.
      rewrite trace_three. reflexivity.
  - intros r d ed N J L S.
    apply (reports_of_api_error net u w r); [exact N | lia |].
    rewrite (api_error_line u w r d ed J L), S. reflexivity.
  - intros r d ed N J L S0 S1 S2 S3 S4 error_message.
    pose proof (api_error_line u w r d ed J L) as H.
    apply Z.eqb_neq in S1, S2, S3, S4.
    cbv zeta in H. rewrite S1, S2, S3, S4 in H. fold error_message in H.
    split; intros Henc.
    + apply (reports_of_api_error net u w r); [exact N | exact S0 |].
      rewrite H. apply print_encodable. exact Henc.
    + eexists.
      apply (reports_of_api_error_raised net u w r
               (encode_error (ApiError (status_code r) error_message)));
        [exact N | exact S0 | |].
      * rewrite H. apply print_not_encodable. exact Henc.
      * reflexivity.
Qed.

Lemma chat_reports_failure_on_console_witness :
  reports (always (PostReturns invalid_key_response)) (lit "hello") fresh_world
          InvalidKey
  /\ exists text,
       reports (always (PostReturns surrogate_message_response)) (lit "hello")
               fresh_world (UnknownError text).
Proof.
  split.
  - destruct (chat_reports_failure_on_console
                (always (PostReturns invalid_key_response)) (lit "hello")
                fresh_world eq_refl eq_refl) as (_ & _ & _ & _ & _ & _ & H & _).
    apply (H invalid_key_response _ _ eq_refl eq_refl eq_refl eq_refl).
  - destruct (chat_reports_failure_on_console
                (always (PostReturns surrogate_message_response)) (lit "hello")
                fresh_world eq_refl eq_refl) as (_ & _ & _ & _ & _ & _ & _ & H).
    apply (H surrogate_message_response _ _ eq_refl eq_refl eq_refl);
      try discriminate.
    reflexivity.
Defined.

(** C5 as worded fails: a 200 response whose 'choices' is the non-empty
    array [{}] appends nothing and makes chat return None; and with
    "usage": 5 beside a well-formed first choice the reply "hi" is appended
    but chat still returns None. *)
Lemma reply_not_always_returned :
  let user_turn := add_user_message fresh_client (VStr (lit "hello")) in
  has_choices (VDict [(lit "choices", VList [VDict []])]) = Ok true
  /\ chat (always (PostReturns bare_choice_response)) (lit "hello") fresh_world =
     (Ok VNone,
      mkWorld user_turn
        [Print Thinking; Post (chat_request user_turn);
         Print (UnknownError (quoted (lit "message")))])
  /\ conversation_history user_turn =
     [mkChatMessage (lit "user") (VStr (lit "hello"))]
  /\ fst (chat (always (PostReturns odd_usage_response)) (lit "hello") fresh_world)
     = Ok VNone
  /\ conversation_history
       (client (snd (chat (always (PostReturns odd_usage_response))
                          (lit "hello") fresh_world))) =
     [mkChatMessage (lit "user") (VStr (lit "hello"));
      mkChatMessage (lit "assistant") (VStr (lit "hi"))].
Proof. intro user_turn. repeat (split; [reflexivity|]). reflexivity. Qed.

Lemma seq_index_head {A : Type} (x : A) (l : list A) :
  seq_index (x :: l) 0 = Some x.
Proof.
  unfold seq_index. simpl Z.ltb. cbv iota.
  replace (Z.of_nat (length (x :: l)) <=? 0) with false; [reflexivity|].
  symmetry. apply Z.leb_gt. simpl length. lia.
Qed.

Lemma has_choices_nonempty (d : list (str * value)) (c : value)
  (rest : list value) :
  dict_lookup (lit "choices") d = Some (VList (c :: rest)) ->
  has_choices (VDict d) = Ok true.
Proof.
  intros L. unfold has_choices, contains_str, getitem_str.
  rewrite L. unfold py_len.
  replace (0 <? Z.of_nat (length (c :: rest))) with true; [reflexivity|].
  symmetry. apply Z.ltb_lt. simpl length. lia.
Qed.

Lemma usage_part_cases (k : str) (usage : value) (parts : list (str * value))
  (w : world) :
  (exists parts', usage_part k usage parts w = (Ok parts', w))
  \/ (exists e, usage_part k usage parts w = (Raised e, w)
                /\ exn_cls e = TypeError
                /\ encodable (exn_str e) = true).
Proof.
  unfold usage_part, bind, lift, ret.
  destruct usage as [| | | | s | l | d]; simpl;
    try (right; eexists; split; [|split]; reflexivity).
  - destruct (is_infix k s); [right | left]; eexists;
      try (split; [|split]); reflexivity.
  - destruct (existsb _ l); [right | left]; eexists;
      try (split; [|split]); reflexivity.
  - destruct (dict_lookup k d); left; eexists; reflexivity.
Qed.

Lemma print_response_info_cases (usage : value) (w : world) :
  (exists parts,
      _print_response_info usage w =
      (Ok tt, mkWorld (client w) (trace w ++ [Print (ResponseInfo parts)])))
  \/ (exists e, _print_response_info usage w = (Raised e, w)
                /\ is_Exception (exn_cls e) = true
                /\ encodable (exn_str e) = true).
Proof.
  assert (Hprint : forall parts,
             (exists parts',
                 print (ResponseInfo parts) w =
                 (Ok tt,
                  mkWorld (client w) (trace w ++ [Print (ResponseInfo parts')])))
             \/ (exists e, print (ResponseInfo parts) w = (Raised e, w)
                           /\ is_Exception (exn_cls e) = true
                           /\ encodable (exn_str e) = true)).
  { intros parts. unfold print.
    destruct (line_encodable (ResponseInfo parts)).
    - left. exists parts. reflexivity.
    - right. eexists. split; [reflexivity|]. split; reflexivity. }
  unfold _print_response_info, bind.
  destruct (truthy usage).
  - destruct (usage_part_cases (lit "prompt_tokens") usage [] w)
      as [[p1 ->] | [e [-> [He Ht]]]];
      [|right; exists e; rewrite He; auto].
    destruct (usage_part_cases (lit "completion_tokens") usage p1 w)
      as [[p2 ->] | [e [-> [He Ht]]]];
      [|right; exists e; rewrite He; auto].
    destruct (usage_part_cases (lit "total_tokens") usage p2 w)
      as [[p3 ->] | [e [-> [He Ht]]]];
      [|right; exists e; rewrite He; auto].
    apply Hprint.
  - apply Hprint.
Qed.

Lemma print_response_info_displayable (usage : value) (w : world) :
  usage_displayable usage = true ->
  _print_response_info usage w =
  print (ResponseInfo (shown_counters usage)) w.
Proof.
  intros H. unfold _print_response_info, bind.
  destruct (truthy usage) eqn:T.
  - destruct usage as [| | | | s | l | d];
      try (unfold usage_displayable in H; rewrite T in H; discriminate H).
    unfold usage_part, bind, lift, ret, shown_counters.
    cbn [contains_str getitem_str flat_map].
    destruct (dict_lookup (lit "prompt_tokens") d),
             (dict_lookup (lit "completion_tokens") d),
             (dict_lookup (lit "total_tokens") d); reflexivity.
  - unfold ret.
    replace (shown_counters usage) with (@nil (str * value)); [reflexivity|].
    destruct usage as [| | | | | |d]; try reflexivity.
    destruct d; [reflexivity | discriminate T].
Qed.

Section ChatSuccess.
Variable net : network.
Variable user_input : str.
Variable w : world.
Variable r : Response.
Variable d choice message : list (str * value).
Variable rest : list value.
Variable reply : value.

Let self' := add_user_message (client w) (VStr user_input).
Let req := chat_request self'.
Let usage :=
  match dict_lookup (lit "usage") d with
  | Some x => x
  | None => VDict []
  end.

Hypothesis post_returns : net req = PostReturns r.
Hypothesis status_200 : status_code r = 200.
Hypothesis body : json r = Ok (VDict d).
Hypothesis choices_nonempty :
  dict_lookup (lit "choices") d = Some (VList (VDict choice :: rest)).
Hypothesis choice_message :
  dict_lookup (lit "message") choice = Some (VDict message).
Hypothesis message_content :
  dict_lookup (lit "content") message = Some reply.

Lemma chat_success_unfold :
  chat net user_input w =
  match
    _print_response_info usage
      (mkWorld (add_assistant_message self' reply)
               ((trace w ++ [Print Thinking]) ++ [Post req]))
  with
  | (Ok _, w3) => (Ok reply, w3)
  | (Raised e, w3) => run_handler e w3
  end.
Proof.
  rewrite chat_unfold. fold self' req.
  rewrite post_returns, status_200, body.
  rewrite (has_choices_nonempty d _ _ choices_nonempty).
  change (200 =? 200) with true. cbv iota.
  unfold try_except, bind, lift, update_self, ret, getitem_str, getitem_zero,
    get_str.
  rewrite choices_nonempty, seq_index_head, choice_message, message_content.
  unfold usage, run_handler.
  destruct (dict_lookup (lit "usage") d); cbv beta iota;
    destruct (_print_response_info _ _) as [[[]|e] w3]; reflexivity.
Qed.
End ChatSuccess.

(** C5 (amended): for an HTTP 200 response whose parsed body is an object
    with a non-empty 'choices' array whose first element carries
    message.content, chat appends exactly one assistant message whose
    content is that value unchanged (the client afterwards is
    add_assistant_message applied to the client after the user append, and
    for a non-negative limit that message is the last of the history).
    When moreover 'usage' is missing, an object or falsy, and every
    counter it shows can be encoded for the console, chat returns that
    same content after printing the response-information line with those
    counters; when a shown counter cannot be encoded (a string with a lone
    surrogate), print raises after the append, and chat prints the
    unknown-error line and returns None. *)
Theorem chat_success_appends_reply :
  forall (net : network) (user_input : str) (w : world) (r : Response)
         (d choice message : list (str * value)) (rest : list value)
         (reply : value),
    let user_turn := add_user_message (client w) (VStr user_input) in
    let req := chat_request user_turn in
    let usage :=
      match dict_lookup (lit "usage") d with
      | Some x => x
      | None => VDict []
      end in
    net req = PostReturns r ->
    status_code r = 200 ->
    json r = Ok (VDict d) ->
    dict_lookup (lit "choices") d = Some (VList (VDict choice :: rest)) ->
    dict_lookup (lit "message") choice = Some (VDict message) ->
    dict_lookup (lit "content") message = Some reply ->
    client (snd (chat net user_input w)) = add_assistant_message user_turn reply
    /\ (0 <= max_history (client w) ->
        exists older,
          conversation_history (client (snd (chat net user_input w))) =
          older ++ [mkChatMessage (lit "assistant") reply])
    /\ (usage_displayable usage = true ->
        line_encodable (ResponseInfo (shown_counters usage)) = true ->
        chat net user_input w =
        (Ok reply,
         mkWorld (add_assistant_message user_turn reply)
           (trace w ++
            [Print Thinking; Post req;
             Print (ResponseInfo (shown_counters usage))])))
    /\ (usage_displayable usage = true ->
        line_encodable (ResponseInfo (shown_counters usage)) = false ->
        exists text,
          chat net user_input w =
          (Ok VNone,
           mkWorld (add_assistant_message user_turn reply)
             (trace w ++
              [Print Thinking; Post req; Print (UnknownError text)]))).
Proof.
  intros net u w r d choice message rest reply user_turn req usage
         N S J C Hm Hc.
  pose proof (chat_success_unfold net u w r d choice message rest reply
                N S J C Hm Hc) as U.
  fold user_turn req usage in U.
  assert (Hclient : client (snd (chat net u w)) =
                    add_assistant_message user_turn reply).
  { rewrite U.
    destruct (print_response_info_cases usage
                (mkWorld (add_assistant_message user_turn reply)
                         ((trace w ++ [Print Thinking]) ++ [Post req])))
      as [[parts ->] | [e [-> He]]]; [reflexivity|].
    destruct (run_handler_cases e
                (mkWorld (add_assistant_message user_turn reply)
                         ((trace w ++ [Print Thinking]) ++ [Post req])))
      as [[line ->] | [[Hb ->] | [_ [e' ->]]]]; reflexivity. }
  split; [exact Hclient|]. split; [|split].
  - intros Hlim. rewrite Hclient.
    apply (append_then_trim user_turn (mkChatMessage (lit "assistant") reply)
             eq_refl).
    exact Hlim.
  - intros Hu Henc. rewrite U.
    rewrite (print_response_info_displayable usage _ Hu).
    rewrite (print_encodable _ _ Henc).
    simpl. rewrite trace_three. reflexivity.
  - intros Hu Henc. rewrite U.
    rewrite (print_response_info_displayable usage _ Hu).
    rewrite (print_not_encodable _ _ Henc). cbv beta iota.
    rewrite run_handler_encode_error. cbn [client trace].
    rewrite trace_three. eexists. reflexivity.
Qed.

Lemma chat_success_appends_reply_witness :
  conversation_history
    (client (snd (chat (always (PostReturns good_response)) (lit "hello")
                       fresh_world))) =
  [mkChatMessage (lit "user") (VStr (lit "hello"));
   mkChatMessage (lit "assistant") (VStr (lit " hi "))]
  /\ fst (chat (always (PostReturns good_response)) (lit "hello") fresh_world) =
     Ok (VStr (lit " hi "))
  /\ fst (chat (always (PostReturns surrogate_usage_response)) (lit "hello")
               fresh_world) = Ok VNone.
Proof.
  destruct (chat_success_appends_reply
              (always (PostReturns good_response)) (lit "hello") fresh_world
              good_response _ _ _ _ _
              eq_refl eq_refl eq_refl eq_refl eq_refl eq_refl)
    as [Hc [_ [Hr _]]].
  split; [|split].
  - rewrite Hc. reflexivity.
  - rewrite (Hr eq_refl eq_refl). reflexivity.
  - destruct (chat_success_appends_reply
                (always (PostReturns surrogate_usage_response)) (lit "hello")
                fresh_world surrogate_usage_response _ _ _ _ _
                eq_refl eq_refl eq_refl eq_refl eq_refl eq_refl)
      as [_ [_ [_ Hn]]].
    destruct (Hn eq_refl eq_refl) as [text ->]. reflexivity.
Defined.

Lemma test_connection_unfold (net : network) (w : world) :
  let w1 := mkWorld (client w)
              ((trace w ++ [Print Testing]) ++ [Post (probe_request (client w))]) in
  test_connection net w =
  match net (probe_request (client w)) with
  | PostRaises e => run_test_handler e w1
  | PostReturns response =>
      if status_code response =? 200 then
        (Ok true, mkWorld (client w) (trace w1 ++ [Print TestSucceeded]))
      else
        match
          _handle_api_error response
            (mkWorld (client w)
               (trace w1 ++ [Print (TestFailedHttp (status_code response))]))
        with
        | (Ok _, w2) => (Ok false, w2)
        | (Raised e, w2) => run_test_handler e w2
        end
  end.
Proof.
  intros w1.
  unfold test_connection, requests_post, try_except, run_test_handler.
  unfold bind, get_self, print, emit, raise. simpl.
  destruct (net _) as [e|response];
    [destruct (is_Exception (exn_cls e)); reflexivity|].
  unfold ret. simpl.
  destruct (status_code response =? 200); [reflexivity|].
  destruct (_handle_api_error response _) as [[[]|e] w2];
    [reflexivity|].
  destruct (is_Exception (exn_cls e)); reflexivity.
Qed.

Lemma world_app_nil (w : world) : mkWorld (client w) (trace w ++ []) = w.
Proof. destruct w. simpl. rewrite app_nil_r. reflexivity. Qed.

Lemma print_uniform (line : console_line) :
  exists (res : result unit) (lines : list console_line),
    forall w : world,
      print line w = (res, mkWorld (client w) (trace w ++ map Print lines)).
Proof.
  unfold print. destruct (line_encodable line).
  - exists (Ok tt), [line]. intros w. reflexivity.
  - exists (Raised (encode_error line)), []. intros w. unfold raise. simpl.
    rewrite world_app_nil. reflexivity.
Qed.

Lemma handle_api_error_uniform (response : Response) :
  exists (res : result unit) (lines : list console_line),
    forall w : world,
      _handle_api_error response w =
      (res, mkWorld (client w) (trace w ++ map Print lines)).
Proof.
  assert (Hraise : forall e : exn,
             exists (res : result unit) (lines : list console_line),
               forall w : world,
                 (Raised e, w) =
                 (res, mkWorld (client w) (trace w ++ map Print lines))).
  { intros e. exists (Raised e), []. intros w. simpl.
    rewrite world_app_nil. reflexivity. }
  destruct (json response) as [d|e] eqn:J.
  - destruct d as [| | | | |l|d];
      try (unfold _handle_api_error, try_except, bind, lift; rewrite J;
           simpl; apply Hraise).
    destruct (dict_lookup (lit "error") d) as [v|] eqn:L.
    + destruct v as [| | | | |l|d'];
        try (unfold _handle_api_error, try_except, bind, lift; rewrite J;
             simpl; rewrite L; simpl; apply Hraise).
      destruct (print_uniform
                  (let error_message :=
                     match dict_lookup (lit "message") d' with
                     | Some x => x
                     | None => VStr unknown_error_text
                     end in
                   if status_code response =? 401 then InvalidKey
                   else if status_code response =? 429 then RateLimited
                   else if status_code response =? 400
                        then BadRequest error_message
                   else if status_code response =? 500 then ServerError
                   else ApiError (status_code response) error_message))
        as (res & lines & H).
      exists res, lines. intros w.
      rewrite (handle_api_error_parsed response w d _ J
                 ltac:(rewrite L; reflexivity)).
      apply H.
    + destruct (print_uniform
                  (if status_code response =? 401 then InvalidKey
                   else if status_code response =? 429 then RateLimited
                   else if status_code response =? 400
                        then BadRequest (VStr unknown_error_text)
                   else if status_code response =? 500 then ServerError
                   else ApiError (status_code response)
                          (VStr unknown_error_text)))
        as (res & lines & H).
      exists res, lines. intros w.
      rewrite (handle_api_error_parsed response w d _ J
                 ltac:(rewrite L; reflexivity)).
      apply H.
  - unfold _handle_api_error, try_except, bind, lift. rewrite J.
    destruct (is_JSONDecodeError (exn_cls e));
      [apply print_uniform | apply Hraise].
Qed.

Lemma run_test_handler_uniform (e : exn) :
  exists (res : result bool) (lines : list console_line),
    (forall w : world,
        run_test_handler e w =
        (res, mkWorld (client w) (trace w ++ map Print lines)))
    /\ res <> Ok true.
Proof.
  unfold run_test_handler. destruct (is_Exception (exn_cls e)).
  - destruct (line_encodable (TestFailed (exn_str e))) eqn:L.
    + exists (Ok false), [TestFailed (exn_str e)]. split; [|discriminate].
      intros w. rewrite print_then_ret, L. reflexivity.
    + exists (Raised (encode_error (TestFailed (exn_str e)))), [].
      split; [|discriminate].
      intros w. rewrite print_then_ret, L. simpl.
      rewrite world_app_nil. reflexivity.
  - exists (Raised e), []. split; [|discriminate].
    intros w. simpl. rewrite world_app_nil. reflexivity.
Qed.

Lemma set_conversation_history_same (self : DeepSeekClient) :
  set_conversation_history self (conversation_history self) = self.
Proof. destruct self. reflexivity. Qed.

Lemma test_connection_uniform (net : network) (self : DeepSeekClient) :
  exists (b : result bool) (lines : list console_line),
    (forall (h : list ChatMessage) (t : list event),
        test_connection net (mkWorld (set_conversation_history self h) t) =
        (b, mkWorld (set_conversation_history self h)
              (t ++ [Print Testing; Post (probe_request self)]
                 ++ map Print lines)))
    /\ (b = Ok true <->
        exists response,
          net (probe_request self) = PostReturns response
          /\ status_code response = 200).
Proof.
  assert (Hu : forall h t,
             test_connection net (mkWorld (set_conversation_history self h) t) =
             match net (probe_request self) with
             | PostRaises e =>
                 run_test_handler e
                   (mkWorld (set_conversation_history self h)
                      ((t ++ [Print Testing]) ++ [Post (probe_request self)]))
             | PostReturns response =>
                 if status_code response =? 200 then
                   (Ok true,
                    mkWorld (set_conversation_history self h)
                      (((t ++ [Print Testing]) ++ [Post (probe_request self)])
                       ++ [Print TestSucceeded]))
                 else
                   match
                     _handle_api_error response
                       (mkWorld (set_conversation_history self h)
                          (((t ++ [Print Testing]) ++ [Post (probe_request self)])
                           ++ [Print (TestFailedHttp (status_code response))]))
                   with
                   | (Ok _, w2) => (Ok false, w2)
                   | (Raised e, w2) => run_test_handler e w2
                   end
             end).
  { intros h t. rewrite test_connection_unfold. reflexivity. }
  destruct (net (probe_request self)) as [e|response] eqn:N.
  - destruct (run_test_handler_uniform e) as (res & lines & Hh & Hne).
    exists res, lines. split.
    + intros h t. rewrite Hu, Hh. simpl. rewrite <- !app_assoc. reflexivity.
    + split; [intros H; destruct (Hne H) | intros [r0 [H _]]; discriminate].
  - destruct (status_code response =? 200) eqn:S.
    + exists (Ok true), [TestSucceeded]. split.
      * intros h t. rewrite Hu. simpl. rewrite <- !app_assoc. reflexivity.
      * split; [|reflexivity]. intros _. exists response.
        apply Z.eqb_eq in S. auto.
    + assert (Hno : ~ exists r0, PostReturns response = PostReturns r0
                                 /\ status_code r0 = 200).
      { intros [r0 [H H200]]. injection H as <-. apply Z.eqb_neq in S. lia. }
      destruct (handle_api_error_uniform response) as (res & lines & Hh).
      destruct res as [[]|e].
      * exists (Ok false), (TestFailedHttp (status_code response) :: lines).
        split.
        -- intros h t. rewrite Hu, Hh. simpl. rewrite <- !app_assoc. reflexivity.
        -- split; [discriminate | intros H; destruct (Hno H)].
      * destruct (run_test_handler_uniform e) as (res' & lines' & Hh' & Hne).
        exists res', (TestFailedHttp (status_code response) :: lines ++ lines').
        split.
        -- intros h t. rewrite Hu, Hh, Hh'. simpl.
           rewrite map_app, <- !app_assoc. reflexivity.
        -- split; [intros H; destruct (Hne H) | intros H; destruct (Hno H)].
Qed.

(** C9: test_connection posts one request whose 'messages' is the fixed
    list [{'role': 'user', 'content': 'Hello'}] (with max_tokens 10 and
    temperature 0.1), built without reading conversation_history; whatever
    the outcome, the client, and so its conversation_history, is unchanged
    and no second request is sent; the call returns True exactly when
    requests.post returned a response whose status is 200; and its result
    is the same whatever the stored history is. *)
Theorem test_connection_probe :
  forall (net : network) (w : world),
    let probe :=
      mkRequest (base_url (client w) ++ lit "/chat/completions")
        (headers (client w))
        (VDict [(lit "model", VStr (model (client w)));
                (lit "messages",
                 VList [VDict [(lit "role", VStr (lit "user"));
                               (lit "content", VStr (lit "Hello"))]]);
                (lit "max_tokens", VInt 10);
                (lit "temperature", VFloat float_0_1)])
        10 in
    client (snd (test_connection net w)) = client w
    /\ (exists lines,
          trace (snd (test_connection net w)) =
          trace w ++ [Print Testing; Post probe] ++ map Print lines)
    /\ (fst (test_connection net w) = Ok true <->
        exists response,
          net probe = PostReturns response /\ status_code response = 200)
    /\ (forall h : list ChatMessage,
          fst (test_connection net
                 (mkWorld (set_conversation_history (client w) h) (trace w))) =
          fst (test_connection net w)).
Proof.
  intros net w probe.
  destruct (test_connection_uniform net (client w)) as (b & lines & Hrun & Hb).
  change (probe_request (client w)) with probe in Hrun, Hb.
  assert (Hw : test_connection net w =
               (b, mkWorld (client w)
                     (trace w ++ [Print Testing; Post probe] ++ map Print lines))).
  { pose proof (Hrun (conversation_history (client w)) (trace w)) as H.
    rewrite set_conversation_history_same in H.
    destruct w as [c t]. exact H. }
  split; [|split; [|split]].
  - rewrite Hw. reflexivity.
  - exists lines. rewrite Hw. reflexivity.
  - rewrite Hw. exact Hb.
  - intros h. rewrite Hw, Hrun. reflexivity.
Qed.

Lemma test_connection_probe_witness :
  fst (test_connection (always (PostReturns good_response)) fresh_world) = Ok true
  /\ fst (test_connection (always (PostReturns invalid_key_response)) fresh_world)
     <> Ok true.
Proof.
  split.
  - destruct (test_connection_probe (always (PostReturns good_response))
                fresh_world) as (_ & _ & [_ H] & _).
    apply H. exists good_response. split; reflexivity.
  - destruct (test_connection_probe (always (PostReturns invalid_key_response))
                fresh_world) as (_ & _ & [H _] & _).
    intros E. destruct (H E) as [response [Hr Hs]].
    injection Hr as <-. discriminate Hs.
Defined.

(* ================================================================== *)
(** * Further properties of the client *)

Lemma lstrip_with_app (p : N -> bool) (a b : str) :
  lstrip_with p (a ++ b) =
  if forallb p a then lstrip_with p b else lstrip_with p a ++ b.
Proof.
  induction a as [|c a IH]; simpl; [reflexivity|].
  destruct (p c); simpl; [exact IH | reflexivity].
Qed.

Lemma forallb_rev {A : Type} (p : A -> bool) (l : list A) :
  forallb p (rev l) = forallb p l.
Proof.
  induction l as [|a l IH]; simpl; [reflexivity|].
  rewrite forallb_app, IH. simpl. rewrite andb_true_r. apply andb_comm.
Qed.

Lemma rstrip_with_cons (p : N -> bool) (c : N) (s : str) :
  rstrip_with p (c :: s) =
  if forallb p s then (if p c then [] else [c]) else c :: rstrip_with p s.
Proof.
  unfold rstrip_with. simpl rev. rewrite lstrip_with_app, forallb_rev.
  destruct (forallb p s).
  - simpl. destruct (p c); reflexivity.
  - rewrite rev_app_distr. reflexivity.
Qed.

Lemma rstrip_with_all (p : N -> bool) (s : str) :
  forallb p s = true -> rstrip_with p s = [].
Proof.
  induction s as [|c s IH]; intros H; [reflexivity|].
  simpl in H. apply andb_true_iff in H. destruct H as [Hc Hs].
  rewrite rstrip_with_cons, Hs, Hc. reflexivity.
Qed.

(** [rstrip] cuts a run of [p]-characters off the end, and nothing else. *)
Lemma rstrip_with_split (p : N -> bool) (s : str) :
  exists tail, s = rstrip_with p s ++ tail /\ forallb p tail = true.
Proof.
  induction s as [|c s IH].
  - exists []. split; reflexivity.
  - rewrite rstrip_with_cons. destruct (forallb p s) eqn:A.
    + destruct (p c) eqn:C.
      * exists (c :: s). split; [reflexivity|]. simpl. rewrite C, A. reflexivity.
      * exists s. split; [reflexivity | exact A].
    + destruct IH as [tail [Hs Ht]]. exists tail. split; [|exact Ht].
      simpl. f_equal. exact Hs.
Qed.

Lemma rstrip_with_last (p : N -> bool) (s body : str) (c : N) :
  rstrip_with p s = body ++ [c] -> p c = false.
Proof.
  revert body. induction s as [|x s IH]; intros body H.
  - destruct body; discriminate.
  - rewrite rstrip_with_cons in H. destruct (forallb p s) eqn:A.
    + destruct (p x) eqn:X.
      * destruct body; discriminate.
      * destruct body as [|y body]; [injection H as <-; exact X|].
        destruct body; discriminate.
    + destruct body as [|y body].
      * injection H as _ H. unfold rstrip_with in H.
        apply (f_equal (@rev N)) in H. rewrite rev_involutive in H. simpl in H.
        exfalso. clear IH. 
        assert (Hall : forallb p (rev s) = false) by (rewrite forallb_rev; exact A).
        destruct (rev s) as [|z r]; [discriminate|].
        simpl in H, Hall. destruct (p z); [|discriminate].
        simpl in Hall. clear -H Hall.
        induction r as [|q r IHr]; [discriminate|].
        simpl in H, Hall. destruct (p q); [|discriminate]. auto.
      * injection H as _ H. apply (IH body H).
Qed.



Lemma rstrip_with_fixed (p : N -> bool) (s : str) :
  (forall body c, s = body ++ [c] -> p c = false) -> rstrip_with p s = s.
Proof.
  intros H. destruct (rstrip_with_split p s) as [tail [Hs Ht]].
  destruct tail as [|t tail _] using rev_ind.
  - rewrite app_nil_r in Hs. symmetry. exact Hs.
  - rewrite app_assoc in Hs. apply H in Hs.
    rewrite forallb_app in Ht. simpl in Ht. rewrite Hs in Ht.
    rewrite andb_false_r in Ht. discriminate.
Qed.



Lemma trace_after_post (t : list event) (a b : event) (lines : list console_line) :
  ((t ++ [a]) ++ [b]) ++ map Print lines = t ++ [a; b] ++ map Print lines.
Proof. rewrite <- !app_assoc. reflexivity. Qed.

Lemma run_handler_outcome (e : exn) (w : world) :
  exists (res : result value) (lines : list console_line),
    run_handler e w = (res, mkWorld (client w) (trace w ++ map Print lines))
    /\ (length lines <= 1)%nat.
Proof.
  destruct (run_handler_cases e w) as [[line ->] | [[_ ->] | [_ [e' ->]]]].
  - exists (Ok VNone), [line]. split; [reflexivity | simpl; lia].
  - exists (Raised e), []. simpl. rewrite world_app_nil. split; [reflexivity | lia].
  - exists (Raised e'), []. simpl. rewrite world_app_nil.
    split; [reflexivity | lia].
Qed.

(** What the part of [chat] after the test of line 158 does. *)
Lemma chat_reply_part_outcome (response_data : value) (w1 : world) :
  exists (res : result value) (lines : list console_line) (c' : DeepSeekClient),
    try_except
      (choices <- lift (getitem_str response_data (lit "choices")) ;;
       choice <- lift (getitem_zero choices) ;;
       message <- lift (getitem_str choice (lit "message")) ;;
       assistant_reply <- lift (getitem_str message (lit "content")) ;;
       update_self (fun self => add_assistant_message self assistant_reply) ;;
       usage <- lift (get_str response_data (lit "usage") (VDict [])) ;;
       _print_response_info usage ;;
       ret assistant_reply)
      chat_handler w1 =
    (res, mkWorld c' (trace w1 ++ map Print lines))
    /\ (length lines <= 1)%nat
    /\ (c' = client w1
        \/ exists reply, c' = add_assistant_message (client w1) reply).
Proof.
  assert (Hraise : forall e,
             exists (res : result value) (lines : list console_line)
                    (c' : DeepSeekClient),
               run_handler e w1 = (res, mkWorld c' (trace w1 ++ map Print lines))
               /\ (length lines <= 1)%nat
               /\ (c' = client w1
                   \/ exists reply, c' = add_assistant_message (client w1) reply)).
  { intros e. destruct (run_handler_outcome e w1) as (res & lines & H & L).
    exists res, lines, (client w1). auto. }
  unfold try_except, bind, lift.
  destruct (getitem_str response_data (lit "choices")) as [choices|e];
    [|apply Hraise].
  destruct (getitem_zero choices) as [choice|e]; [|apply Hraise].
  destruct (getitem_str choice (lit "message")) as [message|e]; [|apply Hraise].
  destruct (getitem_str message (lit "content")) as [reply|e]; [|apply Hraise].
  unfold update_self. cbv beta iota.
  set (w2 := mkWorld (add_assistant_message (client w1) reply) (trace w1)).
  destruct (get_str response_data (lit "usage") (VDict [])) as [usage|e].
  - destruct (print_response_info_cases usage w2) as [[parts ->] | [e [-> _]]].
    + exists (Ok reply), [ResponseInfo parts], (client w2).
      split; [reflexivity|]. split; [simpl; lia|]. right. exists reply. reflexivity.
    + destruct (run_handler_outcome e w2) as (res & lines & H & L).
      exists res, lines, (client w2). fold (run_handler e w2). rewrite H.
      split; [reflexivity|]. split; [exact L|]. right. exists reply. reflexivity.
  - destruct (run_handler_outcome e w2) as (res & lines & H & L).
    exists res, lines, (client w2). fold (run_handler e w2). rewrite H.
    split; [reflexivity|]. split; [exact L|]. right. exists reply. reflexivity.
Qed.

(** Every call of [chat], whatever the remote end does. *)
Lemma chat_outcome (net : network) (u : str) (w : world) :
  let self' := add_user_message (client w) (VStr u) in
  let req := chat_request self' in
  exists (res : result value) (lines : list console_line) (c' : DeepSeekClient),
    chat net u w =
    (res, mkWorld c' (trace w ++ [Print Thinking; Post req] ++ map Print lines))
    /\ (length lines <= 1)%nat
    /\ (c' = self' \/ exists reply, c' = add_assistant_message self' reply).
Proof.
  intros self' req.
  set (w1 := mkWorld self' ((trace w ++ [Print Thinking]) ++ [Post req])).
  assert (Hgoal :
    exists (res : result value) (lines : list console_line) (c' : DeepSeekClient),
      chat net u w = (res, mkWorld c' (trace w1 ++ map Print lines))
      /\ (length lines <= 1)%nat
      /\ (c' = self' \/ exists reply, c' = add_assistant_message self' reply)).
  { assert (Hraise : forall e,
      exists (res : result value) (lines : list console_line)
             (c' : DeepSeekClient),
        run_handler e w1 = (res, mkWorld c' (trace w1 ++ map Print lines))
        /\ (length lines <= 1)%nat
        /\ (c' = self' \/ exists reply, c' = add_assistant_message self' reply)).
    { intros e. destruct (run_handler_outcome e w1) as (res & lines & H & L).
      exists res, lines, self'. auto. }
    rewrite chat_unfold. fold self' req w1.
    destruct (net req) as [e|r]; [apply Hraise|].
    destruct (status_code r =? 200).
    - destruct (json r) as [d|e]; [|apply Hraise].
      destruct (has_choices d) as [[|]|e]; [| |apply Hraise].
      + apply (chat_reply_part_outcome d w1).
      + exists (Ok VNone), [FormatAbnormal], self'.
        split; [reflexivity|]. split; [simpl; lia | auto].
    - destruct (handle_api_error_cases r w1) as [[line ->] | [e [-> _]]].
      + exists (Ok VNone), [line], self'.
        split; [reflexivity|]. split; [simpl; lia | auto].
      + apply Hraise. }
  destruct Hgoal as (res & lines & c' & H & L & C).
  exists res, lines, c'. split; [|auto].
  rewrite H. unfold w1. simpl trace. rewrite trace_after_post. reflexivity.
Qed.

Lemma forallb_sub {A : Type} (p : A -> bool) (l l' : list A) :
  (forall x, In x l' -> In x l) -> forallb p l = true -> forallb p l' = true.
Proof.
  intros Hsub H. apply forallb_forall. intros x Hx.
  apply (proj1 (forallb_forall p l) H). apply Hsub, Hx.
Qed.

Lemma kept_others_sub (limit : Z) (others : list ChatMessage) (m : ChatMessage) :
  In m (kept_others limit others) -> In m others.
Proof.
  intros H. destruct (kept_others_suffix limit others) as [dropped Hd].
  rewrite Hd. apply in_or_app. right. exact H.
Qed.

Lemma trim_history_sub (self : DeepSeekClient) (m : ChatMessage) :
  In m (conversation_history (_trim_history self)) ->
  In m (conversation_history self).
Proof.
  rewrite trim_history_unfold. intros H. apply in_app_or in H.
  destruct H as [H | H].
  - apply filter_In in H. apply H.
  - apply kept_others_sub in H. apply filter_In in H. apply H.
Qed.

Lemma trim_history_invariant (self : DeepSeekClient) :
  (length (filter is_system (conversation_history self)) <= 1)%nat ->
  forallb known_role (conversation_history self) = true ->
  store_invariant (conversation_history (_trim_history self)).
Proof.
  intros Hone Hroles. split; [|split].
  - unfold system_first.
    rewrite trim_history_system, trim_history_others. apply trim_history_unfold.
  - rewrite trim_history_system. exact Hone.
  - apply (forallb_sub known_role (conversation_history self)); [|exact Hroles].
    intros x. apply trim_history_sub.
Qed.

Lemma append_invariant (self : DeepSeekClient) (m : ChatMessage) :
  is_system m = false -> known_role m = true ->
  store_invariant (conversation_history self) ->
  store_invariant
    (conversation_history
       (_trim_history
          (set_conversation_history self (conversation_history self ++ [m])))).
Proof.
  intros Hm Hk (Hfirst & Hone & Hroles). apply trim_history_invariant;
    cbn [conversation_history set_conversation_history].
  - rewrite filter_app. simpl. rewrite Hm, app_nil_r. exact Hone.
  - rewrite forallb_app, Hroles. simpl. rewrite Hk. reflexivity.
Qed.

Lemma filter_others_known (h : list ChatMessage) :
  forallb known_role h = true ->
  forallb known_role (filter not_system h) = true.
Proof.
  apply forallb_sub. intros x Hx. apply filter_In in Hx. apply Hx.
Qed.

Lemma set_system_prompt_invariant (self : DeepSeekClient) (text : str) :
  forallb known_role (conversation_history self) = true ->
  store_invariant (conversation_history (set_system_prompt self text)).
Proof.
  intros Hroles. rewrite set_system_prompt_history.
  destruct (strip text) as [|c s]; simpl.
  - split; [|split].
    + unfold system_first. rewrite filter_system_of_others, filter_others_idem.
      reflexivity.
    + rewrite filter_system_of_others. simpl. lia.
    + apply filter_others_known, Hroles.
  - set (m := mkChatMessage (lit "system") (VStr (c :: s))).
    assert (Hs : filter is_system (m :: filter not_system (conversation_history self))
                 = [m]).
    { cbn [filter]. change (is_system m) with true. cbv iota.
      rewrite filter_system_of_others. reflexivity. }
    assert (Ho : filter not_system (m :: filter not_system (conversation_history self))
                 = filter not_system (conversation_history self)).
    { cbn [filter]. change (not_system m) with false. cbv iota.
      apply filter_others_idem. }
    split; [|split].
    + unfold system_first. rewrite Hs, Ho. reflexivity.
    + rewrite Hs. simpl. lia.
    + cbn [forallb]. change (known_role m) with true.
      rewrite (filter_others_known _ Hroles). reflexivity.
Qed.

Lemma clear_invariant (h : list ChatMessage) :
  store_invariant h -> store_invariant (filter is_system h).
Proof.
  intros (Hfirst & Hone & Hroles). split; [|split].
  - unfold system_first.
    rewrite filter_system_idem, filter_others_of_system, app_nil_r. reflexivity.
  - rewrite filter_system_idem. exact Hone.
  - apply (forallb_sub known_role h); [|exact Hroles].
    intros x Hx. apply filter_In in Hx. apply Hx.
Qed.

Lemma test_connection_client (net : network) (w : world) :
  client (snd (test_connection net w)) = client w.
Proof.
  destruct (test_connection_uniform net (client w)) as (b & lines & Hrun & _).
  pose proof (Hrun (conversation_history (client w)) (trace w)) as H.
  rewrite set_conversation_history_same in H.
  destruct w as [c t]. simpl in *. rewrite H. reflexivity.
Qed.

Lemma run_method_invariant (w : world) (c : method_call) :
  store_invariant (conversation_history (client w)) ->
  store_invariant (conversation_history (client (run_method w c))).
Proof.
  intros Hinv. destruct c as [t | x | x | | net u | net | n]; simpl.
  - apply set_system_prompt_invariant, Hinv.
  - apply (append_invariant (client w) (mkChatMessage (lit "user") x));
      [reflexivity | reflexivity | exact Hinv].
  - apply (append_invariant (client w) (mkChatMessage (lit "assistant") x));
      [reflexivity | reflexivity | exact Hinv].
  - apply clear_invariant, Hinv.
  - destruct (chat_outcome net u w) as (res & lines & c' & -> & _ & Hc).
    simpl.
    assert (Huser : store_invariant
                      (conversation_history
                         (add_user_message (client w) (VStr u)))).
    { apply (append_invariant (client w) (mkChatMessage (lit "user") (VStr u)));
        [reflexivity | reflexivity | exact Hinv]. }
    destruct Hc as [-> | [reply ->]]; [exact Huser|].
    apply (append_invariant _ (mkChatMessage (lit "assistant") reply));
      [reflexivity | reflexivity | exact Huser].
  - rewrite test_connection_client. exact Hinv.
  - exact Hinv.
Qed.

Lemma run_methods_invariant (cs : list method_call) (w : world) :
  store_invariant (conversation_history (client w)) ->
  store_invariant (conversation_history (client (run_methods w cs))).
Proof.
  revert w. induction cs as [|c cs IH]; intros w Hinv; [exact Hinv|].
  unfold run_methods in *. simpl. apply IH, run_method_invariant, Hinv.
Qed.

Lemma history_invariant_holds
  (key url mdl : str) (maxtok : Z) (temp : spec_float) (tmo : Z)
  (cs : list method_call) :
  store_invariant
    (conversation_history
       (client (run_methods (mkWorld (init key url mdl maxtok temp tmo) []) cs))).
Proof.
  apply (run_methods_invariant cs). split; [|split]; simpl; auto.
  reflexivity.
Qed.

(** X1: on a client made by __init__ and used only through its methods
    (set_system_prompt, add_user_message, add_assistant_message,
    clear_history, chat, test_connection, in any order and with any remote
    end) and the assignment of max_history, the history always has its
    system messages in front, holds at most one system message, and holds
    no role other than 'system', 'user' and 'assistant'. *)
Theorem history_invariant_kept :
  forall (key url mdl : str) (maxtok : Z) (temp : spec_float) (tmo : Z)
         (cs : list method_call),
    let h := conversation_history
               (client (run_methods
                          (mkWorld (init key url mdl maxtok temp tmo) []) cs)) in
    system_first h
    /\ (length (filter is_system h) <= 1)%nat
    /\ forallb known_role h = true.
Proof.
  intros key url mdl maxtok temp tmo cs.
  apply (history_invariant_holds key url mdl maxtok temp tmo cs).
Qed.

Lemma role_counts_add_up (h : list ChatMessage) :
  forallb known_role h = true ->
  length h =
  (length (filter (has_role (lit "system")) h)
   + length (filter (has_role (lit "user")) h)
   + length (filter (has_role (lit "assistant")) h))%nat.
Proof.
  induction h as [|m h IH]; intros H; [reflexivity|].
  simpl in H. apply andb_true_iff in H. destruct H as [Hm Hh].
  specialize (IH Hh). simpl.
  unfold known_role in Hm. unfold has_role in *.
  destruct (str_eqb (role m) (lit "system")) eqn:S.
  - apply str_eqb_eq in S. rewrite S. simpl. lia.
  - destruct (str_eqb (role m) (lit "user")) eqn:U.
    + apply str_eqb_eq in U. rewrite U. simpl. lia.
    + simpl in Hm. rewrite Hm. apply str_eqb_eq in Hm. simpl. lia.
Qed.

(** X2: on such a client the counts of get_history_summary add up: the
    total is the sum of the system, user and assistant counts, the system
    count is 0 or 1, and the user and assistant counts together are the
    number of non-system messages. *)
Theorem history_summary_adds_up :
  forall (key url mdl : str) (maxtok : Z) (temp : spec_float) (tmo : Z)
         (cs : list method_call),
    let self := client (run_methods
                          (mkWorld (init key url mdl maxtok temp tmo) []) cs) in
    exists total system_count user_count assistant_count : nat,
      get_history_summary self =
      (total, system_count, user_count, assistant_count, max_history self)
      /\ total = (system_count + user_count + assistant_count)%nat
      /\ (system_count <= 1)%nat
      /\ (user_count + assistant_count)%nat = non_system_count self.
Proof.
  intros key url mdl maxtok temp tmo cs self.
  destruct (history_invariant_holds key url mdl maxtok temp tmo cs)
    as (Hfirst & Hone & Hroles).
  fold self in Hfirst, Hone, Hroles.
  do 4 eexists. split; [reflexivity|].
  pose proof (role_counts_add_up _ Hroles) as Hsum.
  split; [exact Hsum|]. split; [exact Hone|].
  unfold non_system_count.
  assert (Hlen : length (conversation_history self) =
                 (length (filter is_system (conversation_history self))
                  + length (filter not_system (conversation_history self)))%nat).
  { unfold system_first in Hfirst. rewrite <- length_app, <- Hfirst. reflexivity. }
  change (filter (has_role (lit "system")) (conversation_history self))
    with (filter is_system (conversation_history self)) in Hsum.
  lia.
Qed.

Lemma posted_app (a b : list event) : posted (a ++ b) = posted a ++ posted b.
Proof. unfold posted. apply flat_map_app. Qed.

Lemma posted_prints (lines : list console_line) : posted (map Print lines) = [].
Proof. induction lines as [|l lines IH]; simpl; auto. Qed.

(** X3: in every outcome chat posts exactly one request (there is no
    retry), the one built from the client right after the user turn was
    appended, and it changes no attribute of the client other than
    conversation_history. *)
Theorem chat_posts_once :
  forall (net : network) (user_input : str) (w : world),
    posted (trace (snd (chat net user_input w))) =
      posted (trace w)
      ++ [chat_request (add_user_message (client w) (VStr user_input))]
    /\ exists h,
         client (snd (chat net user_input w)) =
         set_conversation_history (client w) h.
Proof.
  intros net u w.
  destruct (chat_outcome net u w) as (res & lines & c' & -> & _ & Hc).
  cbn [snd trace client]. split.
  - rewrite !posted_app, posted_prints, app_nil_r. reflexivity.
  - destruct Hc as [-> | [reply ->]]; eexists; reflexivity.
Qed.

Lemma add_user_message_ends (self : DeepSeekClient) (x : value) :
  0 <= max_history self ->
  exists older,
    conversation_history (add_user_message self x) =
    older ++ [mkChatMessage (lit "user") x].
Proof.
  intros H.
  apply (append_then_trim self (mkChatMessage (lit "user") x) eq_refl), H.
Qed.




Lemma kept_others_app_tail (limit : Z) (l tail : list ChatMessage) :
  Z.of_nat (length tail) <= limit ->
  exists older, kept_others limit (l ++ tail) = older ++ tail.
Proof.
  intros Hlim. unfold kept_others.
  destruct (limit <? Z.of_nat (length (l ++ tail))) eqn:E.
  - apply Z.ltb_lt in E.
    assert (Hz : limit = 0 \/ 0 < limit) by lia. destruct Hz as [-> | Hpos].
    + exists l. apply (slice_from_zero (l ++ tail)).
    + rewrite slice_from_neg_last by assumption.
      rewrite length_app in *.
      exists (skipn (length l + length tail - Z.to_nat limit) l).
      rewrite skipn_app.
      replace (length l + length tail - Z.to_nat limit - length l)%nat
        with 0%nat by lia.
      reflexivity.
  - exists l. reflexivity.
Qed.

Lemma add_user_message_after_user (self : DeepSeekClient) (pre : list ChatMessage)
  (m1 : ChatMessage) (x : value) :
  2 <= max_history self ->
  is_system m1 = false ->
  conversation_history self = pre ++ [m1] ->
  exists older,
    conversation_history (add_user_message self x) =
    older ++ [m1; mkChatMessage (lit "user") x].
Proof.
  intros Hlim Hm1 Hh. unfold add_user_message. rewrite trim_history_unfold.
  cbn [max_history conversation_history set_conversation_history].
  rewrite Hh, <- app_assoc. simpl app.
  rewrite (filter_app not_system). cbn [filter].
  unfold not_system at 2. rewrite Hm1. cbn [negb].
  change (not_system (mkChatMessage (lit "user") x)) with true. cbv iota.
  destruct (kept_others_app_tail (max_history self) (filter not_system pre)
              [m1; mkChatMessage (lit "user") x]) as [older ->];
    [simpl; lia|].
  eexists. rewrite app_assoc. reflexivity.
Qed.

(** X5: a failed exchange is not forgotten: when chat fails and the caller
    calls chat again (limit at least 2), the second request still carries
    the user turn of the failed call, directly before the new user turn,
    so the two user turns are sent one after the other. *)
Theorem failed_turn_is_sent_again :
  forall (net1 net2 : network) (u1 u2 : str) (w : world),
    failure_outcome
      (net1 (chat_request (add_user_message (client w) (VStr u1)))) = true ->
    2 <= max_history (client w) ->
    exists (req1 req2 : Request) (older : list value),
      posted (trace (snd (chat net2 u2 (snd (chat net1 u1 w))))) =
        posted (trace w) ++ [req1; req2]
      /\ getitem_str (req_json req2) (lit "messages") =
         Ok (VList (older
                    ++ [VDict [(lit "role", VStr (lit "user"));
                               (lit "content", VStr u1)];
                        VDict [(lit "role", VStr (lit "user"));
                               (lit "content", VStr u2)]])).
Proof.
  intros net1 net2 u1 u2 w Hfail Hlim.
  set (c1 := add_user_message (client w) (VStr u1)).
  assert (Hc1 : client (snd (chat net1 u1 w)) = c1).
  { destruct (chat_failure_shape net1 u1 w Hfail)
      as [[line ->] | (e0 & e & _ & _ & ->)]; reflexivity. }
  destruct (chat_outcome net2 u2 (snd (chat net1 u1 w)))
    as (res2 & lines2 & c2 & -> & _ & _).
  rewrite Hc1. cbn [snd trace client].
  destruct (chat_outcome net1 u1 w) as (res1 & lines1 & c1' & -> & _ & _).
  cbn [snd trace client]. fold c1.
  destruct (add_user_message_ends (client w) (VStr u1)) as [pre Hpre]; [lia|].
  fold c1 in Hpre.
  destruct (add_user_message_after_user c1 pre
              (mkChatMessage (lit "user") (VStr u1)) (VStr u2))
    as [older Ho]; [exact Hlim | reflexivity | exact Hpre |].
  exists (chat_request c1), (chat_request (add_user_message c1 (VStr u2))),
         (map to_dict older).
  split.
  - rewrite !posted_app, !posted_prints, !app_nil_r. simpl.
    rewrite <- app_assoc. reflexivity.
  - simpl. unfold request_messages. rewrite Ho, map_app. reflexivity.
Qed.

Lemma failed_turn_is_sent_again_witness :
  exists (req1 req2 : Request),
    posted (trace (snd (chat (always (PostReturns good_response)) (lit "again")
                          (snd (chat (always (PostReturns empty_choices_response))
                                     (lit "hello") fresh_world))))) =
    [req1; req2]
    /\ getitem_str (req_json req2) (lit "messages") =
       Ok (VList [VDict [(lit "role", VStr (lit "user"));
                         (lit "content", VStr (lit "hello"))];
                  VDict [(lit "role", VStr (lit "user"));
                         (lit "content", VStr (lit "again"))]]).
Proof.
  destruct (failed_turn_is_sent_again
              (always (PostReturns empty_choices_response))
              (always (PostReturns good_response))
              (lit "hello") (lit "again") fresh_world eq_refl)
    as (req1 & req2 & older & Hp & Hm); [simpl; lia|].
  exists req1, req2. split; [exact Hp|].
  simpl in Hp. injection Hp as _ <-. reflexivity.
Defined.

Lemma print_response_info_not_iterable (usage : value) (w : world) :
  usage_not_iterable usage = true ->
  exists e,
    _print_response_info usage w = (Raised e, w)
    /\ exn_cls e = TypeError
    /\ encodable (exn_str e) = true.
Proof.
  intros H. unfold _print_response_info, bind, usage_part, lift.
  destruct usage as [| b | z | f | s | l | d]; simpl in H; try discriminate.
  - rewrite H. simpl. eexists. split; [|split]; reflexivity.
  - simpl. rewrite H. eexists. split; [|split]; reflexivity.
  - destruct f; try discriminate; simpl; eexists;
      (split; [|split]; reflexivity).
Qed.

Lemma chat_success_client
  (net : network) (u : str) (w : world) (r : Response)
  (d choice message : list (str * value)) (rest : list value) (reply : value) :
  net (chat_request (add_user_message (client w) (VStr u))) = PostReturns r ->
  status_code r = 200 ->
  json r = Ok (VDict d) ->
  dict_lookup (lit "choices") d = Some (VList (VDict choice :: rest)) ->
  dict_lookup (lit "message") choice = Some (VDict message) ->
  dict_lookup (lit "content") message = Some reply ->
  client (snd (chat net u w)) =
  add_assistant_message (add_user_message (client w) (VStr u)) reply.
Proof.
  intros N S J C Hm Hc.
  rewrite (chat_success_unfold net u w r d choice message rest reply N S J C Hm Hc).
  match goal with
  | |- context [_print_response_info ?us ?w2] =>
      destruct (print_response_info_cases us w2) as [[parts ->] | [e [-> _]]];
      [reflexivity|];
      destruct (run_handler_cases e w2)
        as [[line ->] | [[_ ->] | [_ [e' ->]]]]; reflexivity
  end.
Qed.

(** X6: when the first choice is well formed but 'usage' is True or a
    number other than zero, _print_response_info raises after the reply
    has been appended: chat prints the unknown-error line and returns None,
    although the assistant message is already in the history. *)
Theorem reply_appended_but_not_returned :
  forall (net : network) (user_input : str) (w : world) (r : Response)
         (d choice message : list (str * value)) (rest : list value)
         (reply usage : value),
    let user_turn := add_user_message (client w) (VStr user_input) in
    net (chat_request user_turn) = PostReturns r ->
    status_code r = 200 ->
    json r = Ok (VDict d) ->
    dict_lookup (lit "choices") d = Some (VList (VDict choice :: rest)) ->
    dict_lookup (lit "message") choice = Some (VDict message) ->
    dict_lookup (lit "content") message = Some reply ->
    dict_lookup (lit "usage") d = Some usage ->
    usage_not_iterable usage = true ->
    exists text,
      chat net user_input w =
      (Ok VNone,
       mkWorld (add_assistant_message user_turn reply)
         (trace w ++
          [Print Thinking; Post (chat_request user_turn);
           Print (UnknownError text)])).
Proof.
  intros net u w r d choice message rest reply usage user_turn N S J C Hm Hc Hu Hn.
  rewrite (chat_success_unfold net u w r d choice message rest reply N S J C Hm Hc).
  rewrite Hu.
  match goal with
  | |- context [_print_response_info usage ?w2] =>
      destruct (print_response_info_not_iterable usage w2 Hn)
        as [e [-> [He Ht]]];
      rewrite (run_handler_encodable e w2) by (rewrite ?He; auto)
  end.
  exists (exn_str e). unfold handler_line. rewrite He.
  cbn [is_Timeout is_ConnectionError is_RequestException is_JSONDecodeError
       client trace].
  rewrite trace_three. reflexivity.
Qed.

Lemma reply_appended_but_not_returned_witness :
  fst (chat (always (PostReturns odd_usage_response)) (lit "hello") fresh_world) =
    Ok VNone
  /\ client (snd (chat (always (PostReturns odd_usage_response)) (lit "hello")
                       fresh_world)) =
     add_assistant_message
       (add_user_message fresh_client (VStr (lit "hello"))) (VStr (lit "hi")).
Proof.
  destruct (reply_appended_but_not_returned
              (always (PostReturns odd_usage_response)) (lit "hello") fresh_world
              odd_usage_response _ _ _ _ _ (VInt 5)
              eq_refl eq_refl eq_refl eq_refl eq_refl eq_refl eq_refl eq_refl)
    as [text ->].
  split; reflexivity.
Defined.

Lemma slice_to_prefix {A : Type} (n : nat) (l : list A) :
  (length (slice_to n l) <= n)%nat /\ exists rest, l = slice_to n l ++ rest.
Proof.
  unfold slice_to. split.
  - apply firstn_le_length.
  - exists (skipn n l). symmetry. apply firstn_skipn.
Qed.

(** X7: _handle_api_error never changes the client. It reports the error
    itself, with exactly one printed line, when the body does not parse
    (JSONDecodeError) or is an object whose 'error' is missing or an
    object, provided the text the line interpolates (the error message for
    status 400 and for a status outside 401, 429, 500; the start of an
    unparsable body) can be encoded for the console; when that text cannot
    be encoded (a lone surrogate) it prints nothing and raises the
    UnicodeEncodeError of print. In every other case (a body that is no
    object, an 'error' that is no object, another exception from
    response.json()) it prints nothing and raises. For a body that does
    not parse the line shows the status code and the first characters of
    the body, at most 200. *)
Theorem handle_api_error_outcome :
  forall (response : Response) (w : world),
    (api_error_reportable response = true ->
     api_error_text_encodable response = true ->
     exists line,
       _handle_api_error response w =
       (Ok tt, mkWorld (client w) (trace w ++ [Print line])))
    /\ (api_error_reportable response = true ->
        api_error_text_encodable response = false ->
        exists e,
          _handle_api_error response w = (Raised e, w)
          /\ exn_cls e = UnicodeEncodeError)
    /\ (api_error_reportable response = false ->
        exists e,
          _handle_api_error response w = (Raised e, w)
          /\ (json response = Raised e \/ exn_cls e = AttributeError))
    /\ (forall e,
          json response = Raised e ->
          is_JSONDecodeError (exn_cls e) = true ->
          api_error_text_encodable response = true ->
          exists shown rest,
            _handle_api_error response w =
            (Ok tt,
             mkWorld (client w)
               (trace w ++ [Print (HttpError (status_code response) shown)]))
            /\ text response = shown ++ rest
            /\ (length shown <= 200)%nat).
Proof.
  intros response w.
  unfold api_error_reportable, api_error_text_encodable.
  split; [|split; [|split]].
  - intros Hr He. destruct (json response) as [v|e0] eqn:J.
    + destruct v as [| | | | | |d]; try discriminate.
      destruct (dict_lookup (lit "error") d) as [v|] eqn:L.
      * destruct v as [| | | | | |ed]; try discriminate.
        eexists.
        rewrite (handle_api_error_parsed response w d _ J
                   ltac:(rewrite L; reflexivity)).
        apply print_encodable.
        destruct (status_code response =? 401) eqn:E1; [reflexivity|].
        destruct (status_code response =? 429) eqn:E2; [reflexivity|].
        destruct (status_code response =? 500) eqn:E5.
        { apply Z.eqb_eq in E5. rewrite E5. reflexivity. }
        cbn [orb] in He. cbv iota in He.
        destruct (status_code response =? 400); cbn [line_encodable];
          destruct (dict_lookup (lit "message") ed); (exact He || reflexivity).
      * eexists.
        rewrite (handle_api_error_parsed response w d _ J
                   ltac:(rewrite L; reflexivity)).
        apply print_encodable.
        destruct (status_code response =? 401),
                 (status_code response =? 429),
                 (status_code response =? 400),
                 (status_code response =? 500); reflexivity.
    + unfold _handle_api_error, try_except, bind, lift. rewrite J, Hr.
      eexists. apply print_encodable. exact He.
  - intros Hr He. destruct (json response) as [v|e0] eqn:J.
    + destruct v as [| | | | | |d]; try discriminate.
      destruct (dict_lookup (lit "error") d) as [v|] eqn:L.
      * destruct v as [| | | | | |ed]; try discriminate.
        eexists.
        rewrite (handle_api_error_parsed response w d _ J
                   ltac:(rewrite L; reflexivity)).
        split; [apply print_not_encodable | reflexivity].
        destruct (status_code response =? 401) eqn:E1; [discriminate He|].
        destruct (status_code response =? 429) eqn:E2; [discriminate He|].
        destruct (status_code response =? 500) eqn:E5; [discriminate He|].
        cbn [orb] in He. cbv iota in He.
        destruct (status_code response =? 400); cbn [line_encodable];
          destruct (dict_lookup (lit "message") ed);
          (exact He || discriminate He).
      * destruct ((status_code response =? 401) || (status_code response =? 429)
                  || (status_code response =? 500)); discriminate He.
    + unfold _handle_api_error, try_except, bind, lift. rewrite J, Hr.
      eexists. split; [apply print_not_encodable; exact He | reflexivity].
  - intros H. unfold _handle_api_error, try_except, bind, lift.
    destruct (json response) as [v|e0].
    + destruct v as [| | | | | |d]; simpl;
        try (eexists; split; [reflexivity | right; reflexivity]).
      destruct (dict_lookup (lit "error") d) as [v|]; [|discriminate].
      destruct v; try discriminate; simpl;
        eexists; (split; [reflexivity | right; reflexivity]).
    + rewrite H. exists e0. split; [reflexivity | left; reflexivity].
  - intros e J Hj He. unfold _handle_api_error, try_except, bind, lift.
    rewrite J in *. rewrite Hj.
    destruct (slice_to_prefix 200 (text response)) as [Hlen [rest Hrest]].
    exists (slice_to 200 (text response)), rest.
    split; [apply print_encodable; exact He|]. split; assumption.
Qed.

Lemma handle_api_error_outcome_witness :
  (exists line,
      _handle_api_error invalid_key_response fresh_world =
      (Ok tt, mkWorld fresh_client [Print line]))
  /\ (exists e,
        _handle_api_error surrogate_message_response fresh_world =
        (Raised e, fresh_world)
        /\ exn_cls e = UnicodeEncodeError).
Proof.
  split.
  - destruct (handle_api_error_outcome invalid_key_response fresh_world)
      as [H _].
    apply (H eq_refl eq_refl).
  - destruct (handle_api_error_outcome surrogate_message_response fresh_world)
      as [_ [H _]].
    apply (H eq_refl eq_refl).
Defined.

Lemma rstrip_with_idempotent (p : N -> bool) (s : str) :
  rstrip_with p (rstrip_with p s) = rstrip_with p s.
Proof.
  apply rstrip_with_fixed. intros body c H. apply (rstrip_with_last _ _ _ _ H).
Qed.

(** X8: __init__ removes every trailing '/' of base_url and nothing else:
    the stored base_url does not end in '/', the given URL is the stored
    one followed by slashes only, and storing it again changes nothing; so
    the URL chat posts to has exactly the one '/' of '/chat/completions'
    after the base. The new client has an empty history, max_history 10
    and the Authorization header 'Bearer ' + api_key. *)
Theorem init_strips_trailing_slashes :
  forall (key url mdl : str) (maxtok : Z) (temp : spec_float) (tmo : Z),
    let self := init key url mdl maxtok temp tmo in
    (exists slashes,
        url = base_url self ++ slashes /\ forallb (N.eqb 47) slashes = true)
    /\ (forall body c, base_url self = body ++ [c] -> c <> 47%N)
    /\ base_url (init key (base_url self) mdl maxtok temp tmo) = base_url self
    /\ conversation_history self = []
    /\ max_history self = 10
    /\ headers self =
       [(lit "Authorization", lit "Bearer " ++ key);
        (lit "Content-Type", lit "application/json");
        (lit "User-Agent", lit "DeepSeek-CLI-Chat/1.0")].
Proof.
  intros key url mdl maxtok temp tmo self.
  split; [|split; [|split; [|split; [|split]]]]; try reflexivity.
  - apply (rstrip_with_split (N.eqb 47) url).
  - intros body c H. apply (rstrip_with_last (N.eqb 47)) in H.
    intros ->. discriminate H.
  - apply rstrip_with_idempotent.
Qed.

Lemma kept_others_one (l : list ChatMessage) (m : ChatMessage) :
  kept_others 1 (l ++ [m]) = [m].
Proof.
  unfold kept_others.
  destruct (1 <? Z.of_nat (length (l ++ [m]))) eqn:E.
  - apply Z.ltb_lt in E. rewrite slice_from_neg_last by (assumption || lia).
    rewrite length_app. simpl length.
    replace (length l + 1 - Z.to_nat 1)%nat with (length l) by lia.
    rewrite skipn_app, Nat.sub_diag, skipn_all. reflexivity.
  - apply Z.ltb_ge in E. rewrite length_app in E. simpl in E.
    destruct l; [reflexivity | simpl in E; lia].
Qed.

(** X9: with max_history 1 a successful exchange leaves only the reply:
    appending the assistant message evicts the user turn that was just
    sent, so the non-system history after chat is the single assistant
    message. *)
Theorem single_slot_keeps_only_reply :
  forall (net : network) (user_input : str) (w : world) (r : Response)
         (d choice message : list (str * value)) (rest : list value)
         (reply : value),
    max_history (client w) = 1 ->
    net (chat_request (add_user_message (client w) (VStr user_input))) =
      PostReturns r ->
    status_code r = 200 ->
    json r = Ok (VDict d) ->
    dict_lookup (lit "choices") d = Some (VList (VDict choice :: rest)) ->
    dict_lookup (lit "message") choice = Some (VDict message) ->
    dict_lookup (lit "content") message = Some reply ->
    filter not_system
      (conversation_history (client (snd (chat net user_input w)))) =
    [mkChatMessage (lit "assistant") reply].
Proof.
  intros net u w r d choice message rest reply H1 N S J C Hm Hc.
  rewrite (chat_success_client net u w r d choice message rest reply N S J C Hm Hc).
  destruct (append_then_trim (add_user_message (client w) (VStr u))
              (mkChatMessage (lit "assistant") reply) eq_refl) as [Ho _].
  unfold add_assistant_message. rewrite Ho.
  change (max_history (add_user_message (client w) (VStr u)))
    with (max_history (client w)).
  rewrite H1. apply kept_others_one.
Qed.

Lemma single_slot_keeps_only_reply_witness :
  conversation_history
    (client (snd (chat (always (PostReturns good_response)) (lit "hello")
                       (mkWorld (set_max_history fresh_client 1) [])))) =
  [mkChatMessage (lit "assistant") (VStr (lit " hi "))].
Proof.
  pose proof (single_slot_keeps_only_reply
                (always (PostReturns good_response)) (lit "hello")
                (mkWorld (set_max_history fresh_client 1) [])
                good_response _ _ _ _ _
                eq_refl eq_refl eq_refl eq_refl eq_refl eq_refl eq_refl) as H.
  exact H.
Defined.

Lemma kept_others_negative (limit : Z) (l : list ChatMessage) (m : ChatMessage) :
  limit < 0 ->
  (length (kept_others limit (l ++ [m])) <= length l)%nat.
Proof.
  intros Hneg. unfold kept_others.
  replace (limit <? Z.of_nat (length (l ++ [m]))) with true
    by (symmetry; apply Z.ltb_lt; lia).
  unfold slice_from.
  replace (- limit <? 0) with false by (symmetry; apply Z.ltb_ge; lia).
  rewrite length_skipn, length_app. simpl length. lia.
Qed.

Lemma run_call_negative (self : DeepSeekClient) (c : append_call) :
  max_history self < 0 ->
  (non_system_count (run_call self c) <= non_system_count self)%nat.
Proof.
  intros Hneg. unfold non_system_count.
  destruct c as [x | x]; unfold run_call.
  - destruct (append_then_trim self (mkChatMessage (lit "user") x) eq_refl)
      as [Ho _].
    unfold add_user_message. rewrite Ho. apply kept_others_negative, Hneg.
  - destruct (append_then_trim self (mkChatMessage (lit "assistant") x) eq_refl)
      as [Ho _].
    unfold add_assistant_message. rewrite Ho. apply kept_others_negative, Hneg.
Qed.

(** X10: with a negative max_history no append ever makes the history
    longer: after any sequence of add_user_message / add_assistant_message
    calls the non-system count is at most what it was, and on a client
    without non-system messages the user turn that chat appends is dropped
    at once, so the request chat posts carries no user message. *)
Theorem negative_limit_never_grows :
  forall self : DeepSeekClient,
    max_history self < 0 ->
    (forall cs : list append_call,
        (non_system_count (run_calls self cs) <= non_system_count self)%nat)
    /\ (non_system_count self = 0%nat ->
        forall user_input : str,
          request_messages (add_user_message self (VStr user_input)) =
          map to_dict (filter is_system (conversation_history self))).
Proof.
  intros self Hneg. split.
  - intros cs. revert self Hneg.
    induction cs as [|c cs IH]; intros self Hneg; [apply Nat.le_refl|].
    unfold run_calls in *. simpl.
    apply Nat.le_trans with (non_system_count (run_call self c)).
    + apply IH. rewrite max_history_run_call. exact Hneg.
    + apply run_call_negative, Hneg.
  - intros Hzero u.
    pose proof (run_call_negative self (AppendUser (VStr u)) Hneg) as Hle.
    simpl in Hle. rewrite Hzero in Hle.
    unfold non_system_count in Hle.
    assert (Hnil : filter not_system
                     (conversation_history (add_user_message self (VStr u))) = []).
    { destruct (filter not_system _); [reflexivity | simpl in Hle; lia]. }
    unfold request_messages. f_equal.
    pose proof (trim_history_unfold
                  (set_conversation_history self
                     (conversation_history self
                      ++ [mkChatMessage (lit "user") (VStr u)]))) as Hu.
    pose proof (trim_history_others
                  (set_conversation_history self
                     (conversation_history self
                      ++ [mkChatMessage (lit "user") (VStr u)]))) as Ho.
    fold (add_user_message self (VStr u)) in Hu, Ho.
    rewrite Hu, <- Ho, Hnil, app_nil_r.
    cbn [conversation_history set_conversation_history].
    rewrite filter_app. simpl. apply app_nil_r.
Qed.

Lemma negative_limit_never_grows_witness :
  request_messages
    (add_user_message (set_max_history fresh_client (- 1)) (VStr (lit "hello")))
  = [].
Proof.
  destruct (negative_limit_never_grows (set_max_history fresh_client (- 1)))
    as [_ H]; [simpl; lia|].
  apply (H eq_refl).
Defined.

Lemma kept_others_idempotent (limit : Z) (l : list ChatMessage) :
  0 <= limit -> kept_others limit (kept_others limit l) = kept_others limit l.
Proof.
  intros Hlim.
  assert (Hz : limit = 0 \/ 0 < limit) by lia. destruct Hz as [-> | Hpos].
  - rewrite !kept_others_zero. reflexivity.
  - pose proof (kept_others_length limit l Hpos) as Hlen.
    unfold kept_others at 1.
    replace (limit <? Z.of_nat (length (kept_others limit l))) with false
      by (symmetry; apply Z.ltb_ge; lia).
    reflexivity.
Qed.

(** X11: for a limit that is not negative the retention step is
    idempotent: running _trim_history a second time changes nothing. (With
    a negative limit it is not: each run drops further messages.) *)
Theorem trim_history_idempotent :
  forall self : DeepSeekClient,
    0 <= max_history self ->
    _trim_history (_trim_history self) = _trim_history self.
Proof.
  intros self Hlim.
  assert (Hh : conversation_history (_trim_history (_trim_history self)) =
               conversation_history (_trim_history self)).
  { rewrite (trim_history_unfold (_trim_history self)).
    rewrite trim_history_system, trim_history_others.
    change (max_history (_trim_history self)) with (max_history self).
    rewrite kept_others_idempotent by exact Hlim.
    symmetry. apply trim_history_unfold. }
  unfold _trim_history at 1. fold (kept_others (max_history (_trim_history self))
    (filter not_system (conversation_history (_trim_history self)))).
  rewrite <- trim_history_unfold, Hh.
  unfold _trim_history, set_conversation_history. reflexivity.
Qed.

Lemma trim_history_idempotent_witness :
  let self := run_calls (set_max_history fresh_client 2) scenario_calls in
  _trim_history (_trim_history self) = _trim_history self
  /\ _trim_history
       (_trim_history
          (set_conversation_history (set_max_history fresh_client (- 1))
             (conversation_history self)))
     <> _trim_history
          (set_conversation_history (set_max_history fresh_client (- 1))
             (conversation_history self)).
Proof.
  intro self. split.
  - apply (trim_history_idempotent self). simpl. lia.
  - vm_compute. discriminate.
Defined.

(* ================================================================== *)
(** * config.py *)

Lemma getitem_str_ok (v : value) (k : str) (x : value) :
  getitem_str v k = Ok x ->
  exists d, v = VDict d /\ dict_lookup k d = Some x.
Proof.
  destruct v as [| | | | | |d]; simpl; try discriminate.
  destruct (dict_lookup k d) as [y|] eqn:E; [|discriminate].
  intros H. injection H as <-. exists d. auto.
Qed.

Lemma contains_str_dict (k : str) (d : list (str * value)) :
  contains_str k (VDict d) = Ok true -> exists x, dict_lookup k d = Some x.
Proof.
  simpl. destruct (dict_lookup k d) as [x|]; [eauto | discriminate].
Qed.

Lemma validate_keys_cases (section : str) (keys : list str)
  (self : ConfigManager) (out : list config_line) :
  (validate_keys section keys (self, out) = (Ok None, (self, out))
   /\ keys_present (config self) section keys)
  \/ (exists k,
        validate_keys section keys (self, out) =
        (Ok (Some false), (self, out ++ [MissingKey section k])))
  \/ (exists e,
        validate_keys section keys (self, out) = (Raised e, (self, out))
        /\ is_Exception (exn_cls e) = true).
Proof.
  induction keys as [|key keys IH].
  - left. split; [reflexivity | left; reflexivity].
  - cbn [validate_keys]. unfold ebind, eget, elift, esay, eret. cbn [fst snd].
    destruct (getitem_str (config self) section) as [sv|e] eqn:G.
    + destruct (contains_str key sv) as [[|]|e] eqn:C; cbn [negb].
      * destruct IH as [[-> Hp] | [[k ->] | [e [-> He]]]].
        -- left. split; [reflexivity|]. right. exists sv. split; [exact G|].
           constructor; [exact C|].
           destruct Hp as [-> | [sv' [Hsv Hall]]]; [constructor|].
           rewrite G in Hsv. injection Hsv as <-. exact Hall.
        -- right. left. exists k. reflexivity.
        -- right. right. exists e. auto.
      * right. left. exists key. reflexivity.
      * right. right. exists e. split; [reflexivity|].
        destruct sv; simpl in C; try discriminate; injection C as <-; reflexivity.
    + right. right. exists e. split; [reflexivity|].
      destruct (config self) as [| | | | | |d]; simpl in G;
        try (injection G as <-; reflexivity).
      destruct (dict_lookup section d); [discriminate|].
      injection G as <-. reflexivity.
Qed.

Lemma validate_sections_cases (required : list (str * list str))
  (self : ConfigManager) (out : list config_line) :
  (validate_sections required (self, out) = (Ok None, (self, out))
   /\ Forall (fun sk => contains_str (fst sk) (config self) = Ok true
                        /\ keys_present (config self) (fst sk) (snd sk))
             required)
  \/ (exists line,
        validate_sections required (self, out) =
        (Ok (Some false), (self, out ++ [line])))
  \/ (exists e,
        validate_sections required (self, out) = (Raised e, (self, out))
        /\ is_Exception (exn_cls e) = true).
Proof.
  induction required as [|[section keys] required IH].
  - left. split; [reflexivity | constructor].
  - cbn [validate_sections]. unfold ebind, eget, elift, esay, eret. cbn [fst snd].
    destruct (contains_str section (config self)) as [[|]|e] eqn:C; cbn [negb].
    + destruct (validate_keys_cases section keys self out)
        as [[-> Hp] | [[k ->] | [e [-> He]]]].
      * destruct IH as [[-> Hall] | [[line ->] | [e [-> He]]]].
        -- left. split; [reflexivity|]. constructor; [split; assumption | exact Hall].
        -- right. left. exists line. reflexivity.
        -- right. right. exists e. auto.
      * right. left. eexists. reflexivity.
      * right. right. exists e. auto.
    + right. left. eexists. reflexivity.
    + right. right. exists e. split; [reflexivity|].
      destruct (config self); simpl in C; try discriminate;
        injection C as <-; reflexivity.
Qed.

Lemma validate_config_accepted (fs : filesystem) (self : ConfigManager)
  (out : list config_line) :
  config_accepted fs (config self) ->
  _validate_config fs (self, out) = (Ok true, (self, out)).
Proof.
  intros (d & ds & app & key & base & model & prompt & Hc & Hds & Hkey & Hbase
          & Hmodel & Hph & Hstrip & Happ & Hprompt & Hex).
  unfold _validate_config, required_keys.
  cbn [validate_sections validate_keys].
  unfold ebind, eget, elift, esay, eret. cbn [fst snd].
  rewrite Hc.
  destruct (strip key) as [|c s] eqn:Es; [congruence|].
  repeat first
    [ rewrite Hc | rewrite Hds | rewrite Happ | rewrite Hkey | rewrite Hbase
    | rewrite Hmodel | rewrite Hprompt | rewrite Hph | rewrite Hex | rewrite Es
    | progress cbn [contains_str getitem_str negb eq_str py_strip truthy
                    fst snd] ].
  reflexivity.
Qed.

Lemma ebind_run {S L A B : Type} (m : Eff S L A) (k : A -> Eff S L B)
  (st : S * list L) :
  ebind m k st =
  match m st with
  | (Ok a, st') => k a st'
  | (Raised e, st') => (Raised e, st')
  end.
Proof. reflexivity. Qed.

Lemma getitem_str_raises (v : value) (k : str) (e : exn) :
  getitem_str v k = Raised e -> is_Exception (exn_cls e) = true.
Proof.
  destruct v as [| | | | | |d]; simpl; try (intros H; injection H as <-; reflexivity).
  destruct (dict_lookup k d); [discriminate|].
  intros H; injection H as <-; reflexivity.
Qed.

Lemma validate_config_cases (fs : filesystem) (self : ConfigManager)
  (out : list config_line) :
  (_validate_config fs (self, out) = (Ok true, (self, out))
   /\ config_accepted fs (config self))
  \/ (exists line,
        _validate_config fs (self, out) = (Ok false, (self, out ++ [line])))
  \/ (exists e,
        _validate_config fs (self, out) = (Raised e, (self, out))
        /\ (is_Exception (exn_cls e) = true
            \/ exists v, path_exists fs v = Raised e)).
Proof.
  unfold _validate_config. rewrite ebind_run.
  destruct (validate_sections_cases required_keys self out)
    as [[-> Hall] | [[line ->] | [e [-> He]]]];
    [|right; left; exists line; reflexivity
     |right; right; exists e; split; [reflexivity | left; exact He]].
  unfold required_keys in Hall.
  inversion Hall as [|x1 l1 [Hd Hdk] Hall1]; subst.
  inversion Hall1 as [|x2 l2 [Ha Hak] _]; subst.
  cbn [fst snd] in *.
  destruct Hdk as [Hnil | [dsv [Gds Kds]]]; [discriminate|].
  destruct Hak as [Hnil | [appv [Gapp Kapp]]]; [discriminate|].
  inversion Kds as [|k1 r1 Hk1 Kds1]; subst.
  inversion Kds1 as [|k2 r2 Hk2 Kds2]; subst.
  inversion Kds2 as [|k3 r3 Hk3 _]; subst.
  inversion Kapp as [|k4 r4 Hk4 _]; subst.
  unfold ebind, eget, elift, esay, eret. cbn [fst snd].
  rewrite Gds.
  destruct (getitem_str dsv (lit "api_key")) as [ak|e] eqn:Gak;
    [|right; right; exists e; split;
      [reflexivity | left; apply (getitem_str_raises _ _ _ Gak)]].
  destruct (eq_str ak placeholder_api_key) eqn:Eph;
    [right; left; eexists; reflexivity|].
  destruct ak as [| | | | key | |];
    try (right; right; eexists; split; [reflexivity | left; reflexivity]).
  cbn [py_strip truthy].
  destruct (strip key) as [|c s] eqn:Estrip; cbn [negb];
    [right; left; eexists; reflexivity|].
  rewrite Gapp.
  destruct (getitem_str appv (lit "system_prompt_file")) as [pf|e] eqn:Gpf;
    [|right; right; exists e; split;
      [reflexivity | left; apply (getitem_str_raises _ _ _ Gpf)]].
  destruct (path_exists fs pf) as [[|]|e] eqn:Ex; cbn [negb];
    [|right; left; eexists; reflexivity
     |right; right; exists e; split; [reflexivity | right; exists pf; exact Ex]].
  left. split; [reflexivity|].
  destruct (getitem_str_ok _ _ _ Gds) as (d & Hc & Hds).
  destruct (getitem_str_ok _ _ _ Gak) as (ds & -> & Hkey).
  destruct (getitem_str_ok _ _ _ Gapp) as (d' & Hc' & Happ).
  destruct (getitem_str_ok _ _ _ Gpf) as (app & -> & Hprompt).
  rewrite Hc in Hc'. injection Hc' as <-.
  destruct (contains_str_dict _ _ Hk2) as [base Hbase].
  destruct (contains_str_dict _ _ Hk3) as [model Hmodel].
  exists d, ds, app, key, base, model, pf.
  split; [exact Hc|]. split; [exact Hds|]. split; [exact Hkey|].
  split; [exact Hbase|]. split; [exact Hmodel|]. split; [exact Eph|].
  split; [rewrite Estrip; discriminate|].
  split; [exact Happ|]. split; [exact Hprompt | exact Ex].
Qed.

(** X12: _validate_config accepts exactly the configurations that are an
    object whose 'deepseek' is an object holding 'api_key', 'base_url' and
    'model', with the key a string that is neither the placeholder nor
    blank, and whose 'app' is an object holding a 'system_prompt_file'
    that exists. It never changes the configuration; it prints nothing
    when it accepts, exactly one line when it returns False, and nothing
    when it raises. *)
Theorem validate_config_accepts_exactly :
  forall (fs : filesystem) (self : ConfigManager) (out : list config_line),
    (fst (_validate_config fs (self, out)) = Ok true <->
     config_accepted fs (config self))
    /\ exists lines,
         snd (_validate_config fs (self, out)) = (self, out ++ lines)
         /\ match fst (_validate_config fs (self, out)) with
            | Ok true => lines = []
            | Ok false => length lines = 1%nat
            | Raised _ => lines = []
            end.
Proof.
  intros fs self out. split.
  - split.
    + intros H.
      destruct (validate_config_cases fs self out)
        as [[_ Hacc] | [[line E] | [e [E _]]]]; [exact Hacc| |];
        rewrite E in H; discriminate H.
    + intros H. rewrite (validate_config_accepted fs self out H). reflexivity.
  - destruct (validate_config_cases fs self out)
      as [[E _] | [[line E] | [e [E _]]]]; rewrite E; cbn [fst snd].
    + exists []. rewrite app_nil_r. auto.
    + exists [line]. auto.
    + exists []. rewrite app_nil_r. auto.
Qed.

Lemma validate_config_accepts_exactly_witness :
  fst (_validate_config sample_fs
         (mkConfigManager (lit "config.json") sample_config, [])) = Ok true.
Proof.
  apply (validate_config_accepts_exactly sample_fs
           (mkConfigManager (lit "config.json") sample_config) []).
  exists [(lit "deepseek",
           VDict [(lit "api_key", VStr (lit "sk-test"));
                  (lit "base_url", VStr (lit "https://api.deepseek.com/v1"));
                  (lit "model", VStr (lit "deepseek-chat"));
                  (lit "max_tokens", VInt 2000);
                  (lit "temperature", VFloat float_0_7)]);
          (lit "app",
           VDict [(lit "system_prompt_file", VStr (lit "prompts/system.txt"));
                  (lit "max_history", VInt 10)])].
  do 6 eexists.
  repeat split; try reflexivity. vm_compute. discriminate.
Defined.





(** X14: once _validate_config has accepted the configuration, no getter
    raises: get_api_key returns the validated key (a string, not blank,
    not the placeholder), get_base_url, get_model and get_system_prompt_file
    return the values of the file (the prompt file being one that exists),
    and get_max_tokens, get_temperature and get_max_history return the
    value of the file, whatever it is, or the default 2000, 0.7, 10 when
    the key is missing. *)
Theorem getters_after_validation :
  forall (fs : filesystem) (self : ConfigManager),
    config_accepted fs (config self) ->
    exists (deepseek app : list (str * value)) (key : str)
           (base model prompt : value),
      get_deepseek_config self = Ok (VDict deepseek)
      /\ get_app_config self = Ok (VDict app)
      /\ get_api_key self = Ok (VStr key)
      /\ strip key <> [] /\ key <> placeholder_api_key
      /\ get_base_url self = Ok base
      /\ get_model self = Ok model
      /\ get_system_prompt_file self = Ok prompt
      /\ path_exists fs prompt = Ok true
      /\ get_max_tokens self =
         Ok match dict_lookup (lit "max_tokens") deepseek with
            | Some v => v
            | None => VInt 2000
            end
      /\ get_temperature self =
         Ok match dict_lookup (lit "temperature") deepseek with
            | Some v => v
            | None => VFloat float_0_7
            end
      /\ get_max_history self =
         Ok match dict_lookup (lit "max_history") app with
            | Some v => v
            | None => VInt 10
            end.
Proof.
  intros fs self (d & ds & app & key & base & model & prompt & Hc & Hds & Hkey
                  & Hbase & Hmodel & Hph & Hstrip & Happ & Hprompt & Hex).
  exists ds, app, key, base, model, prompt.
  unfold get_deepseek_config, get_app_config, get_api_key, get_base_url,
    get_model, get_system_prompt_file, get_max_tokens, get_temperature,
    get_max_history, config_get.
  rewrite Hc. cbn [get_str]. rewrite Hds, Happ. cbn [get_str].
  rewrite Hkey, Hbase, Hmodel, Hprompt.
  repeat (split; [reflexivity|]).
  split; [exact Hstrip|]. split.
  { intros ->. rewrite str_eqb_refl in Hph. discriminate. }
  repeat (split; [reflexivity|]). split; [exact Hex|].
  destruct (dict_lookup (lit "max_tokens") ds),
           (dict_lookup (lit "temperature") ds),
           (dict_lookup (lit "max_history") app); repeat split.
Qed.

Lemma getters_after_validation_witness :
  get_max_history (mkConfigManager (lit "config.json") sample_config) =
    Ok (VInt 10)
  /\ get_api_key (mkConfigManager (lit "config.json") sample_config) =
     Ok (VStr (lit "sk-test")).
Proof.
  destruct (getters_after_validation sample_fs
              (mkConfigManager (lit "config.json") sample_config))
    as (ds & app & key & base & model & prompt & _ & Happ & Hk & _ & _ & _ & _
        & _ & _ & _ & _ & Hm).
  - unfold config_accepted, sample_config. do 7 eexists.
    repeat split; try reflexivity. vm_compute. discriminate.
  - split; [|reflexivity]. rewrite Hm.
    injection Happ as <-. reflexivity.
Defined.

(* ================================================================== *)
(** * prompt_manager.py *)















(* ================================================================== *)
(** * main.py *)

Lemma in_command_words (command : str) :
  in_list command command_words =
  in_list command [lit "quit"; lit "exit"; lit "q"]
  || str_eqb command (lit "clear") || str_eqb command (lit "history")
  || str_eqb command (lit "reload") || str_eqb command (lit "help").
Proof.
  unfold in_list, command_words. cbn [existsb].
  rewrite !orb_false_r, !orb_assoc. reflexivity.
Qed.

(** X19: handle_command returns False exactly when the input, stripped and
    lower-cased, is none of quit, exit, q, clear, history, reload, help,
    and then it changes nothing and prints nothing. Whatever the input, it
    leaves the configuration manager alone, it turns running off exactly
    for quit, exit and q, and it creates neither a client nor a prompt
    manager where there was none. *)
Theorem handle_command_dispatch :
  forall (lower : str -> str) (fs : filesystem) (user_input : str)
         (self : DeepSeekCLI) (out : list cli_event),
    let command := lower (strip user_input) in
    let r := handle_command lower fs user_input (self, out) in
    (in_list command command_words = false -> r = (Ok false, (self, out)))
    /\ (fst r = Ok false -> in_list command command_words = false)
    /\ config_manager (fst (snd r)) = config_manager self
    /\ running (fst (snd r)) =
       running self && negb (in_list command [lit "quit"; lit "exit"; lit "q"])
    /\ (api_client self = None -> api_client (fst (snd r)) = None)
    /\ (prompt_manager self = None -> prompt_manager (fst (snd r)) = None).
Proof.
  intros lower fs user_input self out command r.
  subst r. rewrite in_command_words. unfold handle_command. fold command.
  destruct (in_list command [lit "quit"; lit "exit"; lit "q"]) eqn:Q.
  { cbn. rewrite andb_false_r.
    repeat split; try discriminate; auto. }
  destruct (str_eqb command (lit "clear")) eqn:C.
  { unfold ebind, eget, eput, eret, on_client. cbn [fst snd].
    destruct (api_client self) as [c|] eqn:A.
    - unfold clear_history, bind, update_self, print, emit. cbn.
      destruct (prompt_manager self) as [pm|] eqn:P; cbn;
        rewrite andb_true_r; repeat split; try discriminate; auto.
    - cbn. rewrite andb_true_r. repeat split; try discriminate; auto. }
  destruct (str_eqb command (lit "history")) eqn:H.
  { unfold ebind, eget, eput, eret, esay. cbn [fst snd].
    destruct (api_client self) as [c|] eqn:A.
    - destruct (get_history_summary c) as [[[[t s] u] a] m]. cbn.
      rewrite andb_true_r. repeat split; try discriminate; auto.
    - cbn. rewrite andb_true_r. repeat split; try discriminate; auto. }
  destruct (str_eqb command (lit "reload")) eqn:R.
  { unfold ebind, eget, eput, eret, esay, on_prompt_manager. cbn [fst snd].
    destruct (prompt_manager self) as [pm|] eqn:P.
    - destruct (api_client self) as [c|] eqn:A.
      + destruct (reload_system_prompt fs (pm, [])) as [[[|]|e] [pm' events]];
          cbn; rewrite andb_true_r; repeat split; try discriminate; auto.
      + cbn. rewrite andb_true_r. repeat split; try discriminate; auto.
    - cbn. rewrite andb_true_r. repeat split; try discriminate; auto. }
  destruct (str_eqb command (lit "help")) eqn:Hp.
  { cbn. rewrite andb_true_r. repeat split; try discriminate; auto. }
  cbn. rewrite andb_true_r. repeat split; auto.
Qed.

Lemma handle_command_dispatch_witness :
  handle_command ascii_lower sample_fs (lit "What is Rocq?") (sample_cli, []) =
    (Ok false, (sample_cli, []))
  /\ running (fst (snd (handle_command ascii_lower sample_fs (lit "  QUIT ")
                          (sample_cli, [])))) = false.
Proof.
  destruct (handle_command_dispatch ascii_lower sample_fs (lit "What is Rocq?")
              sample_cli []) as [H _].
  split; [apply H; reflexivity|].
  destruct (handle_command_dispatch ascii_lower sample_fs (lit "  QUIT ")
              sample_cli []) as (_ & _ & _ & -> & _).
  reflexivity.
Defined.

(** X20: the command clear empties the conversation and installs the
    prompt manager's current prompt afresh: afterwards the history is the
    single system message carrying that prompt stripped of surrounding
    whitespace, or is empty when the stripped prompt is empty; nothing
    else of the client changes, and the command returns True. Without a
    prompt manager the system messages of the history are kept as they
    are. *)
Theorem clear_command_resets_history :
  forall (lower : str -> str) (fs : filesystem) (user_input : str)
         (self : DeepSeekCLI) (out : list cli_event) (c : DeepSeekClient),
    lower (strip user_input) = lit "clear" ->
    api_client self = Some c ->
    (forall pm,
        prompt_manager self = Some pm ->
        handle_command lower fs user_input (self, out) =
        (Ok true,
         (set_api_client self
            (set_conversation_history c
               match strip (system_prompt pm) with
               | [] => []
               | _ :: _ =>
                   [mkChatMessage (lit "system")
                      (VStr (strip (system_prompt pm)))]
               end),
          out ++ [ClientEvent (Print HistoryCleared)])))
    /\ (prompt_manager self = None ->
        handle_command lower fs user_input (self, out) =
        (Ok true,
         (set_api_client self
            (set_conversation_history c
               (filter is_system (conversation_history c))),
          out ++ [ClientEvent (Print HistoryCleared)]))).
Proof.
  intros lower fs user_input self out c Hcmd Hc.
  unfold handle_command. rewrite Hcmd.
  change (in_list (lit "clear") [lit "quit"; lit "exit"; lit "q"]) with false.
  change (str_eqb (lit "clear") (lit "clear")) with true. cbv iota.
  unfold ebind, eget, eput, eret, on_client. cbn [fst snd]. rewrite Hc.
  unfold clear_history, bind, update_self, print, emit.
  cbn [fst snd client trace map app prompt_manager api_client set_api_client
       line_encodable].
  split.
  - intros pm Hpm. rewrite Hpm. cbn [fst snd].
    unfold set_api_client, get_system_prompt.
    cbn [config_manager prompt_manager api_client running].
    f_equal. f_equal. f_equal. f_equal.
    unfold set_system_prompt.
    cbn [conversation_history set_conversation_history].
    rewrite filter_others_of_system.
    destruct (strip (system_prompt pm)); reflexivity.
  - intros Hpm. rewrite Hpm. reflexivity.
Qed.

Lemma clear_command_resets_history_witness :
  exists c,
    api_client (fst (snd (handle_command ascii_lower sample_fs (lit "Clear")
                            (sample_cli, [])))) = Some c
    /\ conversation_history c =
       [mkChatMessage (lit "system") (VStr (lit "Be brief."))].
Proof.
  destruct (clear_command_resets_history ascii_lower sample_fs (lit "Clear")
              sample_cli []
              (add_assistant_message
                 (add_user_message
                    (set_system_prompt fresh_client (lit "Be brief."))
                    (VStr (lit "hello")))
                 (VStr (lit "hi")))
              eq_refl eq_refl) as [H _].
  rewrite (H _ eq_refl). eexists. split; reflexivity.
Defined.




